(** * AgentGatePay SDK: mandate lifecycle, payment settlement, webhook authenticity

    A shallow embedding of the TypeScript SDK's core:
    - [ConfigLoader.ensureMandateValid]   (src/config-loader.ts)
    - [PaymentsModule.submitTxHash], [verify], [waitForConfirmation]
                                           (src/modules/payments.ts)
    - [WebhooksModule.verifySignature], [verifyAndParse]
                                           (src/modules/webhooks.ts)
    - the validators of src/utils/validation.ts and the error classes of
      src/types/index.ts.

    Conventions of the embedding.
    - A JavaScript number is a [number]: NaN, the two infinities, or a finite
      value given by the rational it denotes.
    - A JavaScript string is a [string] of one-byte characters; [length] and
      the regular expressions agree with the source on ASCII text.
    - A method that can throw returns [exn + A]; an async method that talks to
      the gateway is a computation [M S A] over an explicit state, which also
      records the outward calls it makes (its trace), in order.
    - The gateway, the clock and the Node built-ins (HMAC, JSON.parse,
      parseFloat, number printing) are parameters of the sections below.
    - console.log output is not part of the model. *)

From Stdlib Require Import String Ascii List ZArith QArith Bool Lia.
From Stdlib Require Import DecimalString.
Import ListNotations.

Local Close Scope Q_scope.
Local Open Scope nat_scope.
Local Open Scope list_scope.
Local Open Scope string_scope.

(* ===================================================================== *)
(** ** JavaScript values *)
(* ===================================================================== *)

Module JS.

(** IEEE doubles, by the value they denote. *)
Inductive number : Type :=
| NaN
| Infinity
| NegInfinity
| Finite (q : Q).

Definition of_Z (z : Z) : number := Finite (inject_Z z).

Definition isNaN (x : number) : bool :=
  match x with NaN => true | _ => false end.

Definition isFinite (x : number) : bool :=
  match x with Finite _ => true | _ => false end.

(** [Qltb p q]: p < q on rationals, as a boolean. *)
Definition Qltb (p q : Q) : bool := negb (Qle_bool q p).

(** [x < y]; any comparison with NaN is false. *)
Definition lt (x y : number) : bool :=
  match x, y with
  | NaN, _ | _, NaN => false
  | Finite p, Finite q => Qltb p q
  | NegInfinity, NegInfinity => false
  | NegInfinity, _ => true
  | _, NegInfinity => false
  | Infinity, _ => false
  | Finite _, Infinity => true
  end.

(** [x > y] *)
Definition gt (x y : number) : bool := lt y x.

(** [x <= y]; false when either side is NaN. *)
Definition le (x y : number) : bool :=
  match x, y with
  | NaN, _ | _, NaN => false
  | Finite p, Finite q => Qle_bool p q
  | NegInfinity, _ => true
  | _, Infinity => true
  | _, _ => false
  end.

(** [x * y], exact on finite values (0 times an infinity is NaN). *)
Definition mul (x y : number) : number :=
  match x, y with
  | NaN, _ | _, NaN => NaN
  | Finite p, Finite q => Finite (p * q)
  | Finite p, Infinity | Infinity, Finite p =>
      if Qeq_bool p 0 then NaN else if Qltb 0 p then Infinity else NegInfinity
  | Finite p, NegInfinity | NegInfinity, Finite p =>
      if Qeq_bool p 0 then NaN else if Qltb 0 p then NegInfinity else Infinity
  | Infinity, Infinity | NegInfinity, NegInfinity => Infinity
  | Infinity, NegInfinity | NegInfinity, Infinity => NegInfinity
  end.

(** Truthiness of a number: every number but 0 and NaN. *)
Definition truthy_number (x : number) : bool :=
  match x with
  | NaN => false
  | Finite q => negb (Qeq_bool q 0)
  | _ => true
  end.

(** Truthiness of a string: every string but the empty one. *)
Definition truthy_string (s : string) : bool :=
  match s with EmptyString => false | _ => true end.

(** Truthiness of a possibly undefined value. *)
Definition truthy_opt {A : Type} (truthy : A -> bool) (v : option A) : bool :=
  match v with Some a => truthy a | None => false end.

(** [a || b] on strings, [a] possibly undefined. *)
Definition or_string (a : option string) (b : string) : string :=
  match a with
  | Some s => if truthy_string s then s else b
  | None => b
  end.

(** [a || b] on numbers, [a] possibly undefined. *)
Definition or_number (a : option number) (b : number) : number :=
  match a with
  | Some x => if truthy_number x then x else b
  | None => b
  end.

(** Template-literal rendering of a possibly undefined string. *)
Definition show_string (a : option string) : string :=
  match a with Some s => s | None => "undefined" end.

(** Template-literal rendering of an integer (decimal digits). *)
Definition show_Z (z : Z) : string := NilZero.string_of_int (Z.to_int z).

(** [new Date(ms).toISOString()] exists only for a time value within
    8.64e15 ms of the epoch; otherwise it throws a RangeError. *)
Definition valid_time_value (ms : number) : bool :=
  match ms with
  | Finite q =>
      Qle_bool (inject_Z (-8640000000000000)) q
      && Qle_bool q (inject_Z 8640000000000000)
  | _ => false
  end.

End JS.

(* ===================================================================== *)
(** ** Errors (src/types/index.ts, src/utils/validation.ts) *)
(* ===================================================================== *)

(** The values the SDK throws.  [AgentPayError] and its subclasses carry a
    status code; [ValidationError] and the built-in errors do not.  The
    free-form [details] field of [AgentPayError] is left out. *)
Inductive exn : Type :=
| Error (message : string)
| TypeError (message : string)
| RangeError (message : string)
| SyntaxError (message : string)
| ValidationError (message : string)
| AgentPayError (message code : string) (status : option Z)
| RateLimitError (message : string) (retryAfter limit remaining : Z)
| AuthenticationError (message : string)
| InvalidTransactionError (message reason : string)
| MandateError (message reason : string).

(** [error.statusCode] *)
Definition error_statusCode (e : exn) : option Z :=
  match e with
  | AgentPayError _ _ st => st
  | RateLimitError _ _ _ _ => Some 429%Z
  | AuthenticationError _ => Some 401%Z
  | InvalidTransactionError _ _ => Some 400%Z
  | MandateError _ _ => Some 400%Z
  | _ => None
  end.

(** [error instanceof InvalidTransactionError] *)
Definition is_InvalidTransactionError (e : exn) : bool :=
  match e with InvalidTransactionError _ _ => true | _ => false end.

(** [error.statusCode !== 404] *)
Definition statusCode_is_not_404 (e : exn) : bool :=
  match error_statusCode e with
  | Some c => negb (c =? 404)%Z
  | None => true
  end.

(* ===================================================================== *)
(** ** Outward calls and the computation monad *)
(* ===================================================================== *)

(** What a method does to the outside world, in the order it does it. *)
Inductive event : Type :=
| MandatesVerify (mandateToken : string)
| MandatesIssue (subject : string) (budget : JS.number) (scope : string)
                (ttlMinutes : JS.number)
| HttpGet (url : string) (headers : list (string * string))
| Sleep (ms : Z)
| JsonParse (text : string).

Module Eff.
Section Monad.
Context {S : Type}.

(** A computation over state [S]: its result (thrown or returned), the state
    it leaves, and the calls it made.  A throw keeps the state reached. *)
Definition M (A : Type) : Type := S -> (exn + A) * S * list event.

Definition ret {A} (a : A) : M A := fun s => (inr a, s, []).

Definition throw {A} (e : exn) : M A := fun s => (inl e, s, []).

Definition bind {A B} (m : M A) (k : A -> M B) : M B :=
  fun s =>
    match m s with
    | (inl e, s1, t1) => (inl e, s1, t1)
    | (inr a, s1, t1) =>
        match k a s1 with (r, s2, t2) => (r, s2, (t1 ++ t2)%list) end
    end.

(** [try { m } catch (e) { h e }] *)
Definition try_catch {A} (m : M A) (h : exn -> M A) : M A :=
  fun s =>
    match m s with
    | (inl e, s1, t1) =>
        match h e s1 with (r, s2, t2) => (r, s2, (t1 ++ t2)%list) end
    | (inr a, s1, t1) => (inr a, s1, t1)
    end.

(** A method that only throws or returns, used inside a computation. *)
Definition lift {A} (r : exn + A) : M A := fun s => (r, s, []).

Definition get : M S := fun s => (inr s, s, []).
Definition put (s' : S) : M unit := fun _ => (inr tt, s', []).

(** An outward call: [f] is what the outside answers and how it moves on,
    [ev] is the record of the call. *)
Definition call {A} (ev : event) (f : S -> (exn + A) * S) : M A :=
  fun s => match f s with (r, s') => (r, s', [ev]) end.

(** The outcome [o] of a computation, with the call [ev] made before it. *)
Definition preceded_by {A} (ev : event) (o : (exn + A) * S * list event)
  : (exn + A) * S * list event :=
  match o with (r, s, t) => (r, s, ev :: t) end.

Definition result {A} (o : (exn + A) * S * list event) : exn + A := fst (fst o).
Definition final {A} (o : (exn + A) * S * list event) : S := snd (fst o).
Definition trace {A} (o : (exn + A) * S * list event) : list event := snd o.
End Monad.
#[global] Arguments M : clear implicits.
End Eff.

Declare Scope eff_scope.
Delimit Scope eff_scope with eff.
Notation "x <- m ;; k" := (Eff.bind m (fun x => k))
  (at level 100, m at next level, right associativity) : eff_scope.
Notation "m ;;; k" := (Eff.bind m (fun _ => k))
  (at level 100, right associativity) : eff_scope.

(** Sequencing of methods that only throw or return. *)
Definition and_then {A B} (r : exn + A) (k : A -> exn + B) : exn + B :=
  match r with inl e => inl e | inr a => k a end.
Notation "r >> k" := (and_then r (fun _ => k))
  (at level 61, right associativity).

(* ===================================================================== *)
(** ** Validation layer (src/utils/validation.ts) *)
(* ===================================================================== *)

Module Validation.

Definition SUPPORTED_CHAINS : list string :=
  ["ethereum"; "base"; "polygon"; "arbitrum"].
Definition SUPPORTED_TOKENS : list string := ["USDC"; "USDT"; "DAI"].

(** [arr.includes(s)] *)
Definition includes (arr : list string) (s : string) : bool :=
  existsb (String.eqb s) arr.

(** [arr.join(', ')] *)
Definition join (arr : list string) : string := String.concat ", " arr.

(** [[a-fA-F0-9]] *)
Definition is_hex (c : ascii) : bool :=
  let n := nat_of_ascii c in
  (((48 <=? n) && (n <=? 57)) || ((65 <=? n) && (n <=? 70))
   || ((97 <=? n) && (n <=? 102)))%nat.

Definition all_hex (s : string) : bool := forallb is_hex (list_ascii_of_string s).

(** [/^0x[a-fA-F0-9]{64}$/.test(s)] *)
Definition txHashRegex_test (s : string) : bool :=
  match s with
  | String "0" (String "x" rest) => (String.length rest =? 64)%nat && all_hex rest
  | _ => false
  end.

(** [s.split(sep).length] for a one-character separator: one more than the
    number of separators in [s]. *)
Fixpoint split_length (sep : ascii) (s : string) : nat :=
  match s with
  | EmptyString => 1
  | String c rest =>
      if Ascii.eqb c sep then S (split_length sep rest) else split_length sep rest
  end.

Definition validateChain (chain : string) : exn + unit :=
  if negb (includes SUPPORTED_CHAINS chain) then
    inl (ValidationError ("Unsupported chain: " ++ chain ++ ". Supported chains: "
                          ++ join SUPPORTED_CHAINS))
  else inr tt.

Definition validateToken (token : string) : exn + unit :=
  if negb (includes SUPPORTED_TOKENS token) then
    inl (ValidationError ("Unsupported token: " ++ token ++ ". Supported tokens: "
                          ++ join SUPPORTED_TOKENS))
  else inr tt.

Section Amount.
(** Template-literal rendering of a number (a built-in). *)
Variable show_number : JS.number -> string.

(** The argument is a number by its type, so the [typeof] test is vacuous. *)
Definition validateAmount (amount : JS.number) (fieldName : string) : exn + unit :=
  if JS.isNaN amount || JS.le amount (JS.of_Z 0) then
    inl (ValidationError (fieldName ++ " must be a positive number, got: "
                          ++ show_number amount))
  else inr tt.
End Amount.

Definition validateMandateToken (token : string) : exn + unit :=
  if negb (JS.truthy_string token) || (String.length token <? 10)%nat then
    inl (ValidationError "Invalid mandate token")
  else if negb (split_length "." token =? 3)%nat then
    inl (ValidationError "Invalid mandate token format (expected JWT-like structure)")
  else inr tt.

Definition validateTxHash (txHash : string) : exn + unit :=
  if negb (JS.truthy_string txHash) || negb (txHashRegex_test txHash) then
    inl (ValidationError ("Invalid transaction hash: " ++ txHash))
  else inr tt.

(** [value === undefined || value === null || value === ''] *)
Definition validateRequired (value : option string) (fieldName : string) : exn + unit :=
  match value with
  | None | Some EmptyString => inl (ValidationError (fieldName ++ " is required"))
  | Some _ => inr tt
  end.

(** Whatever a validator throws is a ValidationError. *)
Definition throws_only_ValidationError {A} (r : exn + A) : Prop :=
  forall e, r = inl e -> exists msg, e = ValidationError msg.

End Validation.

(* ===================================================================== *)
(** ** Webhook authenticity verifier (src/modules/webhooks.ts) *)
(* ===================================================================== *)

Module WebhooksModule.
Import Validation.
Local Open Scope eff_scope.

(** The two errors [verifyAndParse] throws of its own. *)
Definition authenticity_error : exn := Error "Invalid webhook signature".
Definition parse_error : exn := Error "Invalid webhook payload JSON".

Section Webhooks.
(** [createHmac('sha256', secret).update(payload).digest('hex')]: Node's
    HMAC-SHA256 of [payload] keyed by [secret], as lowercase hex. *)
Variable hmac_sha256_hex : forall (secret payload : string), string.

(** [JSON.parse]: the parsed value, or [None] where it throws a SyntaxError. *)
Variable json : Type.
Variable JSON_parse : string -> option json.

Definition verifySignature (payload signature secret : string) : exn + bool :=
  validateRequired (Some payload) "payload" >>
  validateRequired (Some signature) "signature" >>
  validateRequired (Some secret) "secret" >>
  let expectedSignature := hmac_sha256_hex secret payload in
  inr (String.eqb signature expectedSignature).

(** The call to [JSON.parse], recorded in the trace. *)
Definition parse (text : string) : Eff.M unit json :=
  Eff.call (JsonParse text)
    (fun s => match JSON_parse text with
              | Some v => (inr v, s)
              | None => (inl (SyntaxError "Unexpected token in JSON"), s)
              end).

Definition verifyAndParse (payload signature secret : string) : Eff.M unit json :=
  ok <- Eff.lift (verifySignature payload signature secret) ;;
  if negb ok then Eff.throw authenticity_error
  else Eff.try_catch (parse payload) (fun _ => Eff.throw parse_error).
End Webhooks.
End WebhooksModule.

(* ===================================================================== *)
(** ** Wire types (src/types/index.ts) *)
(* ===================================================================== *)

(** [APIResponse<T>]; an absent [data] is [None]. *)
Record APIResponse (T : Type) : Type := mkAPIResponse {
  success : bool;
  data : option T;
  statusCode : Z;
  headers : list (string * string)
}.
Arguments mkAPIResponse {T}.
Arguments success {T}.
Arguments data {T}.
Arguments statusCode {T}.
Arguments headers {T}.

Module PaymentVerification.
Record t : Type := mk {
  isValid : bool;
  txHash : string;
  status : string;
  sender : string;
  recipient : string;
  amountUsd : JS.number;
  token : string;
  chain : string;
  blockNumber : option JS.number;
  timestamp : string;
  error : option string
}.
End PaymentVerification.

Module SubmitPaymentResponse.
Record t (resource_t : Type) : Type := mk {
  success : bool;
  status : string;
  txHash : string;
  txHashCommission : option string;
  amountUsd : JS.number;
  budgetRemaining : JS.number;
  resource : option resource_t;
  error : option string
}.
Arguments mk {resource_t}.
Arguments success {resource_t}.
Arguments status {resource_t}.
Arguments txHash {resource_t}.
Arguments txHashCommission {resource_t}.
Arguments amountUsd {resource_t}.
Arguments budgetRemaining {resource_t}.
Arguments resource {resource_t}.
Arguments error {resource_t}.
End SubmitPaymentResponse.

Module MandatePayload.
Record t : Type := mk {
  sub : string;
  budget_usd : string;
  budget_remaining : string;
  scope : string;
  exp : JS.number;
  iat : JS.number;
  nonce : string
}.
End MandatePayload.

Module VerifyMandateResponse.
Record t : Type := mk {
  valid : bool;
  payload : option MandatePayload.t;
  error : option string
}.
End VerifyMandateResponse.

Module IssueMandateResponse.
Record t : Type := mk {
  mandateId : string;
  mandateToken : string;
  issuedAt : JS.number;
  expiresAt : JS.number
}.
End IssueMandateResponse.

(* ===================================================================== *)
(** ** Payment settlement protocol (src/modules/payments.ts) *)
(* ===================================================================== *)

Module PaymentsModule.
Import Validation.
Local Open Scope eff_scope.

(** The double-quote character, for the JSON text of the payment header. *)
Definition dquote : string := String (ascii_of_nat 34) EmptyString.

(** [JSON.stringify] of a string made of characters that need no escape. *)
Definition json_string (s : string) : string := dquote ++ s ++ dquote.

(** [JSON.stringify(paymentPayload)]: the keys in insertion order. *)
Definition stringify_paymentPayload (tx_hash : string)
    (tx_hash_commission : option string) : string :=
  "{" ++ json_string "scheme" ++ ":" ++ json_string "eip3009" ++ ","
      ++ json_string "tx_hash" ++ ":" ++ json_string tx_hash
      ++ match tx_hash_commission with
         | Some c => "," ++ json_string "tx_hash_commission" ++ ":" ++ json_string c
         | None => EmptyString
         end
      ++ "}".

(** A default parameter value: used when the argument is undefined. *)
Definition default {A : Type} (d : A) (arg : option A) : A :=
  match arg with Some a => a | None => d end.

(** [a || b] where both may be undefined. *)
Definition or_undefined (a b : option JS.number) : option JS.number :=
  match a with
  | Some x => if JS.truthy_number x then a else b
  | None => b
  end.

Section Payments.
(** The gateway as the client sees it: a state that answers each request and
    moves on. *)
Variable Env : Type.

(** The body served by the resource endpoint ([any] in the source) and the
    two properties the client reads from it. *)
Variable resource_t : Type.
Variable amount_usd : resource_t -> option JS.number.
Variable budget_remaining : resource_t -> option JS.number.

(** [this.http.get<any>(url, { headers })] *)
Variable http_get_resource :
  Env -> string -> list (string * string) -> (exn + APIResponse resource_t) * Env.

(** [this.http.get<PaymentVerification>(url)] *)
Variable http_get_verification :
  Env -> string -> list (string * string) -> (exn + APIResponse PaymentVerification.t) * Env.

(** Template-literal rendering of a number (a built-in). *)
Variable show_number : JS.number -> string.

Definition get_resource (url : string) (hs : list (string * string))
  : Eff.M Env (APIResponse resource_t) :=
  Eff.call (HttpGet url hs) (fun env => http_get_resource env url hs).

Definition get_verification (url : string)
  : Eff.M Env (APIResponse PaymentVerification.t) :=
  Eff.call (HttpGet url []) (fun env => http_get_verification env url []).

(** [setTimeout] awaited for [ms] milliseconds. *)
Definition sleep (ms : Z) : Eff.M Env unit :=
  Eff.call (Sleep ms) (fun env => (inr tt, env)).

(** The checks at the head of [submitTxHash]. *)
Definition submitTxHash_validate (mandate txHash : string)
    (txHashCommission : option string) (chain token : string)
    (priceUsd : option JS.number) : exn + unit :=
  validateRequired (Some mandate) "mandate" >>
  validateRequired (Some txHash) "txHash" >>
  validateMandateToken mandate >>
  validateTxHash txHash >>
  validateChain chain >>
  validateToken token >>
  match txHashCommission with
  | Some c => if JS.truthy_string c then validateTxHash c else inr tt
  | None => inr tt
  end >>
  match priceUsd with
  | Some p => validateAmount show_number p "priceUsd"
  | None => inr tt
  end.

(** The headers and the URL of the settlement request. *)
Definition payment_headers (mandate txHash : string) (txHashCommission : option string)
  : list (string * string) :=
  let tx_hash_commission :=
    match txHashCommission with
    | Some c => if JS.truthy_string c then Some c else None
    | None => None
    end in
  [("x-mandate", mandate);
   ("x-payment", stringify_paymentPayload txHash tx_hash_commission)].

Definition resource_url (chain token : string) (priceUsd : option JS.number) : string :=
  let url := "/x402/resource?chain=" ++ chain ++ "&token=" ++ token in
  match priceUsd with
  | Some p => url ++ "&price_usd=" ++ show_number p
  | None => url
  end.

Definition submitTxHash (mandate txHash : string)
    (txHashCommission chain_arg token_arg : option string)
    (priceUsd : option JS.number)
  : Eff.M Env (SubmitPaymentResponse.t resource_t) :=
  let chain := default "base" chain_arg in
  let token := default "USDC" token_arg in
  Eff.lift (submitTxHash_validate mandate txHash txHashCommission chain token priceUsd) ;;;
  let headers := payment_headers mandate txHash txHashCommission in
  let url := resource_url chain token priceUsd in
  Eff.try_catch
    (response <- get_resource url headers ;;
     let d := data response in
     Eff.ret (SubmitPaymentResponse.mk true "completed" txHash txHashCommission
                (JS.or_number
                   (or_undefined (match d with Some r => amount_usd r | None => None end)
                                 priceUsd)
                   (JS.of_Z 0))
                (JS.or_number (match d with Some r => budget_remaining r | None => None end)
                              (JS.of_Z 0))
                d None))
    (fun error =>
       match error with
       | InvalidTransactionError _ reason =>
           Eff.ret (SubmitPaymentResponse.mk false "failed" txHash txHashCommission
                      (JS.of_Z 0) (JS.of_Z 0) None (Some reason))
       | _ => Eff.throw error
       end).

Definition verify_url (txHash : string) : string := "/v1/payments/verify/" ++ txHash.

Definition verify (txHash : string) : Eff.M Env PaymentVerification.t :=
  Eff.lift (validateRequired (Some txHash) "txHash" >> validateTxHash txHash) ;;;
  response <- get_verification (verify_url txHash) ;;
  match data response with
  | None => Eff.throw (Error "Failed to verify payment")
  | Some d => Eff.ret d
  end.

(** One turn of the polling loop: [Some v] when the loop returns [v], [None]
    when it goes on to the next turn. *)
Definition poll_once (txHash : string) (intervalMs : Z)
  : Eff.M Env (option PaymentVerification.t) :=
  Eff.try_catch
    (verification <- verify txHash ;;
     if String.eqb (PaymentVerification.status verification) "completed" then
       Eff.ret (Some verification)
     else if String.eqb (PaymentVerification.status verification) "failed" then
       Eff.throw (InvalidTransactionError
                    ("Transaction failed: "
                     ++ JS.show_string (PaymentVerification.error verification))
                    (JS.or_string (PaymentVerification.error verification) "Unknown error"))
     else
       sleep intervalMs ;;;
       Eff.ret None)
    (fun error =>
       if statusCode_is_not_404 error then Eff.throw error else Eff.ret None).

(** [for (let i = 0; i < maxAttempts; i++)], by the number of turns left. *)
Fixpoint poll (txHash : string) (intervalMs : Z) (turns : nat)
  : Eff.M Env (option PaymentVerification.t) :=
  match turns with
  | O => Eff.ret None
  | S n =>
      r <- poll_once txHash intervalMs ;;
      match r with
      | Some v => Eff.ret (Some v)
      | None => poll txHash intervalMs n
      end
  end.

Definition waitForConfirmation (txHash : string) (maxAttempts_arg intervalMs_arg : option Z)
  : Eff.M Env PaymentVerification.t :=
  let maxAttempts := default 30%Z maxAttempts_arg in
  let intervalMs := default 2000%Z intervalMs_arg in
  Eff.lift (validateRequired (Some txHash) "txHash" >> validateTxHash txHash) ;;;
  r <- poll txHash intervalMs (Z.to_nat maxAttempts) ;;
  match r with
  | Some v => Eff.ret v
  | None =>
      Eff.throw (Error ("Transaction " ++ txHash ++ " not confirmed after "
                        ++ JS.show_Z maxAttempts ++ " attempts"))
  end.

(** *** Observations on a run *)

(** The gateway state after [n] successive verification requests for [txHash]. *)
Fixpoint env_after_polls (txHash : string) (n : nat) (env : Env) : Env :=
  match n with
  | O => env
  | S k => env_after_polls txHash k (snd (http_get_verification env (verify_url txHash) []))
  end.

(** What the gateway answers to the [i]-th verification request, counting from 0. *)
Definition poll_answer (txHash : string) (env : Env) (i : nat)
  : exn + APIResponse PaymentVerification.t :=
  fst (http_get_verification (env_after_polls txHash i env) (verify_url txHash) []).

(** The gateway reports the record as not found: an error with status 404. *)
Definition not_found (a : exn + APIResponse PaymentVerification.t) : Prop :=
  exists e, a = inl e /\ error_statusCode e = Some 404%Z.

(** The gateway serves a record that is neither completed nor failed. *)
Definition still_pending (a : exn + APIResponse PaymentVerification.t) : Prop :=
  exists r v, a = inr r /\ data r = Some v
              /\ PaymentVerification.status v <> "completed"
              /\ PaymentVerification.status v <> "failed".

(** The gateway serves a record with status failed and the given reason. *)
Definition reports_failed (a : exn + APIResponse PaymentVerification.t)
    (reason : option string) : Prop :=
  exists r v, a = inr r /\ data r = Some v
              /\ PaymentVerification.status v = "failed"
              /\ PaymentVerification.error v = reason.

(** *** Preconditions of [submitTxHash] *)

(** An input the validators refuse: a mandate token shorter than 10
    characters or not made of three dot-separated parts, a primary hash or
    a non-empty commission hash that is not 0x and 64 hex digits, an
    unsupported chain or token, a price that is NaN or not above zero. *)
Definition refused (mandate txHash : string) (txHashCommission : option string)
    (chain token : string) (priceUsd : option JS.number) : Prop :=
  String.length mandate < 10
  \/ split_length "." mandate <> 3
  \/ txHashRegex_test txHash = false
  \/ (exists c, txHashCommission = Some c /\ c <> EmptyString
                /\ txHashRegex_test c = false)
  \/ ~ In chain SUPPORTED_CHAINS
  \/ ~ In token SUPPORTED_TOKENS
  \/ (exists p, priceUsd = Some p
                /\ (JS.isNaN p = true \/ JS.le p (JS.of_Z 0) = true)).

(** A price that is a finite positive number. *)
Definition finite_positive (p : JS.number) : Prop :=
  JS.isFinite p = true /\ JS.gt p (JS.of_Z 0) = true.
End Payments.

(** The number of requests sent, and the sleeps taken, in a trace. *)
Definition is_HttpGet (ev : event) : bool :=
  match ev with HttpGet _ _ => true | _ => false end.
Definition requests (t : list event) : nat := List.length (filter is_HttpGet t).
Definition sleeps (t : list event) : list Z :=
  flat_map (fun ev => match ev with Sleep ms => [ms] | _ => [] end) t.
Definition total_sleep (t : list event) : Z := fold_right Z.add 0%Z (sleeps t).

End PaymentsModule.

(* ===================================================================== *)
(** ** Mandate lifecycle manager (src/config-loader.ts) *)
(* ===================================================================== *)

Module ConfigLoader.
Local Open Scope eff_scope.

Record MandateSettings : Type := mkMandateSettings {
  budgetUsd : JS.number;
  ttlMinutes : option JS.number;
  scope : option string
}.

(** [AgentPayPublicConfig]; the optional chain and token preferences play no
    part in the mandate lifecycle and are left out. *)
Record AgentPayPublicConfig : Type := mkConfig {
  agentId : string;
  mandate : MandateSettings
}.

(** The fields of a [ConfigLoader] instance. *)
Record t : Type := mk {
  config : AgentPayPublicConfig;
  apiKey : string;
  walletPrivateKey : string;
  cachedMandateToken : option string;
  mandateExpiresAt : option JS.number
}.

Record MandateConfig : Type := mkMandateConfig {
  mc_subject : string;
  mc_budgetUsd : JS.number;
  mc_ttlMinutes : JS.number;
  mc_scope : string
}.

Definition getMandateConfig (self : t) : MandateConfig :=
  {| mc_subject := agentId (config self);
     mc_budgetUsd := budgetUsd (mandate (config self));
     mc_ttlMinutes := JS.or_number (ttlMinutes (mandate (config self))) (JS.of_Z 10080);
     mc_scope := JS.or_string (scope (mandate (config self))) "*" |}.

(** The literal 0.01 of the test [budgetRemaining > 0.01]: a mandate with no
    more than this left counts as exhausted.  The literal and the budgets
    compared with it are read as exact decimals. *)
Definition dust : JS.number := JS.Finite (1 # 100).

Section Lifecycle.
(** The client and the clock as the loader sees them. *)
Variable Env : Type.

(** [client.mandates.verify(token)] and [client.mandates.issue(...)] *)
Variable mandates_verify :
  Env -> string -> (exn + VerifyMandateResponse.t) * Env.
Variable mandates_issue :
  Env -> string -> JS.number -> string -> JS.number
  -> (exn + IssueMandateResponse.t) * Env.

(** [Date.now()], in milliseconds. *)
Variable Date_now : Env -> Z.

(** [parseFloat] (a built-in). *)
Variable parseFloat : string -> JS.number.

(** The state of a call: the loader instance and the outside world. *)
Definition St : Type := (t * Env)%type.

Definition client_verify (token : string) : Eff.M St VerifyMandateResponse.t :=
  Eff.call (MandatesVerify token)
    (fun s => let '(r, env') := mandates_verify (snd s) token in (r, (fst s, env'))).

Definition client_issue (subject : string) (budget : JS.number) (scope : string)
    (ttl : JS.number) : Eff.M St IssueMandateResponse.t :=
  Eff.call (MandatesIssue subject budget scope ttl)
    (fun s => let '(r, env') := mandates_issue (snd s) subject budget scope ttl in
              (r, (fst s, env'))).

(** The test [this.cachedMandateToken && this.mandateExpiresAt
    && this.mandateExpiresAt > Date.now()]: the cached token when the test
    holds, [None] when it does not. *)
Definition fresh_token (s : St) : option string :=
  match cachedMandateToken (fst s), mandateExpiresAt (fst s) with
  | Some token, Some e =>
      if JS.truthy_string token && JS.truthy_number e
         && JS.gt e (JS.of_Z (Date_now (snd s)))
      then Some token else None
  | _, _ => None
  end.

(** [this.cachedMandateToken = token; this.mandateExpiresAt = expiry] *)
Definition set_cache (token : string) (expiry : JS.number) : Eff.M St unit :=
  fun s =>
    let self := fst s in
    (inr tt,
     (mk (config self) (apiKey self) (walletPrivateKey self) (Some token) (Some expiry),
      snd s),
     []).

(** [new Date(ms).toISOString()], evaluated for the log line. *)
Definition toISOString (ms : JS.number) : exn + unit :=
  if JS.valid_time_value ms then inr tt else inl (RangeError "Invalid time value").

(** The first half of [ensureMandateValid]: [Some token] when the method
    returns the cached token, [None] when it falls through to issuance. *)
Definition try_reuse : Eff.M St (option string) :=
  s <- Eff.get ;;
  match fresh_token s with
  | Some token =>
      Eff.try_catch
        (verification <- client_verify token ;;
         if VerifyMandateResponse.valid verification then
           match VerifyMandateResponse.payload verification with
           | None =>
               Eff.throw (TypeError "Cannot read properties of undefined")
           | Some payload =>
               let budgetRemaining :=
                 parseFloat (MandatePayload.budget_remaining payload) in
               if JS.gt budgetRemaining dust then Eff.ret (Some token)
               else Eff.ret None
           end
         else Eff.ret None)
        (fun _ => Eff.ret None)
  | None => Eff.ret None
  end.

(** The second half: issue, cache, return. *)
Definition renew : Eff.M St string :=
  s <- Eff.get ;;
  let mandateConfig := getMandateConfig (fst s) in
  m <- client_issue (mc_subject mandateConfig) (mc_budgetUsd mandateConfig)
         (mc_scope mandateConfig) (mc_ttlMinutes mandateConfig) ;;
  let expiry := JS.mul (IssueMandateResponse.expiresAt m) (JS.of_Z 1000) in
  set_cache (IssueMandateResponse.mandateToken m) expiry ;;;
  Eff.lift (toISOString expiry) ;;;
  Eff.ret (IssueMandateResponse.mandateToken m).

Definition ensureMandateValid : Eff.M St string :=
  r <- try_reuse ;;
  match r with
  | Some token => Eff.ret token
  | None => renew
  end.

(** *** Observations on a run *)

(** No token is cached (the field is undefined or the empty string). *)
Definition cache_absent (s : St) : Prop :=
  JS.truthy_opt JS.truthy_string (cachedMandateToken (fst s)) = false.

(** A token is cached and the recorded expiry is not after the clock's
    reading; a missing, zero or NaN expiry is never after it. *)
Definition locally_expired (s : St) : Prop :=
  JS.truthy_opt JS.truthy_string (cachedMandateToken (fst s)) = true
  /\ match mandateExpiresAt (fst s) with
     | Some e =>
         JS.truthy_number e && JS.gt e (JS.of_Z (Date_now (snd s))) = false
     | None => True
     end.

(** The verify call for the fresh token [token] throws, or reports the
    mandate as not valid. *)
Definition verify_fails (s : St) (token : string) : Prop :=
  fresh_token s = Some token
  /\ ((exists e, fst (mandates_verify (snd s) token) = inl e)
      \/ (exists v, fst (mandates_verify (snd s) token) = inr v
                    /\ VerifyMandateResponse.valid v = false)).

(** The verify call for the fresh token reports it valid with the given
    remaining budget. *)
Definition verified_budget (s : St) (token : string) (b : JS.number) : Prop :=
  fresh_token s = Some token
  /\ exists v p, fst (mandates_verify (snd s) token) = inr v
                 /\ VerifyMandateResponse.valid v = true
                 /\ VerifyMandateResponse.payload v = Some p
                 /\ parseFloat (MandatePayload.budget_remaining p) = b.

(** The verify call for the fresh token reports it valid and carries no
    payload: reading [budget_remaining] of it throws, inside the [try]. *)
Definition valid_without_payload (s : St) (token : string) : Prop :=
  fresh_token s = Some token
  /\ exists v, fst (mandates_verify (snd s) token) = inr v
               /\ VerifyMandateResponse.valid v = true
               /\ VerifyMandateResponse.payload v = None.

(** A verification that says valid carries a payload whose remaining budget
    reads as a number. *)
Definition well_formed (v : VerifyMandateResponse.t) : Prop :=
  VerifyMandateResponse.valid v = true ->
  exists p, VerifyMandateResponse.payload v = Some p
            /\ JS.isNaN (parseFloat (MandatePayload.budget_remaining p)) = false.

(** The reasons for which a run goes on to renewal. *)
Definition renewal_cause (s : St) : Prop :=
  fresh_token s = None
  \/ (exists token, verify_fails s token)
  \/ (exists token b, verified_budget s token b /\ JS.gt b dust = false)
  \/ (exists token v, fresh_token s = Some token
                      /\ fst (mandates_verify (snd s) token) = inr v
                      /\ ~ well_formed v).

(** The outside world at the moment renewal starts. *)
Definition env_at_renewal (s : St) : Env := snd (Eff.final (try_reuse s)).

(** What [mandates.issue] answers when called for this loader at [env]. *)
Definition issue_answer (self : t) (env : Env) : exn + IssueMandateResponse.t :=
  let c := getMandateConfig self in
  fst (mandates_issue env (mc_subject c) (mc_budgetUsd c) (mc_scope c) (mc_ttlMinutes c)).
End Lifecycle.

(** The calls to [mandates.issue] and to [mandates.verify] in a trace. *)
Definition is_issue (ev : event) : bool :=
  match ev with MandatesIssue _ _ _ _ => true | _ => false end.
Definition is_verify (ev : event) : bool :=
  match ev with MandatesVerify _ => true | _ => false end.
Definition issues (t : list event) : nat := List.length (filter is_issue t).
Definition verifies (t : list event) : nat := List.length (filter is_verify t).

End ConfigLoader.

(* ===================================================================== *)
(** ** Concrete gateways and inputs, for runs of the model *)
(* ===================================================================== *)

Module Fixtures.

(** A stand-in keyed digest (injective, unlike a real one). *)
Definition hmac (secret payload : string) : string := secret ++ ":" ++ payload.

(** A stand-in parser: accepts the texts that open with a brace. *)
Definition JSON_parse (text : string) : option string :=
  match text with
  | String "{" _ => Some text
  | _ => None
  end.

(** A stand-in for number printing. *)
Definition show_number (x : JS.number) : string :=
  match x with
  | JS.NaN => "NaN"
  | JS.Infinity => "Infinity"
  | JS.NegInfinity => "-Infinity"
  | JS.Finite q => JS.show_Z (Qnum q) ++ "/" ++ JS.show_Z (Zpos (Qden q))
  end.

(** A stand-in for [parseFloat], defined on the budgets used below. *)
Definition parseFloat (s : string) : JS.number :=
  if String.eqb s "10.00" then JS.of_Z 10
  else if String.eqb s "7.00" then JS.of_Z 7
  else if String.eqb s "0.01" then JS.Finite (1 # 100)
  else if String.eqb s "0.00" then JS.of_Z 0
  else JS.NaN.

Definition txHash : string :=
  "0x1111111111111111111111111111111111111111111111111111111111111111".
Definition txHashCommission : string :=
  "0x2222222222222222222222222222222222222222222222222222222222222222".
Definition mandateToken : string := "header.payload.signature".

Definition record (status : string) (error : option string) : PaymentVerification.t :=
  PaymentVerification.mk true txHash status "0xsender" "0xrecipient" (JS.of_Z 3)
    "USDC" "base" None "2025-11-01T00:00:00Z" error.

Definition ok {T : Type} (d : T) : APIResponse T := mkAPIResponse true (Some d) 200%Z [].

(** What the HTTP client throws for a response with status 404: the generic
    API error, carrying the status. *)
Definition not_found_error : exn := AgentPayError "Payment not found" "API_ERROR" (Some 404%Z).

(** A gateway that counts the requests it has answered. *)
Definition Gateway : Type := nat.

(** The record is never found. *)
Definition never_found (g : Gateway) (url : string) (hs : list (string * string))
  : (exn + APIResponse PaymentVerification.t) * Gateway :=
  (inl not_found_error, S g).

(** Not found, then pending, then failed with a reason. *)
Definition fails_on_third (g : Gateway) (url : string) (hs : list (string * string))
  : (exn + APIResponse PaymentVerification.t) * Gateway :=
  match g with
  | 0 => (inl not_found_error, 1)
  | 1 => (inr (ok (record "pending" None)), 2)
  | _ => (inr (ok (record "failed" (Some "wrong amount"))), S g)
  end.

(** A resource body: the properties the client reads. *)
Definition Resource : Type := (option JS.number * option JS.number)%type.

(** The settlement endpoint accepts the payment. *)
Definition settles (g : Gateway) (url : string) (hs : list (string * string))
  : (exn + APIResponse Resource) * Gateway :=
  (inr (ok (Some (JS.of_Z 3), Some (JS.of_Z 7))), S g).

(** The settlement endpoint rejects the transaction. *)
Definition rejects (g : Gateway) (url : string) (hs : list (string * string))
  : (exn + APIResponse Resource) * Gateway :=
  (inl (InvalidTransactionError "Invalid transaction: amount mismatch" "wrong amount"), S g).

(** The settlement endpoint is rate limited. *)
Definition rate_limited (g : Gateway) (url : string) (hs : list (string * string))
  : (exn + APIResponse Resource) * Gateway :=
  (inl (RateLimitError "Rate limit exceeded" 60 100 0), S g).

(** A loader configured for a budget of 10 USD over 60 minutes. *)
Definition settings : ConfigLoader.AgentPayPublicConfig :=
  ConfigLoader.mkConfig "agent@example.com"
    (ConfigLoader.mkMandateSettings (JS.of_Z 10) (Some (JS.of_Z 60)) None).

Definition loader (token : option string) (expiry : option JS.number) : ConfigLoader.t :=
  ConfigLoader.mk settings "pk_test_0123456789abcdef0123456789abcdef"
    "0x3333333333333333333333333333333333333333333333333333333333333333"
    token expiry.

(** The outside world of the loader: the clock's reading, which the calls
    below leave as it is. *)
Definition World : Type := Z.
Definition Date_now (w : World) : Z := w.

Definition payload (budget_remaining : string) : MandatePayload.t :=
  MandatePayload.mk "agent@example.com" "10.00" budget_remaining "*"
    (JS.of_Z 1700003600) (JS.of_Z 1700000000) "nonce-1".

(** Verification answers: valid with 7.00 left; valid with nothing left;
    invalid; valid without a payload; an error. *)
Definition verify_funded (w : World) (token : string)
  : (exn + VerifyMandateResponse.t) * World :=
  (inr (VerifyMandateResponse.mk true (Some (payload "7.00")) None), w).

Definition verify_exhausted (w : World) (token : string)
  : (exn + VerifyMandateResponse.t) * World :=
  (inr (VerifyMandateResponse.mk true (Some (payload "0.00")) None), w).


Definition verify_bare (w : World) (token : string)
  : (exn + VerifyMandateResponse.t) * World :=
  (inr (VerifyMandateResponse.mk true None None), w).

Definition verify_throws (w : World) (token : string)
  : (exn + VerifyMandateResponse.t) * World :=
  (inl (MandateError "Mandate verification failed: expired" "VERIFICATION_FAILED"), w).

(** Issuance answers: a new mandate; a failure. *)
Definition issue_grants (w : World) (subject : string) (budget : JS.number)
    (scope : string) (ttl : JS.number) : (exn + IssueMandateResponse.t) * World :=
  (inr (IssueMandateResponse.mk "mandate-2" "header.payload.renewed"
          (JS.of_Z 1700000000) (JS.of_Z 1700003600)), w).


(** A clock reading inside the lifetime of the cached mandate, whose recorded
    expiry is [cached_expiry]. *)
Definition now : World := 1700000100000%Z.
Definition cached_expiry : JS.number := JS.of_Z 1700003600000.

(** The loader holding a mandate that is inside its lifetime. *)
Definition holding : ConfigLoader.t := loader (Some mandateToken) (Some cached_expiry).

End Fixtures.

(* ===================================================================== *)
(** ** HTTP client (src/utils/http.ts) *)
(* ===================================================================== *)

Module HttpClient.

(** [error.response] of a failed request.  [error] and [reason] are the
    properties of that name of the response body, absent when the body or
    the property is. *)
Module ErrorResponse.
Record t : Type := mk {
  status : Z;
  error : option string;
  reason : option string;
  headers : list (string * string)
}.
End ErrorResponse.

(** The error axios rejects with; [response] is absent when the server did
    not answer. *)
Module AxiosError.
Record t : Type := mk {
  message : string;
  response : option ErrorResponse.t
}.
End AxiosError.

(** The response axios resolves with. *)
Module AxiosResponse.
Record t (T : Type) : Type := mk {
  status : Z;
  data : option T;
  headers : list (string * string)
}.
Arguments mk {T}.
Arguments status {T}.
Arguments data {T}.
Arguments headers {T}.
End AxiosResponse.

(** [s.includes(needle)] *)
Fixpoint includes (needle s : string) : bool :=
  String.prefix needle s
  || match s with
     | EmptyString => false
     | String _ rest => includes needle rest
     end.

(** [headers[name]] *)
Fixpoint lookup (hs : list (string * string)) (name : string) : option string :=
  match hs with
  | [] => None
  | (k, v) :: rest => if String.eqb k name then Some v else lookup rest name
  end.

(** The failed request is a rejected transaction: a response with status 400
    whose message, the body's [error] or else axios's own, mentions a
    transaction. *)
Definition rejects_transaction (error : AxiosError.t) : bool :=
  match AxiosError.response error with
  | Some r =>
      (ErrorResponse.status r =? 400)%Z
      && includes "transaction"
           (JS.or_string (ErrorResponse.error r) (AxiosError.message error))
  | None => false
  end.

Section Client.
(** [parseInt], on the header values the gateway sends (decimal integers). *)
Variable parseInt : string -> Z.

Definition handleError (error : AxiosError.t) : exn :=
  match AxiosError.response error with
  | None =>
      AgentPayError
        (JS.or_string (Some (AxiosError.message error))
           "Network error - unable to reach AgentPay gateway")
        "NETWORK_ERROR" None
  | Some r =>
      let status := ErrorResponse.status r in
      let errorMessage := JS.or_string (ErrorResponse.error r) (AxiosError.message error) in
      if (status =? 429)%Z then
        let hs := ErrorResponse.headers r in
        RateLimitError (JS.or_string (Some errorMessage) "Rate limit exceeded")
          (parseInt (JS.or_string (lookup hs "retry-after") "60"))
          (parseInt (JS.or_string (lookup hs "x-ratelimit-limit") "0"))
          (parseInt (JS.or_string (lookup hs "x-ratelimit-remaining") "0"))
      else if (status =? 401)%Z then
        AuthenticationError
          (JS.or_string (Some errorMessage)
             "Authentication failed - invalid or missing API key")
      else if (status =? 400)%Z && includes "transaction" errorMessage then
        InvalidTransactionError errorMessage
          (JS.or_string (ErrorResponse.reason r) "Unknown reason")
      else
        AgentPayError (JS.or_string (Some errorMessage) "An error occurred")
          "API_ERROR" (Some status)
  end.

Definition wrapResponse {T : Type} (response : AxiosResponse.t T) : APIResponse T :=
  mkAPIResponse
    ((200 <=? AxiosResponse.status response)%Z && (AxiosResponse.status response <? 300)%Z)
    (AxiosResponse.data response)
    (AxiosResponse.status response)
    (AxiosResponse.headers response).

(** The network as the client sees it, and axios on top of it. *)
Variable Env : Type.

(** [get] and [post]: the axios call, its rejection turned into the SDK's
    error by the response interceptor. *)
Definition request {T : Type}
    (axios : Env -> (AxiosError.t + AxiosResponse.t T) * Env) (env : Env)
  : (exn + APIResponse T) * Env :=
  match axios env with
  | (inl error, env') => (inl (handleError error), env')
  | (inr response, env') => (inr (wrapResponse response), env')
  end.

Definition get {T : Type}
    (axios_get : Env -> string -> list (string * string)
                 -> (AxiosError.t + AxiosResponse.t T) * Env)
    (env : Env) (url : string) (hs : list (string * string))
  : (exn + APIResponse T) * Env :=
  request (fun e => axios_get e url hs) env.
End Client.

End HttpClient.

(* ===================================================================== *)
(** ** Observations on the answers of the gateway *)
(* ===================================================================== *)

Module Polling.

(** The gateway serves a record whose status is completed. *)
Definition reports_completed (a : exn + APIResponse PaymentVerification.t)
    (v : PaymentVerification.t) : Prop :=
  exists r, a = inr r /\ data r = Some v
            /\ PaymentVerification.status v = "completed".

(** The request fails with an error whose status is not 404. *)
Definition fails_with (a : exn + APIResponse PaymentVerification.t) (e : exn) : Prop :=
  a = inl e /\ error_statusCode e <> Some 404%Z.

(** The gateway answers without a body. *)
Definition empty_body (a : exn + APIResponse PaymentVerification.t) : Prop :=
  exists r, a = inr r /\ data r = None.

(** An answer after which the loop goes on. *)
Definition transient (a : exn + APIResponse PaymentVerification.t) : Prop :=
  PaymentsModule.not_found a \/ PaymentsModule.still_pending a.

(** The amount of the settlement answer, when it has one that is neither 0
    nor NaN. *)
Definition gateway_amount (resource_t : Type)
    (amount_usd : resource_t -> option JS.number)
    (response : APIResponse resource_t) : option JS.number :=
  match data response with
  | Some r =>
      match amount_usd r with
      | Some x => if JS.truthy_number x then Some x else None
      | None => None
      end
  | None => None
  end.

(** What a turn yields when it ends the loop with [stop]. *)
Definition stopped (stop : exn + PaymentVerification.t)
  : exn + option PaymentVerification.t :=
  match stop with inl e => inl e | inr v => inr (Some v) end.

(** The outcome [o] of a computation, with the calls [t] made before it. *)
Definition after {S A : Type} (t : list event) (o : (exn + A) * S * list event)
  : (exn + A) * S * list event :=
  match o with (r, s, t') => (r, s, (t ++ t')%list) end.

End Polling.

(* ===================================================================== *)
(** ** More concrete gateways, for runs of the further properties *)
(* ===================================================================== *)

Module MoreFixtures.
Import Fixtures.

(** Pending, then completed. *)
Definition completes_on_second (g : Gateway) (url : string) (hs : list (string * string))
  : (exn + APIResponse PaymentVerification.t) * Gateway :=
  match g with
  | 0 => (inr (ok (record "pending" None)), 1)
  | _ => (inr (ok (record "completed" None)), S g)
  end.

Definition server_error : exn := AgentPayError "Internal error" "API_ERROR" (Some 500%Z).

(** Not found, then a server error. *)
Definition breaks_on_second (g : Gateway) (url : string) (hs : list (string * string))
  : (exn + APIResponse PaymentVerification.t) * Gateway :=
  match g with
  | 0 => (inl not_found_error, 1)
  | _ => (inl server_error, S g)
  end.

(** Success without a body. *)
Definition bodyless (g : Gateway) (url : string) (hs : list (string * string))
  : (exn + APIResponse PaymentVerification.t) * Gateway :=
  (inr (mkAPIResponse true None 200%Z []), S g).

(** The record is pending for ever. *)
Definition always_pending (g : Gateway) (url : string) (hs : list (string * string))
  : (exn + APIResponse PaymentVerification.t) * Gateway :=
  (inr (ok (record "pending" None)), S g).

(** The settlement endpoint accepts the payment and reports no amounts. *)
Definition settles_silently (g : Gateway) (url : string) (hs : list (string * string))
  : (exn + APIResponse Resource) * Gateway :=
  (inr (ok (None, None)), S g).

(** A stand-in for [parseInt]: decimal digits, 0 for anything else. *)
Definition parseInt (s : string) : Z :=
  match NilZero.int_of_string s with
  | Some i => Z.of_int i
  | None => 0%Z
  end.

(** Axios rejecting with a 404, and with a rejected transaction. *)
Definition axios_not_found {T : Type} (g : Gateway) (url : string)
    (hs : list (string * string))
  : (HttpClient.AxiosError.t + HttpClient.AxiosResponse.t T) * Gateway :=
  (inl (HttpClient.AxiosError.mk "Request failed with status code 404"
          (Some (HttpClient.ErrorResponse.mk 404%Z (Some "Payment not found") None []))),
   S g).

Definition rejection : HttpClient.AxiosError.t :=
  HttpClient.AxiosError.mk "Request failed with status code 400"
    (Some (HttpClient.ErrorResponse.mk 400%Z (Some "Invalid transaction: amount mismatch")
             (Some "wrong amount") [])).

Definition axios_rejects {T : Type} (g : Gateway) (url : string)
    (hs : list (string * string))
  : (HttpClient.AxiosError.t + HttpClient.AxiosResponse.t T) * Gateway :=
  (inl rejection, S g).

End MoreFixtures.

(* ===================================================================== *)
(** ** Mandates module (src/modules/mandates.ts) *)
(* ===================================================================== *)

Module MandatesModule.
Import Validation.
Local Open Scope eff_scope.

(** A POST request of this module: its path is /mandates/issue or
    /mandates/verify, its body the fields given. *)
Inductive post : Type :=
| PostIssue (subject : string) (budget : JS.number) (scope : string)
            (ttlMinutes : JS.number)
| PostVerify (mandateToken : string).

Section Mandates.
(** The gateway as the client sees it. *)
Variable Env : Type.

(** [this.http.post<IssueMandateResponse>('/mandates/issue', request)] *)
Variable http_post_issue :
  Env -> string -> JS.number -> string -> JS.number
  -> (exn + APIResponse IssueMandateResponse.t) * Env.

(** [this.http.post<VerifyMandateResponse>('/mandates/verify', { mandateToken })] *)
Variable http_post_verify :
  Env -> string -> (exn + APIResponse VerifyMandateResponse.t) * Env.

(** Built-ins. *)
Variable show_number : JS.number -> string.
Variable parseFloat : string -> JS.number.

(** The state of a call: the gateway, and the POST requests sent so far, the
    latest last. *)
Definition Wire : Type := (Env * list post)%type.

Definition post_issue (subject : string) (budget : JS.number) (scope : string)
    (ttlMinutes : JS.number) : Eff.M Wire (APIResponse IssueMandateResponse.t) :=
  fun w =>
    let '(r, env') := http_post_issue (fst w) subject budget scope ttlMinutes in
    (r, (env', (snd w ++ [PostIssue subject budget scope ttlMinutes])%list), []).

Definition post_verify (mandateToken : string)
  : Eff.M Wire (APIResponse VerifyMandateResponse.t) :=
  fun w =>
    let '(r, env') := http_post_verify (fst w) mandateToken in
    (r, (env', (snd w ++ [PostVerify mandateToken])%list), []).

Definition issue (subject : string) (budget : JS.number)
    (scope_arg : option string) (ttlMinutes_arg : option JS.number)
  : Eff.M Wire IssueMandateResponse.t :=
  let scope := PaymentsModule.default "*" scope_arg in
  let ttlMinutes := PaymentsModule.default (JS.of_Z 43200) ttlMinutes_arg in
  Eff.lift (validateRequired (Some subject) "subject" >>
            validateAmount show_number budget "budget") ;;;
  if JS.le ttlMinutes (JS.of_Z 0) then
    Eff.throw (MandateError "ttlMinutes must be positive" "INVALID_TTL")
  else
    response <- post_issue subject budget scope ttlMinutes ;;
    match data response with
    | None => Eff.throw (MandateError "Failed to issue mandate" "ISSUE_FAILED")
    | Some d => Eff.ret d
    end.

Definition verify (mandateToken : string) : Eff.M Wire VerifyMandateResponse.t :=
  Eff.lift (validateRequired (Some mandateToken) "mandateToken" >>
            validateMandateToken mandateToken) ;;;
  response <- post_verify mandateToken ;;
  match data response with
  | None => Eff.throw (MandateError "Failed to verify mandate" "VERIFY_FAILED")
  | Some d =>
      if negb (VerifyMandateResponse.valid d)
         && JS.truthy_opt JS.truthy_string (VerifyMandateResponse.error d)
      then
        Eff.throw (MandateError
                     ("Mandate verification failed: "
                      ++ JS.show_string (VerifyMandateResponse.error d))
                     "VERIFICATION_FAILED")
      else Eff.ret d
  end.

Definition checkBudget (mandateToken : string) : Eff.M Wire JS.number :=
  verification <- verify mandateToken ;;
  match VerifyMandateResponse.valid verification,
        VerifyMandateResponse.payload verification with
  | true, Some payload => Eff.ret (parseFloat (MandatePayload.budget_remaining payload))
  | _, _ =>
      Eff.throw (MandateError "Cannot check budget for invalid mandate" "INVALID_MANDATE")
  end.

(** The module as the [client.mandates] of [ConfigLoader.ensureMandateValid],
    which passes all four arguments to [issue]. *)
Definition client_verify (w : Wire) (mandateToken : string)
  : (exn + VerifyMandateResponse.t) * Wire :=
  fst (verify mandateToken w).

Definition client_issue (w : Wire) (subject : string) (budget : JS.number)
    (scope : string) (ttlMinutes : JS.number)
  : (exn + IssueMandateResponse.t) * Wire :=
  fst (issue subject budget (Some scope) (Some ttlMinutes) w).

(** *** Observations *)

(** What the gateway says of the token: valid, with this payload. *)
Definition gateway_confirms (env : Env) (mandateToken : string)
    (p : MandatePayload.t) : Prop :=
  exists r v, fst (http_post_verify env mandateToken) = inr r
              /\ data r = Some v
              /\ VerifyMandateResponse.valid v = true
              /\ VerifyMandateResponse.payload v = Some p.
End Mandates.

Definition is_PostVerify (q : post) : bool :=
  match q with PostVerify _ => true | _ => false end.
Definition is_PostIssue (q : post) : bool :=
  match q with PostIssue _ _ _ _ => true | _ => false end.

End MandatesModule.

(* ===================================================================== *)
(** ** More validators (src/utils/validation.ts) *)
(* ===================================================================== *)

Module MoreValidation.
Import Validation.

(** [/^0x[a-fA-F0-9]{40}$/.test(s)] *)
Definition addressRegex_test (s : string) : bool :=
  match s with
  | String "0" (String "x" rest) => (String.length rest =? 40)%nat && all_hex rest
  | _ => false
  end.

Definition validateEthereumAddress (address : string) : exn + unit :=
  if negb (JS.truthy_string address) || negb (addressRegex_test address) then
    inl (ValidationError ("Invalid Ethereum address: " ++ address))
  else inr tt.

(** [/^pk_(live|test)_[a-fA-F0-9]{32}$/.test(s)] *)
Definition apiKeyRegex_test (s : string) : bool :=
  (String.prefix "pk_live_" s || String.prefix "pk_test_" s)
  && (String.length s =? 40)%nat
  && all_hex (String.substring 8 32 s).

Definition validateApiKey (apiKey : string) : exn + unit :=
  if negb (JS.truthy_string apiKey) || negb (apiKeyRegex_test apiKey) then
    inl (ValidationError "Invalid API key format. Expected: pk_live_... or pk_test_...")
  else inr tt.

End MoreValidation.

(* ===================================================================== *)
(** ** The loader's constructor (src/config-loader.ts) *)
(* ===================================================================== *)

Module ConfigLoaderConstructor.

(** The [mandate] object of the parsed file.  [budgetUsd] is absent when the
    property is missing or is not a number. *)
Record RawMandate : Type := mkRawMandate {
  raw_budgetUsd : option JS.number;
  raw_ttlMinutes : option JS.number;
  raw_scope : option string
}.

Record RawConfig : Type := mkRawConfig {
  raw_agentId : option string;
  raw_mandate : option RawMandate
}.

(** What [JSON.parse] makes of the file: a syntax error, null (whose
    properties cannot be read), or an object. *)
Inductive parsed : Type :=
| NotJSON
| Null
| Object (c : RawConfig).

Section Constructor.
(** [fs.existsSync], [fs.readFileSync], [JSON.parse] and [process.env]. *)
Variable existsSync : string -> bool.
Variable readFileSync : string -> exn + string.
Variable JSON_parse : string -> parsed.
Variable env : string -> option string.

(** The check of the API key's format. *)
Definition apiKey_format (apiKey : string) : bool :=
  String.prefix "pk_live_" apiKey || String.prefix "pk_test_" apiKey.

(** The check of the wallet key's format. *)
Definition walletKey_format (key : string) : bool :=
  String.prefix "0x" key && (String.length key =? 66)%nat.

Definition constructor (configPath : string) : exn + ConfigLoader.t :=
  if negb (existsSync configPath) then
    inl (Error ("Configuration file not found: " ++ configPath))
  else
    match readFileSync configPath with
    | inl e => inl e
    | inr configContent =>
    match JSON_parse configContent with
    | NotJSON => inl (SyntaxError "Unexpected token in JSON")
    | Null => inl (TypeError "Cannot read properties of null")
    | Object c =>
        match raw_agentId c with
        | None | Some EmptyString =>
            inl (Error "agentId is required in configuration file")
        | Some agentId =>
            match raw_mandate c with
            | None => inl (Error "mandate.budgetUsd is required in configuration file")
            | Some m =>
                match raw_budgetUsd m with
                | None => inl (Error "mandate.budgetUsd is required in configuration file")
                | Some budgetUsd =>
                    if JS.le budgetUsd (JS.of_Z 0) then
                      inl (Error "mandate.budgetUsd must be greater than 0")
                    else
                      let apiKey := JS.or_string (env "AGENTPAY_API_KEY") EmptyString in
                      let walletPrivateKey :=
                        JS.or_string (env "AGENTPAY_WALLET_PRIVATE_KEY") EmptyString in
                      if negb (JS.truthy_string apiKey) then
                        inl (Error ("AGENTPAY_API_KEY not found in environment variables. "
                                    ++ "Set it with: export AGENTPAY_API_KEY=pk_live_..."))
                      else if negb (JS.truthy_string walletPrivateKey) then
                        inl (Error ("AGENTPAY_WALLET_PRIVATE_KEY not found in environment variables. "
                                    ++ "Set it with: export AGENTPAY_WALLET_PRIVATE_KEY=0x..."))
                      else if negb (apiKey_format apiKey) then
                        inl (Error "Invalid AGENTPAY_API_KEY format. Expected: pk_live_... or pk_test_...")
                      else if negb (walletKey_format walletPrivateKey) then
                        inl (Error "Invalid AGENTPAY_WALLET_PRIVATE_KEY format. Expected: 0x followed by 64 hex characters")
                      else
                        inr (ConfigLoader.mk
                               (ConfigLoader.mkConfig agentId
                                  (ConfigLoader.mkMandateSettings budgetUsd
                                     (raw_ttlMinutes m) (raw_scope m)))
                               apiKey walletPrivateKey None None)
                end
            end
        end
    end
    end.
End Constructor.

End ConfigLoaderConstructor.

(* ===================================================================== *)
(** ** Paying from a wallet (src/modules/payments.ts, payWithWallet) *)
(* ===================================================================== *)

Module PayWithWallet.
Import Validation MoreValidation PaymentsModule.

(** The [wallet] argument ([any] in the source), as far as the method looks
    at it: whether its [sendTransaction] property is truthy. *)
Module Wallet.
Record t := mk { sendTransaction : bool }.
End Wallet.

(** [obj[key]] on an object literal: [None] for a key it does not have. *)
Fixpoint property {V : Type} (key : string) (obj : list (string * V)) : option V :=
  match obj with
  | [] => None
  | (k, v) :: rest => if String.eqb key k then Some v else property key rest
  end.

Definition zero_address : string := "0x0000000000000000000000000000000000000000".

Definition contractAddresses : list (string * list (string * string)) :=
  [("ethereum", [("USDC", "0xA0b86991c6218b36c1d19D4a2e9Eb0cE3606eB48");
                 ("USDT", "0xdAC17F958D2ee523a2206206994597C13D831ec7");
                 ("DAI", "0x6B175474E89094C44Da98b954EedeAC495271d0F")]);
   ("base", [("USDC", "0x833589fCD6eDb6E08f4c7C32D4f71b54bdA02913");
             ("USDT", zero_address);
             ("DAI", "0x50c5725949A6F0c72E6C4a641F24049A917DB0Cb")]);
   ("polygon", [("USDC", "0x2791Bca1f2de4661ED88A30C99A7a9449Aa84174");
                ("USDT", "0xc2132D05D31c914a87C6611C10748AEb04B58e8F");
                ("DAI", "0x8f3Cf7ad23Cd3CaDbD9735AFf958023239c6A063")]);
   ("arbitrum", [("USDC", "0xFF970A61A04b1cA14834A43f5dE4533eBDDB5CC8");
                 ("USDT", "0xFd086bC7CD5C481DCC9C85ebE478A1C0b69FCbb9");
                 ("DAI", "0xDA10009cBd5D07dd0CeCc66161FC93D7c9000da1")])].

(** [error.message] *)
Definition error_message (e : exn) : string :=
  match e with
  | Error m | TypeError m | RangeError m | SyntaxError m | ValidationError m
  | AgentPayError m _ _ | RateLimitError m _ _ _ | AuthenticationError m
  | InvalidTransactionError m _ | MandateError m _ => m
  end.

(** [validateRequired] on an object: an object is never the empty string. *)
Definition validateRequired_object {A} (value : option A) (fieldName : string)
  : exn + unit :=
  match value with
  | None => inl (ValidationError (fieldName ++ " is required"))
  | Some _ => inr tt
  end.

(** [token === 'DAI' ? 18 : 6] *)
Definition decimals (token : string) : Z := if String.eqb token "DAI" then 18%Z else 6%Z.

Section Pay.
(** The world outside: the gateway and the chain the wallet talks to. *)
Variable Env : Type.
Variable resource_t : Type.
Variable amount_usd : resource_t -> option JS.number.
Variable budget_remaining : resource_t -> option JS.number.
Variable http_get_resource :
  Env -> string -> list (string * string) -> (exn + APIResponse resource_t) * Env.
Variable show_number : JS.number -> string.

(** [await import('ethers')] *)
Variable import_ethers : Env -> (exn + unit) * Env.
(** [BigInt(Math.floor(amountUsd * (10 ** decimals)))], floating-point
    arithmetic; [BigInt] throws a RangeError on a value that is no integer. *)
Variable to_atomic : JS.number -> Z -> exn + Z.
(** [new Contract(tokenAddress, abi, wallet).transfer(recipientAddress,
    amountAtomic)]: the hash of the transaction sent. *)
Variable contract_transfer :
  Env -> Wallet.t -> string -> string -> Z -> (exn + string) * Env.
(** [tx.wait()] *)
Variable tx_wait : Env -> string -> (exn + unit) * Env.

(** A call to the wallet's library: it moves the world on, and is no call
    to the gateway. *)
Definition library {A} (f : Env -> (exn + A) * Env) : Eff.M Env A :=
  fun env => (f env, []).

(** The checks at the head of [payWithWallet]. *)
Definition payWithWallet_validate (mandate : string) (wallet : option Wallet.t)
    (recipientAddress : string) (amountUsd : JS.number) (chain token : string)
  : exn + unit :=
  validateRequired (Some mandate) "mandate" >>
  validateRequired_object wallet "wallet" >>
  validateRequired (Some recipientAddress) "recipientAddress" >>
  validateMandateToken mandate >>
  validateEthereumAddress recipientAddress >>
  validateAmount show_number amountUsd "amountUsd" >>
  validateChain chain >>
  validateToken token.

(** [contractAddresses[chain][token]], with the test that follows it. *)
Definition token_address (chain token : string) : exn + string :=
  match property chain contractAddresses with
  | None => inl (TypeError "Cannot read properties of undefined")
  | Some row =>
      let tokenAddress := property token row in
      match tokenAddress with
      | Some a =>
          if negb (JS.truthy_string a) || String.eqb a zero_address
          then inl (Error (token ++ " not available on " ++ chain))
          else inr a
      | None => inl (Error (token ++ " not available on " ++ chain))
      end
  end.

(** The body of the [try] block.  Its last statement hands [chain] and
    [token] to [submitTxHash] in the places of [txHashCommission] and
    [chain]. *)
Definition send_and_submit (mandate : string) (wallet : Wallet.t)
    (recipientAddress : string) (amountUsd : JS.number) (chain token : string)
  : Eff.M Env (SubmitPaymentResponse.t resource_t) :=
  (library import_ethers ;;;
   tokenAddress <- Eff.lift (token_address chain token) ;;
   amountAtomic <- Eff.lift (to_atomic amountUsd (decimals token)) ;;
   tx_hash <- library (fun env =>
                contract_transfer env wallet tokenAddress recipientAddress
                  amountAtomic) ;;
   library (fun env => tx_wait env tx_hash) ;;;
   submitTxHash Env resource_t amount_usd budget_remaining http_get_resource
     show_number mandate tx_hash (Some chain) (Some token) None None)%eff.

Definition payWithWallet (mandate : string) (wallet : option Wallet.t)
    (recipientAddress : string) (amountUsd : JS.number)
    (chain_arg token_arg : option string)
  : Eff.M Env (SubmitPaymentResponse.t resource_t) :=
  let chain := default "base" chain_arg in
  let token := default "USDC" token_arg in
  (Eff.lift (payWithWallet_validate mandate wallet recipientAddress amountUsd
               chain token) ;;;
   match wallet with
   | None => Eff.throw (TypeError "Cannot read properties of undefined")
   | Some w =>
       if negb (Wallet.sendTransaction w) then
         Eff.throw (Error ("Invalid wallet object. Please provide an ethers.Wallet instance. "
                           ++ "Install ethers.js: npm install ethers@^6.0.0"))
       else
         Eff.try_catch
           (send_and_submit mandate w recipientAddress amountUsd chain token)
           (fun error =>
              Eff.throw (Error ("Failed to send transaction: "
                                ++ error_message error)))
   end)%eff.

(** *** Observations *)

(** The transfer goes through: the library loads, the transaction is sent
    with hash [tx_hash] and mined, leaving the world at [env']. *)
Definition transfer_succeeds (env : Env) (wallet : Wallet.t)
    (recipientAddress : string) (amountUsd : JS.number) (chain token : string)
    (tx_hash : string) (env' : Env) : Prop :=
  exists env1 tokenAddress amountAtomic env2,
    import_ethers env = (inr tt, env1)
    /\ token_address chain token = inr tokenAddress
    /\ to_atomic amountUsd (decimals token) = inr amountAtomic
    /\ contract_transfer env1 wallet tokenAddress recipientAddress amountAtomic
       = (inr tx_hash, env2)
    /\ tx_wait env2 tx_hash = (inr tt, env').
End Pay.
End PayWithWallet.

(* ===================================================================== *)
(** ** Webhook configuration (src/modules/webhooks.ts, create) *)
(* ===================================================================== *)

Module WebhookConfig.
Import Validation.

Definition validEvents : list string :=
  ["payment.completed"; "payment.failed"; "payment.pending"].

(** The [for] loop over [events]: it throws at the first event that is not
    among the valid ones. *)
Fixpoint check_events (events : list string) : exn + unit :=
  match events with
  | [] => inr tt
  | event :: rest =>
      if negb (includes validEvents event) then
        inl (Error ("Invalid event: " ++ event ++ ". Valid events: "
                    ++ join validEvents))
      else check_events rest
  end.

(** The body posted to [/v1/webhooks/configure]. *)
Record t := mk { url : string; events : list string; secret : option string }.

Section Create.
Variable Env : Type.
Variable Webhook : Type.
(** Whether [new URL(url)] returns (a built-in); it throws otherwise. *)
Variable URL_parses : string -> bool.
(** [this.http.post<Webhook>('/v1/webhooks/configure', config)] *)
Variable http_post_configure : Env -> t -> (exn + APIResponse Webhook) * Env.

Definition validateUrl (url : string) : exn + unit :=
  if URL_parses url then inr tt else inl (ValidationError ("Invalid URL: " ++ url)).

(** The gateway with the bodies posted to it so far, the latest last. *)
Definition Wire : Type := (Env * list t)%type.

Definition post_configure (config : t) : Eff.M Wire (APIResponse Webhook) :=
  fun w => match http_post_configure (fst w) config with
           | (r, env') => (r, (env', (snd w ++ [config])%list), [])
           end.

(** [validateRequired(events, 'events')] always passes: an array is neither
    undefined nor the empty string. *)
Definition create (url : string) (events : list string) (secret : option string)
  : Eff.M Wire Webhook :=
  (Eff.lift (validateRequired (Some url) "url" >> validateUrl url) ;;;
   if (List.length events =? 0)%nat then
     Eff.throw (Error "At least one event must be specified")
   else
     Eff.lift (check_events events) ;;;
     response <- post_configure (mk url events secret) ;;
     match data response with
     | None => Eff.throw (Error "Failed to create webhook")
     | Some d => Eff.ret d
     end)%eff.
End Create.
End WebhookConfig.

(* ===================================================================== *)
(** ** Stand-ins for the runs of the further properties *)
(* ===================================================================== *)

Module Scenarios.
Import Fixtures MoreFixtures.

(** The mandates endpoints: a valid verification with 7.00 left; a new
    mandate. *)
Definition post_verify_funded (g : Gateway) (token : string)
  : (exn + APIResponse VerifyMandateResponse.t) * Gateway :=
  (inr (ok (VerifyMandateResponse.mk true (Some (payload "7.00")) None)), S g).

Definition renewed : IssueMandateResponse.t :=
  IssueMandateResponse.mk "mandate-2" "header.payload.renewed"
    (JS.of_Z 1700000000) (JS.of_Z 1700003600).

Definition post_issue_grants (g : Gateway) (subject : string) (budget : JS.number)
    (scope : string) (ttl : JS.number)
  : (exn + APIResponse IssueMandateResponse.t) * Gateway :=
  (inr (ok renewed), S g).

(** The clock of a loader wired to the mandates module. *)
Definition wire_clock (w : MandatesModule.Wire Gateway) : Z := now.

(** A configuration file and an environment the constructor accepts. *)
Definition configPath : string := "./agentpay.config.json".
Definition existsSync (path : string) : bool := String.eqb path configPath.
Definition readFileSync (path : string) : exn + string := inr "{ }".
Definition parse_config (text : string) : ConfigLoaderConstructor.parsed :=
  ConfigLoaderConstructor.Object
    (ConfigLoaderConstructor.mkRawConfig (Some "agent@example.com")
       (Some (ConfigLoaderConstructor.mkRawMandate (Some (JS.of_Z 10))
                (Some (JS.of_Z 60)) None))).
Definition process_env (name : string) : option string :=
  if String.eqb name "AGENTPAY_API_KEY"
  then Some "pk_test_0123456789abcdef0123456789abcdef"
  else if String.eqb name "AGENTPAY_WALLET_PRIVATE_KEY"
  then Some "0x3333333333333333333333333333333333333333333333333333333333333333"
  else None.

(** A loader whose cached token is not a mandate token. *)
Definition holding_malformed : ConfigLoader.t :=
  loader (Some "not-a-token") (Some cached_expiry).

(** A wallet, a recipient, and a chain on which every transfer goes through
    with the hash [txHash]. *)
Definition wallet : PayWithWallet.Wallet.t := PayWithWallet.Wallet.mk true.
Definition recipient : string := "0x4444444444444444444444444444444444444444".
Definition import_ethers (g : Gateway) : (exn + unit) * Gateway := (inr tt, g).
Definition to_atomic (amount : JS.number) (decimals : Z) : exn + Z :=
  match amount with
  | JS.Finite q => inr (Qnum q * 10 ^ decimals / Zpos (Qden q))%Z
  | _ => inl (RangeError "The number cannot be converted to a BigInt")
  end.
Definition contract_transfer (g : Gateway) (w : PayWithWallet.Wallet.t)
    (tokenAddress recipientAddress : string) (amount : Z)
  : (exn + string) * Gateway :=
  (inr txHash, S g).
Definition tx_wait (g : Gateway) (tx_hash : string) : (exn + unit) * Gateway :=
  (inr tt, S g).

End Scenarios.

(* ===================================================================== *)
(** ** Strings as the engine holds them, and the bytes that are hashed *)
(* ===================================================================== *)

Module Utf16.

(** A JavaScript string: a sequence of 16-bit code units. *)
Definition t : Type := list N.

(** The two halves of a surrogate pair. *)
Definition is_high (u : N) : bool := (0xD800 <=? u)%N && (u <=? 0xDBFF)%N.
Definition is_low (u : N) : bool := (0xDC00 <=? u)%N && (u <=? 0xDFFF)%N.

(** The UTF-8 bytes of a code point. *)
Definition encode (c : N) : string :=
  if (c <? 0x80)%N then
    String (ascii_of_N c) EmptyString
  else if (c <? 0x800)%N then
    String (ascii_of_N (0xC0 + c / 0x40))
      (String (ascii_of_N (0x80 + c mod 0x40)) EmptyString)
  else if (c <? 0x10000)%N then
    String (ascii_of_N (0xE0 + c / 0x1000))
      (String (ascii_of_N (0x80 + (c / 0x40) mod 0x40))
         (String (ascii_of_N (0x80 + c mod 0x40)) EmptyString))
  else
    String (ascii_of_N (0xF0 + c / 0x40000))
      (String (ascii_of_N (0x80 + (c / 0x1000) mod 0x40))
         (String (ascii_of_N (0x80 + (c / 0x40) mod 0x40))
            (String (ascii_of_N (0x80 + c mod 0x40)) EmptyString))).

(** U+FFFD, written for a surrogate that has no partner. *)
Definition replacement : string := encode 0xFFFD.

(** The bytes [update(payload)] hashes for a string: its UTF-8 encoding,
    a surrogate pair as one code point, an unpaired surrogate as U+FFFD. *)
Fixpoint utf8 (s : t) : string :=
  match s with
  | [] => EmptyString
  | u :: rest =>
      if is_high u then
        match rest with
        | l :: rest' =>
            if is_low l then
              encode (0x10000 + (u - 0xD800) * 0x400 + (l - 0xDC00)) ++ utf8 rest'
            else replacement ++ utf8 rest
        | [] => replacement
        end
      else if is_low u then replacement ++ utf8 rest
      else encode u ++ utf8 rest
  end.




End Utf16.

(** [verifySignature] on a payload as the engine holds it: the digest is
    taken over the payload's UTF-8 encoding, and the payload is the empty
    string exactly when its encoding is empty. *)
Module WebhookSignature.
Section Signature.
(** Node's HMAC-SHA256 of the bytes [payload] keyed by [secret], as
    lowercase hex. *)
Variable hmac_sha256_hex : forall (secret payload : string), string.

Definition verifySignature (payload : Utf16.t) (signature secret : string)
  : exn + bool :=
  WebhooksModule.verifySignature hmac_sha256_hex (Utf16.utf8 payload) signature secret.
End Signature.
End WebhookSignature.

(* ===================================================================== *)
(** * Properties *)
(* ===================================================================== *)

(** ** Webhook authenticity verifier *)

Section WebhooksFacts.
Import WebhooksModule.
Variable hmac : string -> string -> string.
Variable json : Type.
Variable JSON_parse : string -> option json.

Lemma truthy_string_nonempty (s : string) :
  s <> EmptyString <-> JS.truthy_string s = true.
Proof.
  destruct s; simpl; split; intros H; congruence.
Qed.








(** C10. [verifySignature] throws a ValidationError as soon as the payload,
    the signature or the secret is the empty string, and [verifyAndParse]
    then throws the same error without parsing; so an empty body is refused
    even under the digest of the empty string. *)
Theorem verifySignature_empty_argument (payload signature secret : string) :
  payload = EmptyString \/ signature = EmptyString \/ secret = EmptyString ->
  (exists msg : string,
      verifySignature hmac payload signature secret = inl (ValidationError msg)
      /\ verifyAndParse hmac json JSON_parse payload signature secret tt
         = (inl (ValidationError msg), tt, []))
  /\ verifySignature hmac EmptyString (hmac secret EmptyString) secret
     = inl (ValidationError "payload is required").
Proof.
  intros H. split; [| reflexivity].
  unfold WebhooksModule.verifyAndParse, Eff.bind, Eff.lift.
  destruct payload as [|c p].
  - exists "payload is required". split; reflexivity.
  - destruct signature as [|c' sg].
    + exists "signature is required". split; reflexivity.
    + destruct secret as [|c'' k].
      * exists "secret is required". split; reflexivity.
      * exfalso. destruct H as [H | [H | H]]; discriminate.
Qed.

(** C7. When [verifySignature] returns false, [verifyAndParse] throws the
    authenticity error and the parser is not called; when it returns true
    and the payload is not JSON, a different error, the parse error, is
    thrown; when it returns true and the payload parses, the parsed value is
    returned.  In every run, a call to the parser implies that the signature
    verified. *)
Theorem verifyAndParse_verifies_first (payload signature secret : string) :
  let o := verifyAndParse hmac json JSON_parse payload signature secret tt in
  (verifySignature hmac payload signature secret = inr false ->
     Eff.result o = inl authenticity_error /\ Eff.trace o = [])
  /\ (verifySignature hmac payload signature secret = inr true ->
        JSON_parse payload = None -> Eff.result o = inl parse_error)
  /\ (forall v, verifySignature hmac payload signature secret = inr true ->
        JSON_parse payload = Some v -> Eff.result o = inr v)
  /\ (forall text, In (JsonParse text) (Eff.trace o) ->
        verifySignature hmac payload signature secret = inr true)
  /\ authenticity_error <> parse_error.
Proof.
  cbv zeta.
  unfold WebhooksModule.verifyAndParse, Eff.bind, Eff.lift, Eff.try_catch,
    WebhooksModule.parse, Eff.call, Eff.throw, Eff.result, Eff.trace.
  destruct (verifySignature hmac payload signature secret) as [e | [|]]; simpl.
  - repeat split; try discriminate. intros text [].
  - destruct (JSON_parse payload) as [v |]; simpl;
      repeat split; try discriminate; try reflexivity; congruence.
  - repeat split; try discriminate. intros text [].
Qed.
End WebhooksFacts.

(** ** Payment settlement protocol *)

Section PaymentsFacts.
Import Validation PaymentsModule.
Variable Env : Type.
Variable resource_t : Type.
Variable amount_usd : resource_t -> option JS.number.
Variable budget_remaining : resource_t -> option JS.number.
Variable http_get_resource :
  Env -> string -> list (string * string) -> (exn + APIResponse resource_t) * Env.
Variable http_get_verification :
  Env -> string -> list (string * string)
  -> (exn + APIResponse PaymentVerification.t) * Env.
Variable show_number : JS.number -> string.

Local Notation "'submit'" :=
  (submitTxHash Env resource_t amount_usd budget_remaining http_get_resource show_number).
Local Notation "'wait'" := (waitForConfirmation Env http_get_verification).

(** *** The validators *)

Lemma includes_In (arr : list string) (s : string) :
  includes arr s = true <-> In s arr.
Proof.
  unfold includes. rewrite existsb_exists. split.
  - intros [x [Hin Heq]]. apply String.eqb_eq in Heq. now subst.
  - intros Hin. exists s. split; [assumption | apply String.eqb_refl].
Qed.

Lemma validateChain_ok (chain : string) :
  validateChain chain = inr tt -> In chain SUPPORTED_CHAINS.
Proof.
  unfold validateChain. destruct (includes SUPPORTED_CHAINS chain) eqn:E; cbn [negb].
  - intros _. now apply includes_In.
  - discriminate.
Qed.

Lemma validateToken_ok (token : string) :
  validateToken token = inr tt -> In token SUPPORTED_TOKENS.
Proof.
  unfold validateToken. destruct (includes SUPPORTED_TOKENS token) eqn:E; cbn [negb].
  - intros _. now apply includes_In.
  - discriminate.
Qed.

Lemma validateTxHash_ok (h : string) :
  validateTxHash h = inr tt -> txHashRegex_test h = true.
Proof.
  unfold validateTxHash.
  destruct (JS.truthy_string h); simpl; [| discriminate].
  destruct (txHashRegex_test h); simpl; [reflexivity | discriminate].
Qed.

Lemma validateMandateToken_ok (m : string) :
  validateMandateToken m = inr tt ->
  10 <= String.length m /\ split_length "." m = 3.
Proof.
  unfold validateMandateToken.
  destruct (JS.truthy_string m); simpl; [| discriminate].
  destruct (Nat.ltb_spec (String.length m) 10); simpl; [discriminate |].
  destruct (Nat.eqb_spec (split_length "." m) 3); simpl; [| discriminate].
  intros _. split; assumption.
Qed.

Lemma validateAmount_ok (p : JS.number) (field : string) :
  validateAmount show_number p field = inr tt ->
  JS.isNaN p = false /\ JS.le p (JS.of_Z 0) = false.
Proof.
  unfold validateAmount.
  destruct (JS.isNaN p); simpl; [discriminate |].
  destruct (JS.le p (JS.of_Z 0)); simpl; [discriminate |].
  intros _. split; reflexivity.
Qed.

Lemma and_then_ValidationError {A B} (r : exn + A) (k : exn + B) :
  throws_only_ValidationError r -> throws_only_ValidationError k ->
  throws_only_ValidationError (r >> k).
Proof.
  intros Hr Hk e. destruct r as [e0 | a]; simpl.
  - intros [= <-]. now apply Hr.
  - apply Hk.
Qed.

Lemma submitTxHash_validate_throws (mandate txHash : string)
    (commission : option string) (chain token : string) (price : option JS.number) :
  throws_only_ValidationError
    (submitTxHash_validate show_number mandate txHash commission chain token price).
Proof.
  unfold submitTxHash_validate.
  repeat apply and_then_ValidationError; intros e.
  - destruct mandate; simpl; intros [= <-]; eauto.
  - destruct txHash; simpl; intros [= <-]; eauto.
  - unfold validateMandateToken.
    repeat match goal with |- context [if ?b then _ else _] => destruct b end;
      intros [= <-]; eauto.
  - unfold validateTxHash.
    repeat match goal with |- context [if ?b then _ else _] => destruct b end;
      intros [= <-]; eauto.
  - unfold validateChain.
    repeat match goal with |- context [if ?b then _ else _] => destruct b end;
      intros [= <-]; eauto.
  - unfold validateToken.
    repeat match goal with |- context [if ?b then _ else _] => destruct b end;
      intros [= <-]; eauto.
  - destruct commission as [c |]; [| discriminate].
    unfold validateTxHash.
    repeat match goal with |- context [if ?b then _ else _] => destruct b end;
      intros [= <-]; eauto.
  - destruct price as [p |]; [| discriminate].
    unfold validateAmount.
    repeat match goal with |- context [if ?b then _ else _] => destruct b end;
      intros [= <-]; eauto.
Qed.

Lemma and_then_inr {A B} (r : exn + A) (k : exn + B) (b : B) :
  (r >> k) = inr b -> (exists a, r = inr a) /\ k = inr b.
Proof. destruct r as [e | a]; simpl; [discriminate | eauto]. Qed.

(** An input the validators let through violates none of the preconditions. *)
Lemma submitTxHash_validate_passes (mandate txHash : string)
    (commission : option string) (chain token : string) (price : option JS.number) :
  submitTxHash_validate show_number mandate txHash commission chain token price = inr tt ->
  ~ refused mandate txHash commission chain token price.
Proof.
  unfold submitTxHash_validate. intros H.
  apply and_then_inr in H as [_ H]. apply and_then_inr in H as [_ H].
  apply and_then_inr in H as [[[] Hm] H]. apply and_then_inr in H as [[[] Hh] H].
  apply and_then_inr in H as [[[] Hc] H]. apply and_then_inr in H as [[[] Ht] H].
  apply and_then_inr in H as [[[] Hcm] Hp].
  apply validateMandateToken_ok in Hm as [Hlen Hparts].
  apply validateTxHash_ok in Hh. apply validateChain_ok in Hc.
  apply validateToken_ok in Ht.
  intros [V | [V | [V | [[c [-> [Hne V]]] | [V | [V | [p [-> V]]]]]]]];
    try contradiction; try congruence; try lia.
  - apply truthy_string_nonempty in Hne. rewrite Hne in Hcm.
    apply validateTxHash_ok in Hcm. congruence.
  - apply validateAmount_ok in Hp as [Hnan Hle]. destruct V; congruence.
Qed.

(** *** [submitTxHash] *)

(** Once the validators pass, [submitTxHash] is the request wrapped in its
    try/catch. *)
Lemma submitTxHash_validated (mandate txHash : string)
    (commission chain_arg token_arg : option string) (price : option JS.number)
    (env : Env) :
  submitTxHash_validate show_number mandate txHash commission
    (default "base" chain_arg) (default "USDC" token_arg) price = inr tt ->
  submit mandate txHash commission chain_arg token_arg price env
  = match http_get_resource env
            (resource_url show_number (default "base" chain_arg)
               (default "USDC" token_arg) price)
            (payment_headers mandate txHash commission) with
    | (inr response, env') =>
        (inr (SubmitPaymentResponse.mk true "completed" txHash commission
                (JS.or_number
                   (or_undefined
                      (match data response with Some r => amount_usd r | None => None end)
                      price)
                   (JS.of_Z 0))
                (JS.or_number
                   (match data response with
                    | Some r => budget_remaining r
                    | None => None
                    end)
                   (JS.of_Z 0))
                (data response) None),
         env',
         [HttpGet (resource_url show_number (default "base" chain_arg)
                     (default "USDC" token_arg) price)
                  (payment_headers mandate txHash commission)])
    | (inl (InvalidTransactionError _ reason), env') =>
        (inr (SubmitPaymentResponse.mk false "failed" txHash commission
                (JS.of_Z 0) (JS.of_Z 0) None (Some reason)),
         env',
         [HttpGet (resource_url show_number (default "base" chain_arg)
                     (default "USDC" token_arg) price)
                  (payment_headers mandate txHash commission)])
    | (inl e, env') =>
        (inl e, env',
         [HttpGet (resource_url show_number (default "base" chain_arg)
                     (default "USDC" token_arg) price)
                  (payment_headers mandate txHash commission)])
    end.
Proof.
  intros Hv. unfold submitTxHash, Eff.bind at 1, Eff.lift. rewrite Hv.
  unfold Eff.try_catch, Eff.bind, get_resource, Eff.call, Eff.ret, Eff.throw.
  destruct (http_get_resource env _ _) as [[e | response] env'];
    [destruct e |]; reflexivity.
Qed.

(** C3. On an input that passes validation, when the transport answers the
    settlement request with an error: if the error is an
    InvalidTransactionError, [submitTxHash] returns (does not throw) a
    result with success false, status failed and the error's reason; any
    other error is thrown on to the caller as it is. *)
Theorem submitTxHash_rejection_is_a_result (mandate txHash : string)
    (commission chain_arg token_arg : option string) (price : option JS.number)
    (env env' : Env) (e : exn) :
  submitTxHash_validate show_number mandate txHash commission
    (default "base" chain_arg) (default "USDC" token_arg) price = inr tt ->
  http_get_resource env
    (resource_url show_number (default "base" chain_arg) (default "USDC" token_arg) price)
    (payment_headers mandate txHash commission) = (inl e, env') ->
  let o := submit mandate txHash commission chain_arg token_arg price env in
  (forall message reason, e = InvalidTransactionError message reason ->
     exists r, Eff.result o = inr r
               /\ SubmitPaymentResponse.success r = false
               /\ SubmitPaymentResponse.status r = "failed"
               /\ SubmitPaymentResponse.error r = Some reason)
  /\ (is_InvalidTransactionError e = false -> Eff.result o = inl e).
Proof.
  intros Hv Hget o. subst o. rewrite submitTxHash_validated by assumption.
  rewrite Hget. split.
  - intros message reason ->. eexists. repeat split; reflexivity.
  - intros Hne. destruct e; try reflexivity. discriminate.
Qed.

(** C9, as the code has it. On an input the validators refuse (a mandate
    token shorter than 10 characters or not of three dot-separated parts; a
    primary hash, or a non-empty commission hash, that is not 0x and 64 hex
    digits; a chain or token outside the supported lists; a supplied price
    that is NaN or not above zero), [submitTxHash] throws a ValidationError
    and sends no request. *)
Theorem submitTxHash_refuses_locally (mandate txHash : string)
    (commission chain_arg token_arg : option string) (price : option JS.number)
    (env : Env) :
  refused mandate txHash commission (default "base" chain_arg)
    (default "USDC" token_arg) price ->
  let o := submit mandate txHash commission chain_arg token_arg price env in
  (exists msg, Eff.result o = inl (ValidationError msg))
  /\ Eff.trace o = [] /\ Eff.final o = env.
Proof.
  intros Hrefused o. subst o.
  pose proof (submitTxHash_validate_throws mandate txHash commission
                (default "base" chain_arg) (default "USDC" token_arg) price) as Hthrows.
  pose proof (submitTxHash_validate_passes mandate txHash commission
                (default "base" chain_arg) (default "USDC" token_arg) price) as Hpasses.
  unfold submitTxHash, Eff.bind at 1, Eff.lift.
  destruct (submitTxHash_validate show_number mandate txHash commission
              (default "base" chain_arg) (default "USDC" token_arg) price)
    as [e | []] eqn:Hv.
  - destruct (Hthrows e eq_refl) as [msg ->].
    repeat split. now exists msg.
  - exfalso. now apply Hpasses.
Qed.

(** *** [verify] and the polling loop *)

Lemma txHash_validators_pass (txHash : string) :
  txHashRegex_test txHash = true ->
  (validateRequired (Some txHash) "txHash" >> validateTxHash txHash) = inr tt.
Proof.
  intros H. unfold validateTxHash. rewrite H.
  destruct txHash; [discriminate | reflexivity].
Qed.

Lemma verify_valid_hash (txHash : string) (env : Env) :
  txHashRegex_test txHash = true ->
  verify Env http_get_verification txHash env
  = match http_get_verification env (verify_url txHash) [] with
    | (inl e, env') => (inl e, env', [HttpGet (verify_url txHash) []])
    | (inr response, env') =>
        match data response with
        | None => (inl (Error "Failed to verify payment"), env',
                   [HttpGet (verify_url txHash) []])
        | Some d => (inr d, env', [HttpGet (verify_url txHash) []])
        end
    end.
Proof.
  intros H. unfold verify, Eff.bind, Eff.lift.
  rewrite (txHash_validators_pass _ H).
  unfold get_verification, Eff.call, Eff.ret, Eff.throw.
  destruct (http_get_verification env _ _) as [[e | response] env']; [reflexivity |].
  destruct (data response); reflexivity.
Qed.

(** A turn whose request is answered not-found goes on without sleeping. *)
Lemma poll_once_not_found (txHash : string) (intervalMs : Z) (env : Env) :
  txHashRegex_test txHash = true ->
  not_found (fst (http_get_verification env (verify_url txHash) [])) ->
  poll_once Env http_get_verification txHash intervalMs env
  = (inr None, snd (http_get_verification env (verify_url txHash) []),
     [HttpGet (verify_url txHash) []]).
Proof.
  intros H [e [He Hcode]]. unfold poll_once, Eff.try_catch, Eff.bind.
  rewrite verify_valid_hash by assumption.
  destruct (http_get_verification env _ _) as [a env']. simpl in He. subst a.
  unfold statusCode_is_not_404. rewrite Hcode. reflexivity.
Qed.

(** A turn whose request is answered with a pending record sleeps, then
    goes on. *)
Lemma poll_once_pending (txHash : string) (intervalMs : Z) (env : Env) :
  txHashRegex_test txHash = true ->
  still_pending (fst (http_get_verification env (verify_url txHash) [])) ->
  poll_once Env http_get_verification txHash intervalMs env
  = (inr None, snd (http_get_verification env (verify_url txHash) []),
     [HttpGet (verify_url txHash) []; Sleep intervalMs]).
Proof.
  intros H [r [v [Ha [Hd [Hc Hf]]]]]. unfold poll_once, Eff.try_catch, Eff.bind.
  rewrite verify_valid_hash by assumption.
  destruct (http_get_verification env _ _) as [a env']. simpl in Ha. subst a.
  rewrite Hd. apply String.eqb_neq in Hc, Hf. rewrite Hc, Hf. reflexivity.
Qed.

(** A turn whose request is answered with a failed record throws. *)
Lemma poll_once_failed (txHash : string) (intervalMs : Z) (env : Env)
    (reason : option string) :
  txHashRegex_test txHash = true ->
  reports_failed (fst (http_get_verification env (verify_url txHash) [])) reason ->
  poll_once Env http_get_verification txHash intervalMs env
  = (inl (InvalidTransactionError ("Transaction failed: " ++ JS.show_string reason)
            (JS.or_string reason "Unknown error")),
     snd (http_get_verification env (verify_url txHash) []),
     [HttpGet (verify_url txHash) []]).
Proof.
  intros H [r [v [Ha [Hd [Hs He]]]]]. unfold poll_once, Eff.try_catch, Eff.bind.
  rewrite verify_valid_hash by assumption.
  destruct (http_get_verification env _ _) as [a env']. simpl in Ha. subst a.
  rewrite Hd, Hs, He. reflexivity.
Qed.

Lemma poll_answer_S (txHash : string) (env : Env) (i : nat) :
  poll_answer Env http_get_verification txHash env (S i)
  = poll_answer Env http_get_verification txHash
      (snd (http_get_verification env (verify_url txHash) [])) i.
Proof. reflexivity. Qed.

Lemma requests_cons_HttpGet (url : string) (hs : list (string * string))
    (t : list event) :
  requests (HttpGet url hs :: t) = S (requests t).
Proof. reflexivity. Qed.

Lemma requests_cons_Sleep (ms : Z) (t : list event) :
  requests (Sleep ms :: t) = requests t.
Proof. reflexivity. Qed.

(** The loop, when the first [j] answers are transient and the next one is
    a failed record: it throws after [j + 1] requests. *)
Lemma poll_failed_after (txHash : string) (intervalMs : Z) (reason : option string)
    (j : nat) :
  txHashRegex_test txHash = true ->
  forall (turns : nat) (env : Env),
    j < turns ->
    (forall i, i < j ->
       not_found (poll_answer Env http_get_verification txHash env i)
       \/ still_pending (poll_answer Env http_get_verification txHash env i)) ->
    reports_failed (poll_answer Env http_get_verification txHash env j) reason ->
    Eff.result (poll Env http_get_verification txHash intervalMs turns env)
    = inl (InvalidTransactionError ("Transaction failed: " ++ JS.show_string reason)
             (JS.or_string reason "Unknown error"))
    /\ requests (Eff.trace (poll Env http_get_verification txHash intervalMs turns env))
       = S j.
Proof.
  intros Hhash. induction j as [| j IH]; intros turns env Hlt Htransient Hfailed.
  - destruct turns as [| n]; [lia |].
    cbn [poll]. unfold Eff.bind.
    rewrite (poll_once_failed _ _ _ reason) by assumption.
    split; reflexivity.
  - destruct turns as [| n]; [lia |].
    assert (Hrest : forall i, i < j ->
              not_found (poll_answer Env http_get_verification txHash
                           (snd (http_get_verification env (verify_url txHash) [])) i)
              \/ still_pending (poll_answer Env http_get_verification txHash
                                  (snd (http_get_verification env (verify_url txHash) [])) i)).
    { intros i Hi. rewrite <- poll_answer_S. apply Htransient. lia. }
    rewrite poll_answer_S in Hfailed.
    destruct (IH n _ ltac:(lia) Hrest Hfailed) as [Hres Hreq].
    cbn [poll]. unfold Eff.bind.
    destruct (Htransient 0 ltac:(lia)) as [Hnf | Hpd].
    + rewrite poll_once_not_found by assumption.
      destruct (poll Env http_get_verification txHash intervalMs n _) as [[r s2] t2].
      unfold Eff.result, Eff.trace in *. cbn [fst snd app] in *.
      rewrite ?requests_cons_HttpGet, ?requests_cons_Sleep.
      split; congruence.
    + rewrite poll_once_pending by assumption.
      destruct (poll Env http_get_verification txHash intervalMs n _) as [[r s2] t2].
      unfold Eff.result, Eff.trace in *. cbn [fst snd app] in *.
      rewrite ?requests_cons_HttpGet, ?requests_cons_Sleep.
      split; congruence.
Qed.

(** The loop, when every answer is not-found: it runs all its turns, one
    request each, and never sleeps. *)
Lemma poll_never_found (txHash : string) (intervalMs : Z) :
  txHashRegex_test txHash = true ->
  forall (turns : nat) (env : Env),
    (forall i, i < turns ->
       not_found (poll_answer Env http_get_verification txHash env i)) ->
    poll Env http_get_verification txHash intervalMs turns env
    = (inr None, env_after_polls Env http_get_verification txHash turns env,
       repeat (HttpGet (verify_url txHash) []) turns).
Proof.
  intros Hhash. induction turns as [| n IH]; intros env Hall; [reflexivity |].
  cbn [poll]. unfold Eff.bind.
  rewrite poll_once_not_found by (try assumption; apply (Hall 0); lia).
  rewrite IH by (intros i Hi; rewrite <- poll_answer_S; apply Hall; lia).
  reflexivity.
Qed.

(** The loop, when every answer is a pending record: it sleeps the interval
    after each request. *)
Lemma poll_always_pending (txHash : string) (intervalMs : Z) :
  txHashRegex_test txHash = true ->
  forall (turns : nat) (env : Env),
    (forall i, i < turns ->
       still_pending (poll_answer Env http_get_verification txHash env i)) ->
    total_sleep (Eff.trace (poll Env http_get_verification txHash intervalMs turns env))
    = (Z.of_nat turns * intervalMs)%Z.
Proof.
  intros Hhash. induction turns as [| n IH]; intros env Hall; [reflexivity |].
  cbn [poll]. unfold Eff.bind.
  rewrite poll_once_pending by (try assumption; apply (Hall 0); lia).
  specialize (IH (snd (http_get_verification env (verify_url txHash) []))).
  destruct (poll Env http_get_verification txHash intervalMs n _) as [[r s2] t2].
  unfold Eff.trace in *. cbn [fst snd app] in *.
  change (total_sleep (HttpGet (verify_url txHash) [] :: Sleep intervalMs :: t2))
    with (intervalMs + total_sleep t2)%Z.
  rewrite IH by (intros i Hi; rewrite <- poll_answer_S; apply Hall; lia).
  rewrite Nat2Z.inj_succ. lia.
Qed.

(** *** [waitForConfirmation] *)

Lemma waitForConfirmation_valid_hash (txHash : string)
    (maxAttempts_arg intervalMs_arg : option Z) (env : Env) :
  txHashRegex_test txHash = true ->
  wait txHash maxAttempts_arg intervalMs_arg env
  = match poll Env http_get_verification txHash (default 2000%Z intervalMs_arg)
            (Z.to_nat (default 30%Z maxAttempts_arg)) env with
    | (inl e, env', t) => (inl e, env', t)
    | (inr (Some v), env', t) => (inr v, env', t)
    | (inr None, env', t) =>
        (inl (Error ("Transaction " ++ txHash ++ " not confirmed after "
                     ++ JS.show_Z (default 30%Z maxAttempts_arg) ++ " attempts")),
         env', t)
    end.
Proof.
  intros H. unfold waitForConfirmation, Eff.bind, Eff.lift.
  rewrite (txHash_validators_pass _ H). cbn [app].
  destruct (poll Env http_get_verification txHash _ _ env) as [[[e | [v |]] env'] t];
    unfold Eff.ret, Eff.throw; rewrite ?app_nil_r; reflexivity.
Qed.

(** C4. When the first [k - 1] verification requests are answered with
    not-found or with a record that is still pending, and the [k]-th with a
    record whose status is failed ([k] within [maxAttempts]),
    [waitForConfirmation] throws an InvalidTransactionError whose reason is
    the record's error (or Unknown error, when the record has none), having
    sent exactly [k] requests. *)
Theorem waitForConfirmation_stops_at_failed (txHash : string)
    (maxAttempts_arg intervalMs_arg : option Z) (env : Env)
    (k : nat) (reason : option string) :
  txHashRegex_test txHash = true ->
  1 <= k ->
  (Z.of_nat k <= default 30%Z maxAttempts_arg)%Z ->
  (forall i, i < k - 1 ->
     not_found (poll_answer Env http_get_verification txHash env i)
     \/ still_pending (poll_answer Env http_get_verification txHash env i)) ->
  reports_failed (poll_answer Env http_get_verification txHash env (k - 1)) reason ->
  let o := wait txHash maxAttempts_arg intervalMs_arg env in
  Eff.result o
  = inl (InvalidTransactionError ("Transaction failed: " ++ JS.show_string reason)
           (JS.or_string reason "Unknown error"))
  /\ requests (Eff.trace o) = k
  /\ (forall r, reason = Some r -> r <> EmptyString ->
        Eff.result o = inl (InvalidTransactionError ("Transaction failed: " ++ r) r)).
Proof.
  intros Hhash Hk1 Hk Htransient Hfailed o. subst o.
  rewrite waitForConfirmation_valid_hash by assumption.
  destruct (poll_failed_after txHash (default 2000%Z intervalMs_arg) reason (k - 1)
              Hhash (Z.to_nat (default 30%Z maxAttempts_arg)) env
              ltac:(lia) Htransient Hfailed) as [Hres Hreq].
  destruct (poll Env http_get_verification txHash _ _ env) as [[r env'] t].
  unfold Eff.result, Eff.trace in *. cbn [fst snd] in *. subst r.
  cbn [fst snd]. repeat split.
  - rewrite Hreq. lia.
  - intros r -> Hne. destruct r; [congruence | reflexivity].
Qed.

(** When every verification request is answered not-found,
    [waitForConfirmation] sends [maxAttempts] requests back to back, with no
    sleep at all, and throws the timeout error. *)
Lemma waitForConfirmation_never_found (txHash : string)
    (maxAttempts_arg intervalMs_arg : option Z) (env : Env) :
  txHashRegex_test txHash = true ->
  (forall i, i < Z.to_nat (default 30%Z maxAttempts_arg) ->
     not_found (poll_answer Env http_get_verification txHash env i)) ->
  let o := wait txHash maxAttempts_arg intervalMs_arg env in
  Eff.result o
  = inl (Error ("Transaction " ++ txHash ++ " not confirmed after "
                ++ JS.show_Z (default 30%Z maxAttempts_arg) ++ " attempts"))
  /\ Eff.trace o
     = repeat (HttpGet (verify_url txHash) []) (Z.to_nat (default 30%Z maxAttempts_arg))
  /\ sleeps (Eff.trace o) = [].
Proof.
  intros Hhash Hall o. subst o.
  rewrite waitForConfirmation_valid_hash by assumption.
  rewrite poll_never_found by assumption.
  unfold Eff.result, Eff.trace. cbn [fst snd]. repeat split.
  clear Hall. generalize (Z.to_nat (default 30%Z maxAttempts_arg)).
  induction n as [| n IH]; [reflexivity | exact IH].
Qed.
End PaymentsFacts.

(** ** Mandate lifecycle manager *)

Section LifecycleFacts.
Import ConfigLoader.
Variable Env : Type.
Variable mandates_verify : Env -> string -> (exn + VerifyMandateResponse.t) * Env.
Variable mandates_issue :
  Env -> string -> JS.number -> string -> JS.number
  -> (exn + IssueMandateResponse.t) * Env.
Variable Date_now : Env -> Z.
Variable parseFloat : string -> JS.number.

Local Notation "'ensure'" :=
  (ensureMandateValid Env mandates_verify mandates_issue Date_now parseFloat).
Local Notation "'renewal'" := (renew Env mandates_issue).
Local Notation "'fresh'" := (fresh_token Env Date_now).

(** *** The dust threshold *)

Lemma le_dust_not_gt (b : JS.number) :
  JS.le b dust = true -> JS.gt b dust = false.
Proof.
  destruct b as [| | | q]; simpl; try discriminate; try reflexivity.
  unfold JS.Qltb. now intros ->.
Qed.

Lemma not_gt_dust_le (b : JS.number) :
  JS.isNaN b = false -> JS.gt b dust = false -> JS.le b dust = true.
Proof.
  destruct b as [| | | q]; simpl; try discriminate; try reflexivity.
  unfold JS.Qltb. intros _. now destruct (Qle_bool q (1 # 100)).
Qed.

(** *** The freshness test *)

Lemma fresh_token_None (s : St Env) :
  fresh s = None <-> cache_absent Env s \/ locally_expired Env Date_now s.
Proof.
  unfold fresh_token, cache_absent, locally_expired.
  destruct (cachedMandateToken (fst s)) as [token |]; cbn [JS.truthy_opt];
    [| split; auto].
  destruct (mandateExpiresAt (fst s)) as [e |].
  - destruct (JS.truthy_string token); cbn [andb]; [| split; auto].
    destruct (JS.truthy_number e && JS.gt e _); split; auto; try discriminate.
    intros [H | [_ H]]; discriminate.
  - destruct (JS.truthy_string token); split; auto.
Qed.

Lemma fresh_token_Some (s : St Env) (token : string) :
  fresh s = Some token ->
  cachedMandateToken (fst s) = Some token
  /\ ~ cache_absent Env s /\ ~ locally_expired Env Date_now s.
Proof.
  intros H.
  assert (Hnone : fresh s <> None) by congruence.
  rewrite fresh_token_None in Hnone.
  unfold fresh_token in H.
  destruct (cachedMandateToken (fst s)) as [tok |]; [| discriminate].
  destruct (mandateExpiresAt (fst s)) as [e |]; [| discriminate].
  match type of H with (if ?b then _ else _) = _ => destruct b end;
    [| discriminate].
  injection H as H. subst tok. repeat split; tauto.
Qed.

(** *** The two halves of the method *)

Lemma renew_unfold (s : St Env) :
  renewal s
  = let c := getMandateConfig (fst s) in
    match mandates_issue (snd s) (mc_subject c) (mc_budgetUsd c) (mc_scope c)
            (mc_ttlMinutes c) with
    | (inl e, env') =>
        (inl e, (fst s, env'),
         [MandatesIssue (mc_subject c) (mc_budgetUsd c) (mc_scope c) (mc_ttlMinutes c)])
    | (inr m, env') =>
        let expiry := JS.mul (IssueMandateResponse.expiresAt m) (JS.of_Z 1000) in
        (if JS.valid_time_value expiry
         then inr (IssueMandateResponse.mandateToken m)
         else inl (RangeError "Invalid time value"),
         (mk (config (fst s)) (apiKey (fst s)) (walletPrivateKey (fst s))
             (Some (IssueMandateResponse.mandateToken m)) (Some expiry),
          env'),
         [MandatesIssue (mc_subject c) (mc_budgetUsd c) (mc_scope c) (mc_ttlMinutes c)])
    end.
Proof.
  unfold renew, Eff.bind, Eff.get, client_issue, Eff.call, set_cache, Eff.lift,
    toISOString, Eff.ret.
  cbn [fst snd app].
  destruct (mandates_issue (snd s) _ _ _ _) as [[e | m] env']; cbn [fst snd app];
    [reflexivity |].
  destruct (JS.valid_time_value _); reflexivity.
Qed.

Lemma renew_trace (s : St Env) :
  issues (Eff.trace (renewal s)) = 1 /\ verifies (Eff.trace (renewal s)) = 0.
Proof.
  rewrite renew_unfold. cbv zeta.
  destruct (mandates_issue (snd s) _ _ _ _) as [[e | m] env']; split; reflexivity.
Qed.

Lemma ensureMandateValid_unfold (s : St Env) :
  ensure s
  = match fresh s with
    | None => renewal s
    | Some token =>
        match mandates_verify (snd s) token with
        | (inl e, env') =>
            Eff.preceded_by (MandatesVerify token) (renewal (fst s, env'))
        | (inr v, env') =>
            if VerifyMandateResponse.valid v then
              match VerifyMandateResponse.payload v with
              | None => Eff.preceded_by (MandatesVerify token) (renewal (fst s, env'))
              | Some p =>
                  if JS.gt (parseFloat (MandatePayload.budget_remaining p)) dust
                  then (inr token, (fst s, env'), [MandatesVerify token])
                  else Eff.preceded_by (MandatesVerify token) (renewal (fst s, env'))
              end
            else Eff.preceded_by (MandatesVerify token) (renewal (fst s, env'))
        end
    end.
Proof.
  unfold ensureMandateValid, try_reuse, Eff.bind at 1 2, Eff.get.
  destruct (fresh s) as [token |].
  - unfold Eff.try_catch, Eff.bind, client_verify, Eff.call, Eff.ret, Eff.throw,
      Eff.preceded_by.
    destruct (mandates_verify (snd s) token) as [[e | v] env']; cbn [fst snd app].
    + destruct (renewal (fst s, env')) as [[r s2] t2]. reflexivity.
    + destruct (VerifyMandateResponse.valid v).
      * destruct (VerifyMandateResponse.payload v) as [p |]; cbn [fst snd app].
        -- destruct (JS.gt _ dust); cbn [fst snd app]; [reflexivity |].
           destruct (renewal (fst s, env')) as [[r s2] t2]. reflexivity.
        -- destruct (renewal (fst s, env')) as [[r s2] t2]. reflexivity.
      * cbn [fst snd app]. destruct (renewal (fst s, env')) as [[r s2] t2]. reflexivity.
  - unfold Eff.ret. cbn [fst snd app].
    destruct s as [self env]. destruct (renewal (self, env)) as [[r s2] t2]. reflexivity.
Qed.

Lemma try_reuse_unfold (s : St Env) :
  try_reuse Env mandates_verify Date_now parseFloat s
  = match fresh s with
    | None => (inr None, s, [])
    | Some token =>
        match mandates_verify (snd s) token with
        | (inl e, env') => (inr None, (fst s, env'), [MandatesVerify token])
        | (inr v, env') =>
            (inr (if VerifyMandateResponse.valid v then
                    match VerifyMandateResponse.payload v with
                    | None => None
                    | Some p =>
                        if JS.gt (parseFloat (MandatePayload.budget_remaining p)) dust
                        then Some token else None
                    end
                  else None),
             (fst s, env'), [MandatesVerify token])
        end
    end.
Proof.
  unfold try_reuse, Eff.bind at 1, Eff.get.
  destruct (fresh s) as [token |]; [| reflexivity].
  unfold Eff.try_catch, Eff.bind, client_verify, Eff.call, Eff.ret, Eff.throw.
  destruct (mandates_verify (snd s) token) as [[e | v] env']; cbn [fst snd app];
    [reflexivity |].
  destruct (VerifyMandateResponse.valid v); [| reflexivity].
  destruct (VerifyMandateResponse.payload v) as [p |]; [| reflexivity].
  destruct (JS.gt _ dust); reflexivity.
Qed.

Lemma env_at_renewal_unfold (s : St Env) :
  env_at_renewal Env mandates_verify Date_now parseFloat s
  = match fresh s with
    | None => snd s
    | Some token => snd (mandates_verify (snd s) token)
    end.
Proof.
  unfold env_at_renewal. rewrite try_reuse_unfold.
  destruct (fresh s) as [token |]; [| reflexivity].
  destruct (mandates_verify (snd s) token) as [[e | v] env']; reflexivity.
Qed.

Lemma preceded_by_verify {A} (token : string) (o : (exn + A) * St Env * list event) :
  Eff.result (Eff.preceded_by (MandatesVerify token) o) = Eff.result o
  /\ Eff.final (Eff.preceded_by (MandatesVerify token) o) = Eff.final o
  /\ issues (Eff.trace (Eff.preceded_by (MandatesVerify token) o)) = issues (Eff.trace o).
Proof. destruct o as [[r s1] t]. repeat split. Qed.

(** A run either hands back the cached token after one verify call, or is
    a renewal from the state the first half leaves. *)
Lemma ensureMandateValid_cases (s : St Env) :
  (exists token b,
      verified_budget Env mandates_verify Date_now parseFloat s token b
      /\ JS.gt b dust = true
      /\ Eff.result (ensure s) = inr token
      /\ Eff.final (ensure s) = (fst s, snd (mandates_verify (snd s) token))
      /\ Eff.trace (ensure s) = [MandatesVerify token])
  \/ (renewal_cause Env mandates_verify Date_now parseFloat s
      /\ Eff.result (ensure s)
         = Eff.result (renewal (fst s, env_at_renewal Env mandates_verify Date_now
                                          parseFloat s))
      /\ Eff.final (ensure s)
         = Eff.final (renewal (fst s, env_at_renewal Env mandates_verify Date_now
                                         parseFloat s))
      /\ issues (Eff.trace (ensure s)) = 1
      /\ (fresh s = None -> verifies (Eff.trace (ensure s)) = 0)).
Proof.
  rewrite ensureMandateValid_unfold, env_at_renewal_unfold.
  unfold renewal_cause, verify_fails, verified_budget, well_formed.
  destruct (fresh s) as [token |] eqn:Hfresh.
  - destruct (mandates_verify (snd s) token) as [[e | v] env'] eqn:Hverify;
      cbn [fst snd].
    + right.
      destruct (preceded_by_verify token (renewal (fst s, env'))) as [-> [-> ->]].
      repeat split; try apply renew_trace; try discriminate.
      right; left. exists token. rewrite Hverify. cbn [fst].
      split; [reflexivity | left; eauto].
    + destruct (VerifyMandateResponse.valid v) eqn:Hvalid.
      * destruct (VerifyMandateResponse.payload v) as [p |] eqn:Hpayload.
        -- destruct (JS.gt (parseFloat (MandatePayload.budget_remaining p)) dust)
             eqn:Hgt.
           ++ left. exists token, (parseFloat (MandatePayload.budget_remaining p)).
              rewrite Hverify. cbn [fst]. repeat split; eauto 8.
           ++ right.
              destruct (preceded_by_verify token (renewal (fst s, env')))
                as [-> [-> ->]].
              repeat split; try apply renew_trace; try discriminate.
              right; right; left.
              exists token, (parseFloat (MandatePayload.budget_remaining p)).
              rewrite Hverify. cbn [fst]. repeat split; eauto 8.
        -- right.
           destruct (preceded_by_verify token (renewal (fst s, env')))
             as [-> [-> ->]].
           repeat split; try apply renew_trace; try discriminate.
           right; right; right. exists token, v. rewrite Hverify. cbn [fst].
           repeat split; auto. intros Hwf.
           destruct (Hwf Hvalid) as [p [Hp _]]. congruence.
      * right.
        destruct (preceded_by_verify token (renewal (fst s, env'))) as [-> [-> ->]].
        repeat split; try apply renew_trace; try discriminate.
        right; left. exists token. rewrite Hverify. cbn [fst].
        split; [reflexivity | right; eauto].
  - right. destruct s as [self env]. cbn [fst snd].
    repeat split; try apply renew_trace; [now left |].
    intros _. apply renew_trace.
Qed.

(** *** What the verify call says, read once *)

Lemma verified_budget_functional (s : St Env) (t1 t2 : string) (b1 b2 : JS.number) :
  verified_budget Env mandates_verify Date_now parseFloat s t1 b1 ->
  verified_budget Env mandates_verify Date_now parseFloat s t2 b2 ->
  t1 = t2 /\ b1 = b2.
Proof.
  intros [Hf1 [v1 [p1 [Hv1 [_ [Hp1 Hb1]]]]]] [Hf2 [v2 [p2 [Hv2 [_ [Hp2 Hb2]]]]]].
  assert (t1 = t2) by congruence. subst t2.
  assert (v1 = v2) by congruence. subst v2.
  assert (p1 = p2) by congruence. subst p2.
  split; congruence.
Qed.

Lemma verify_fails_not_verified (s : St Env) (t1 t2 : string) (b : JS.number) :
  verify_fails Env mandates_verify Date_now s t1 ->
  verified_budget Env mandates_verify Date_now parseFloat s t2 b -> False.
Proof.
  intros [Hf1 Hfail] [Hf2 [v [p [Hv [Hvalid _]]]]].
  assert (t1 = t2) by congruence. subst t2.
  destruct Hfail as [[e He] | [v' [Hv' Hinvalid]]]; congruence.
Qed.

Lemma gt_dust_not_NaN (b : JS.number) : JS.gt b dust = true -> JS.isNaN b = false.
Proof. destruct b; simpl; congruence. Qed.

(** A funded, verified, fresh mandate gives no cause for renewal. *)
Lemma funded_no_renewal_cause (s : St Env) (token : string) (b : JS.number) :
  verified_budget Env mandates_verify Date_now parseFloat s token b ->
  JS.gt b dust = true ->
  ~ renewal_cause Env mandates_verify Date_now parseFloat s.
Proof.
  intros Hvb Hgt [Hnone | [[t Hfail] | [[t [b' [Hvb' Hgt']]] | [t [v [Hf [Hv Hwf]]]]]]].
  - destruct Hvb as [Hf _]. congruence.
  - eapply verify_fails_not_verified; eauto.
  - destruct (verified_budget_functional _ _ _ _ _ Hvb Hvb') as [_ <-]. congruence.
  - apply Hwf. intros _.
    destruct Hvb as [Hf' [v' [p [Hv' [_ [Hp Hb]]]]]].
    assert (t = token) by congruence. subst t.
    assert (v' = v) by congruence. subst v'.
    exists p. split; [assumption |]. rewrite Hb. now apply gt_dust_not_NaN.
Qed.

(** The reuse path in full. *)
Lemma ensureMandateValid_reuse (s : St Env) (token : string) (b : JS.number) :
  verified_budget Env mandates_verify Date_now parseFloat s token b ->
  JS.gt b dust = true ->
  Eff.result (ensure s) = inr token
  /\ Eff.final (ensure s) = (fst s, snd (mandates_verify (snd s) token))
  /\ Eff.trace (ensure s) = [MandatesVerify token].
Proof.
  intros Hvb Hgt.
  destruct (ensureMandateValid_cases s)
    as [[t [b' [Hvb' [_ H]]]] | [Hcause _]].
  - destruct (verified_budget_functional _ _ _ _ _ Hvb Hvb') as [<- _]. exact H.
  - exfalso. eapply funded_no_renewal_cause; eauto.
Qed.

(** The renewal path in full. *)
Lemma ensureMandateValid_renewal (s : St Env) :
  renewal_cause Env mandates_verify Date_now parseFloat s ->
  Eff.result (ensure s)
  = Eff.result (renewal (fst s, env_at_renewal Env mandates_verify Date_now parseFloat s))
  /\ Eff.final (ensure s)
     = Eff.final (renewal (fst s, env_at_renewal Env mandates_verify Date_now parseFloat s))
  /\ issues (Eff.trace (ensure s)) = 1
  /\ (fresh s = None -> verifies (Eff.trace (ensure s)) = 0).
Proof.
  intros Hcause.
  destruct (ensureMandateValid_cases s)
    as [[t [b [Hvb [Hgt _]]]] | [_ H]]; [| exact H].
  exfalso. eapply funded_no_renewal_cause; eauto.
Qed.

(** C1. [ensureMandateValid] calls [mandates.issue] exactly in these cases:
    no token is cached; the recorded expiry is not after the clock; the
    verify call throws or reports the mandate invalid; the verification says
    valid and carries no payload; the verified remaining budget is at most
    0.01 or is not a number.  In the first two cases it makes no verify
    call.  When the verify call throws, the method goes on to issue and ends
    as the renewal ends; and whenever the method throws, it has called issue
    and the error is the renewal's own. *)
Theorem ensureMandateValid_renews_exactly_when (s : St Env) :
  let o := ensure s in
  (issues (Eff.trace o) = 1 <->
     cache_absent Env s
     \/ locally_expired Env Date_now s
     \/ (exists token, verify_fails Env mandates_verify Date_now s token)
     \/ (exists token, valid_without_payload Env mandates_verify Date_now s token)
     \/ (exists token b,
            verified_budget Env mandates_verify Date_now parseFloat s token b
            /\ (JS.le b dust = true \/ JS.isNaN b = true)))
  /\ (cache_absent Env s \/ locally_expired Env Date_now s ->
        verifies (Eff.trace o) = 0)
  /\ (forall token e, fresh s = Some token ->
        fst (mandates_verify (snd s) token) = inl e ->
        issues (Eff.trace o) = 1
        /\ Eff.result o
           = Eff.result (renewal (fst s, snd (mandates_verify (snd s) token))))
  /\ (forall e, Eff.result o = inl e ->
        issues (Eff.trace o) = 1
        /\ Eff.result
             (renewal (fst s, env_at_renewal Env mandates_verify Date_now parseFloat s))
           = inl e).
Proof.
  intros o. subst o.
  destruct (ensureMandateValid_cases s)
    as [[token [b [Hvb [Hgt [Hres [Hfin Htr]]]]]] | [Hcause [Hres [Hfin [Hiss Hver]]]]].
  - (* the cached token is handed back *)
    pose proof Hvb as [Hfresh _].
    assert (Hnot : ~ (cache_absent Env s \/ locally_expired Env Date_now s)).
    { rewrite <- fresh_token_None. congruence. }
    rewrite Htr, Hres. repeat split.
    + discriminate.
    + intros [Ha | [He | [[t Hfail] | [[t Hbare] | [t [b' [Hvb' Hle]]]]]]].
      * exfalso. apply Hnot. now left.
      * exfalso. apply Hnot. now right.
      * exfalso. eapply verify_fails_not_verified; eauto.
      * exfalso. destruct Hbare as [Hf [v [Hv [_ Hnone]]]].
        destruct Hvb as [_ [v' [p [Hv' [_ [Hp _]]]]]].
        assert (t = token) by congruence. subst t. congruence.
      * destruct (verified_budget_functional _ _ _ _ _ Hvb Hvb') as [_ <-].
        destruct Hle as [Hle | Hnan].
        -- apply le_dust_not_gt in Hle. congruence.
        -- apply gt_dust_not_NaN in Hgt. congruence.
    + intros H. exfalso. now apply Hnot.
    + exfalso. destruct Hvb as [_ [v [p [Hv _]]]].
      assert (token0 = token) by congruence. subst token0. congruence.
    + exfalso. destruct Hvb as [_ [v [p [Hv _]]]].
      assert (token0 = token) by congruence. subst token0. congruence.
    + discriminate.
    + discriminate.
  - (* a new mandate is issued *)
    repeat split.
    + intros _.
      destruct Hcause as [Hnone | [Hfail | [[t [b [Hvb Hgt]]] | [t [v [Hf [Hv Hbad]]]]]]].
      * apply fresh_token_None in Hnone. tauto.
      * tauto.
      * do 4 right. exists t, b. split; [assumption |].
        destruct (JS.isNaN b) eqn:Hnan; [now right | left].
        now apply not_gt_dust_le.
      * destruct (VerifyMandateResponse.valid v) eqn:Hvalid.
        2: { exfalso. apply Hbad. intros H. congruence. }
        destruct (VerifyMandateResponse.payload v) as [p |] eqn:Hp.
        -- do 4 right. exists t, (parseFloat (MandatePayload.budget_remaining p)).
           split.
           ++ split; [assumption |]. exists v, p. repeat split; assumption.
           ++ right.
              destruct (JS.isNaN (parseFloat (MandatePayload.budget_remaining p)))
                eqn:Hnan; [reflexivity |].
              exfalso. apply Hbad. intros _. exists p. split; [exact Hp | exact Hnan].
        -- do 3 right. left. exists t. split; [assumption |].
           exists v. repeat split; assumption.
    + intros _. exact Hiss.
    + intros H. apply Hver. now apply fresh_token_None.
    + exact Hiss.
    + rewrite Hres, env_at_renewal_unfold, H. reflexivity.
    + exact Hiss.
    + rewrite <- Hres. assumption.
Qed.

(** C2. When the cached mandate is unexpired, verified valid and funded
    above 0.01 at a first call, and still so at the call that follows it,
    both calls return the cached token, neither calls issue, and the
    loader's cache is as it was. *)
Theorem ensureMandateValid_reuse_idempotent (s : St Env) (token : string)
    (b1 b2 : JS.number) :
  verified_budget Env mandates_verify Date_now parseFloat s token b1 ->
  JS.gt b1 dust = true ->
  let o1 := ensure s in
  verified_budget Env mandates_verify Date_now parseFloat (Eff.final o1) token b2 ->
  JS.gt b2 dust = true ->
  let o2 := ensure (Eff.final o1) in
  Eff.result o1 = inr token
  /\ Eff.result o2 = inr token
  /\ issues (Eff.trace o1) = 0
  /\ issues (Eff.trace o2) = 0
  /\ fst (Eff.final o2) = fst s.
Proof.
  intros Hvb1 Hgt1 o1 Hvb2 Hgt2 o2. subst o1 o2.
  destruct (ensureMandateValid_reuse s token b1 Hvb1 Hgt1) as [Hr1 [Hf1 Ht1]].
  destruct (ensureMandateValid_reuse _ token b2 Hvb2 Hgt2) as [Hr2 [Hf2 Ht2]].
  rewrite Hr1, Hr2, Ht1, Ht2, Hf2, Hf1. repeat split.
Qed.

End LifecycleFacts.

(* ===================================================================== *)
(** * Concrete runs *)
(* ===================================================================== *)

Section Runs.
Import Fixtures.



(** A run of C10's statement: an empty body under its own digest. *)
Lemma verifySignature_empty_argument_run :
  (exists msg : string,
      WebhooksModule.verifySignature hmac EmptyString "k:" "k"
      = inl (ValidationError msg)
      /\ WebhooksModule.verifyAndParse hmac string JSON_parse EmptyString "k:" "k" tt
         = (inl (ValidationError msg), tt, []))
  /\ WebhooksModule.verifySignature hmac EmptyString (hmac "k" EmptyString) "k"
     = inl (ValidationError "payload is required").
Proof.
  apply (verifySignature_empty_argument hmac string JSON_parse EmptyString "k:" "k").
  left. reflexivity.
Defined.

(** A run of C7's statement: a tampered signature is refused unparsed. *)
Lemma verifyAndParse_verifies_first_run :
  WebhooksModule.verifySignature hmac "{}" "other:{}" "k" = inr false
  /\ Eff.result (WebhooksModule.verifyAndParse hmac string JSON_parse "{}" "other:{}" "k" tt)
     = inl WebhooksModule.authenticity_error
  /\ Eff.trace (WebhooksModule.verifyAndParse hmac string JSON_parse "{}" "other:{}" "k" tt)
     = [].
Proof.
  split; [reflexivity |].
  apply (verifyAndParse_verifies_first hmac string JSON_parse "{}" "other:{}" "k").
  reflexivity.
Defined.

(** A run of C3's statement: the gateway rejects the transaction. *)
Lemma submitTxHash_rejection_is_a_result_run :
  let o := PaymentsModule.submitTxHash Gateway Resource fst snd rejects show_number
             mandateToken txHash None None None None 0 in
  (forall message reason,
      InvalidTransactionError "Invalid transaction: amount mismatch" "wrong amount"
      = InvalidTransactionError message reason ->
      exists r, Eff.result o = inr r
                /\ SubmitPaymentResponse.success r = false
                /\ SubmitPaymentResponse.status r = "failed"
                /\ SubmitPaymentResponse.error r = Some reason)
  /\ (is_InvalidTransactionError
        (InvalidTransactionError "Invalid transaction: amount mismatch" "wrong amount")
      = false ->
      Eff.result o
      = inl (InvalidTransactionError "Invalid transaction: amount mismatch" "wrong amount")).
Proof.
  apply (submitTxHash_rejection_is_a_result Gateway Resource fst snd rejects show_number
           mandateToken txHash None None None None 0 1
           (InvalidTransactionError "Invalid transaction: amount mismatch" "wrong amount"));
    reflexivity.
Defined.

(** A run of C9's amended statement: a price of zero is refused locally. *)
Lemma submitTxHash_refuses_locally_run :
  let o := PaymentsModule.submitTxHash Gateway Resource fst snd settles show_number
             mandateToken txHash None None None (Some (JS.of_Z 0)) 0 in
  (exists msg, Eff.result o = inl (ValidationError msg))
  /\ Eff.trace o = [] /\ Eff.final o = 0.
Proof.
  apply (submitTxHash_refuses_locally Gateway Resource fst snd settles show_number
           mandateToken txHash None None None (Some (JS.of_Z 0)) 0).
  do 6 right. exists (JS.of_Z 0). split; [reflexivity | right; reflexivity].
Defined.

(** C9, the spec's wording refuted: a price of positive infinity is not a
    finite positive number, yet [submitTxHash] raises no ValidationError and
    sends the request. *)
Lemma submitTxHash_accepts_infinite_price :
  let o := PaymentsModule.submitTxHash Gateway Resource fst snd settles show_number
             mandateToken txHash None None None (Some JS.Infinity) 0 in
  ~ PaymentsModule.finite_positive JS.Infinity
  /\ PaymentsModule.requests (Eff.trace o) = 1
  /\ (forall msg, Eff.result o <> inl (ValidationError msg)).
Proof.
  cbv zeta. repeat split.
  - intros [H _]. discriminate.
  - intros msg H. discriminate.
Qed.

(** Other errors of the request reach the caller as they are: a rate limit. *)
Lemma submitTxHash_rate_limit_run :
  Eff.result (PaymentsModule.submitTxHash Gateway Resource fst snd rate_limited show_number
                mandateToken txHash None None None None 0)
  = inl (RateLimitError "Rate limit exceeded" 60 100 0).
Proof. reflexivity. Qed.

(** A settled payment with its commission leg. *)
Lemma submitTxHash_two_transactions_run :
  let o := PaymentsModule.submitTxHash Gateway Resource fst snd settles show_number
             mandateToken txHash (Some txHashCommission) (Some "base") (Some "USDC")
             None 0 in
  Eff.result o
  = inr (SubmitPaymentResponse.mk true "completed" txHash (Some txHashCommission)
           (JS.of_Z 3) (JS.of_Z 7) (Some (Some (JS.of_Z 3), Some (JS.of_Z 7))) None)
  /\ Eff.trace o
     = [HttpGet "/x402/resource?chain=base&token=USDC"
          (PaymentsModule.payment_headers mandateToken txHash (Some txHashCommission))].
Proof. split; reflexivity. Qed.

(** An empty commission hash counts as none given: it is not checked
    against the hash pattern, and the request goes out without it. *)
Lemma submitTxHash_skips_empty_commission :
  let o := PaymentsModule.submitTxHash Gateway Resource fst snd settles show_number
             mandateToken txHash (Some EmptyString) None None None 0 in
  Validation.txHashRegex_test EmptyString = false
  /\ PaymentsModule.requests (Eff.trace o) = 1
  /\ (forall msg, Eff.result o <> inl (ValidationError msg)).
Proof.
  cbv zeta. repeat split. intros msg H. discriminate.
Qed.

(** A run of C4's statement: not found, then pending, then failed. *)
Lemma waitForConfirmation_stops_at_failed_run :
  let o := PaymentsModule.waitForConfirmation Gateway fails_on_third txHash None None 0 in
  Eff.result o
  = inl (InvalidTransactionError "Transaction failed: wrong amount" "wrong amount")
  /\ PaymentsModule.requests (Eff.trace o) = 3
  /\ (forall r, Some "wrong amount" = Some r -> r <> EmptyString ->
        Eff.result o = inl (InvalidTransactionError ("Transaction failed: " ++ r) r)).
Proof.
  apply (waitForConfirmation_stops_at_failed Gateway fails_on_third txHash None None 0 3
           (Some "wrong amount")).
  - reflexivity.
  - apply le_S, le_S, le_n.
  - discriminate.
  - intros [| [| i]] Hi.
    + left. exists not_found_error. split; reflexivity.
    + right. exists (ok (record "pending" None)), (record "pending" None).
      repeat split; discriminate.
    + exfalso. apply Nat.succ_lt_mono, Nat.succ_lt_mono in Hi. inversion Hi.
  - exists (ok (record "failed" (Some "wrong amount"))),
      (record "failed" (Some "wrong amount")).
    repeat split.
Defined.

(** C5, the defect. With a gateway that answers every verification request
    not-found, five attempts and an interval of 2000 ms, the method sends its
    five requests and throws the timeout error naming the hash and the
    count, but it never sleeps: the await of the interval sits in the try
    block after the request, so the 404 thrown by the request skips it.
    The documented interval between attempts is not kept on this path (the
    pending path keeps it, see [poll_always_pending]). *)
Theorem waitForConfirmation_never_found_run :
  let o := PaymentsModule.waitForConfirmation Gateway never_found txHash
             (Some 5%Z) (Some 2000%Z) 0 in
  Eff.result o
  = inl (Error ("Transaction " ++ txHash ++ " not confirmed after 5 attempts"))
  /\ PaymentsModule.requests (Eff.trace o) = 5
  /\ PaymentsModule.sleeps (Eff.trace o) = []
  /\ PaymentsModule.total_sleep (Eff.trace o) = 0%Z.
Proof.
  cbv zeta.
  destruct (waitForConfirmation_never_found Gateway never_found txHash
              (Some 5%Z) (Some 2000%Z) 0 eq_refl) as [Hres [Htrace Hsleeps]].
  { intros i _. exists not_found_error. split; reflexivity. }
  rewrite Hres, Htrace. repeat split.
Qed.

(** A run of C1's statement: the verified budget is exhausted. *)
Lemma ensureMandateValid_renews_exactly_when_run :
  let o := ConfigLoader.ensureMandateValid World verify_exhausted issue_grants
             Date_now parseFloat (holding, now) in
  ConfigLoader.issues (Eff.trace o) = 1
  /\ Eff.result o = inr "header.payload.renewed".
Proof.
  cbv zeta. split; [| reflexivity].
  apply (ensureMandateValid_renews_exactly_when World verify_exhausted issue_grants
           Date_now parseFloat (holding, now)).
  do 4 right. exists mandateToken, (JS.of_Z 0). split; [| left; reflexivity].
  split; [reflexivity |].
  exists (VerifyMandateResponse.mk true (Some (payload "0.00")) None), (payload "0.00").
  repeat split.
Defined.

(** C1, the spec's wording refuted: the cached mandate is inside its
    lifetime and the verify call answers valid, without a payload.  Reading
    the remaining budget throws inside the [try], so a new mandate is issued
    although the cache is there, the expiry has not passed, verification
    neither failed nor said invalid, and no verified budget is at most
    0.01. *)
Lemma ensureMandateValid_renews_on_bare_valid :
  let s := (holding, now) in
  let o := ConfigLoader.ensureMandateValid World verify_bare issue_grants
             Date_now parseFloat s in
  ConfigLoader.issues (Eff.trace o) = 1
  /\ Eff.result o = inr "header.payload.renewed"
  /\ ~ (ConfigLoader.cache_absent World s
        \/ ConfigLoader.locally_expired World Date_now s
        \/ (exists token, ConfigLoader.verify_fails World verify_bare Date_now s token)
        \/ (exists token b,
               ConfigLoader.verified_budget World verify_bare Date_now parseFloat
                 s token b
               /\ JS.le b ConfigLoader.dust = true)).
Proof.
  cbv zeta. split; [reflexivity |]. split; [reflexivity |].
  intros [H | [[_ H] | [[token [_ H]] | [token [b [[_ H] _]]]]]].
  - discriminate H.
  - discriminate H.
  - destruct H as [[e H] | [v [H Hvalid]]].
    + discriminate H.
    + injection H as <-. discriminate Hvalid.
  - destruct H as [v [p [H [_ [Hp _]]]]]. injection H as <-. discriminate Hp.
Qed.

(** A run of C2's statement: two calls in a row on a funded mandate. *)
Lemma ensureMandateValid_reuse_idempotent_run :
  let o1 := ConfigLoader.ensureMandateValid World verify_funded issue_grants
              Date_now parseFloat (holding, now) in
  let o2 := ConfigLoader.ensureMandateValid World verify_funded issue_grants
              Date_now parseFloat (Eff.final o1) in
  Eff.result o1 = inr mandateToken
  /\ Eff.result o2 = inr mandateToken
  /\ ConfigLoader.issues (Eff.trace o1) = 0
  /\ ConfigLoader.issues (Eff.trace o2) = 0
  /\ fst (Eff.final o2) = holding.
Proof.
  apply (ensureMandateValid_reuse_idempotent World verify_funded issue_grants
           Date_now parseFloat (holding, now) mandateToken (JS.of_Z 7) (JS.of_Z 7)).
  - split; [reflexivity |].
    exists (VerifyMandateResponse.mk true (Some (payload "7.00")) None), (payload "7.00").
    repeat split.
  - reflexivity.
  - split; [reflexivity |].
    exists (VerifyMandateResponse.mk true (Some (payload "7.00")) None), (payload "7.00").
    repeat split.
  - reflexivity.
Defined.

End Runs.

(* ===================================================================== *)
(** * Further properties *)
(* ===================================================================== *)

(** ** The polling loop under any gateway *)

Section PollingFacts.
Import Validation PaymentsModule Polling.
Variable Env : Type.
Variable resource_t : Type.
Variable amount_usd : resource_t -> option JS.number.
Variable budget_remaining : resource_t -> option JS.number.
Variable http_get_resource :
  Env -> string -> list (string * string) -> (exn + APIResponse resource_t) * Env.
Variable http_get_verification :
  Env -> string -> list (string * string)
  -> (exn + APIResponse PaymentVerification.t) * Env.
Variable show_number : JS.number -> string.

Local Notation "'polling'" := (poll Env http_get_verification).
Local Notation "'confirm'" := (waitForConfirmation Env http_get_verification).
Local Notation "'answer'" := (poll_answer Env http_get_verification).

Lemma requests_app (t1 t2 : list event) :
  requests (t1 ++ t2) = requests t1 + requests t2.
Proof. unfold requests. now rewrite filter_app, length_app. Qed.

Lemma sleeps_app (t1 t2 : list event) :
  sleeps (t1 ++ t2) = (sleeps t1 ++ sleeps t2)%list.
Proof. unfold sleeps. apply flat_map_app. Qed.

Lemma total_sleep_app (t1 t2 : list event) :
  total_sleep (t1 ++ t2) = (total_sleep t1 + total_sleep t2)%Z.
Proof.
  unfold total_sleep. rewrite sleeps_app.
  induction (sleeps t1) as [| ms l IH]; cbn [app fold_right]; [reflexivity | lia].
Qed.

Lemma statusCode_is_not_404_true (e : exn) :
  statusCode_is_not_404 e = true <-> error_statusCode e <> Some 404%Z.
Proof.
  unfold statusCode_is_not_404. destruct (error_statusCode e) as [c |].
  - destruct (Z.eqb_spec c 404); cbn [negb]; split; congruence.
  - split; [discriminate | reflexivity].
Qed.

(** On a hash the pattern refuses, [verify] throws a ValidationError and
    sends nothing. *)
Lemma verify_invalid_hash (txHash : string) (env : Env) :
  txHashRegex_test txHash = false ->
  exists msg,
    verify Env http_get_verification txHash env = (inl (ValidationError msg), env, []).
Proof.
  intros H. unfold verify, Eff.bind, Eff.lift, validateTxHash. rewrite H.
  destruct txHash as [| c rest]; cbn; eauto.
Qed.

(** A turn sends at most one request, and sleeps at most once, after it, for
    the interval. *)
Lemma poll_once_shape (txHash : string) (intervalMs : Z) (env : Env) :
  let t := Eff.trace (poll_once Env http_get_verification txHash intervalMs env) in
  t = [] \/ t = [HttpGet (verify_url txHash) []]
  \/ t = [HttpGet (verify_url txHash) []; Sleep intervalMs].
Proof.
  cbv zeta. unfold poll_once, Eff.try_catch, Eff.bind.
  destruct (txHashRegex_test txHash) eqn:Hhash.
  - rewrite verify_valid_hash by assumption.
    destruct (http_get_verification env (verify_url txHash) []) as [[e | r] env'].
    + destruct (statusCode_is_not_404 e); cbn; auto.
    + destruct (data r) as [v |]; [| cbn; auto].
      destruct (String.eqb (PaymentVerification.status v) "completed"); [cbn; auto |].
      destruct (String.eqb (PaymentVerification.status v) "failed"); cbn; auto.
  - destruct (verify_invalid_hash txHash env Hhash) as [msg ->]. cbn. auto.
Qed.

(** The loop sends at most one request per turn and sleeps only the interval,
    never more often than it sent a request. *)
Lemma poll_bounded (txHash : string) (intervalMs : Z) (turns : nat) :
  forall env : Env,
    let t := Eff.trace (polling txHash intervalMs turns env) in
    requests t <= turns
    /\ Forall (fun ms => ms = intervalMs) (sleeps t)
    /\ List.length (sleeps t) <= requests t.
Proof.
  induction turns as [| n IH]; intros env; cbv zeta.
  - cbn. repeat split; auto.
  - cbn [poll]. unfold Eff.bind.
    pose proof (poll_once_shape txHash intervalMs env) as Hshape. cbv zeta in Hshape.
    destruct (poll_once Env http_get_verification txHash intervalMs env)
      as [[[e | [v |]] env1] t1]; unfold Eff.trace in *; cbn [fst snd] in *.
    + destruct Hshape as [-> | [-> | ->]]; cbn; repeat split; auto; lia.
    + unfold Eff.ret. cbn [fst snd]. rewrite app_nil_r.
      destruct Hshape as [-> | [-> | ->]]; cbn; repeat split; auto; lia.
    + specialize (IH env1). cbv zeta in IH.
      destruct (polling txHash intervalMs n env1) as [[r env2] t2].
      cbn [fst snd] in *. destruct IH as [Hreq [Hall Hlen]].
      rewrite requests_app, sleeps_app, length_app.
      destruct Hshape as [-> | [-> | ->]]; cbn [requests sleeps filter is_HttpGet
        flat_map app List.length]; repeat split; try lia; auto.
Qed.

(** X1. Whatever the gateway answers, [waitForConfirmation] sends at most
    [maxAttempts] requests; every sleep it takes lasts [intervalMs], and it
    never sleeps more often than it has sent a request. *)
Theorem waitForConfirmation_bounded (txHash : string)
    (maxAttempts_arg intervalMs_arg : option Z) (env : Env) :
  let t := Eff.trace (confirm txHash maxAttempts_arg intervalMs_arg env) in
  requests t <= Z.to_nat (default 30%Z maxAttempts_arg)
  /\ Forall (fun ms => ms = default 2000%Z intervalMs_arg) (sleeps t)
  /\ List.length (sleeps t) <= requests t.
Proof.
  cbv zeta. unfold waitForConfirmation, Eff.bind at 1, Eff.lift.
  destruct (validateRequired (Some txHash) "txHash" >> validateTxHash txHash)
    as [e | []].
  - cbn. repeat split; auto; lia.
  - unfold Eff.bind.
    pose proof (poll_bounded txHash (default 2000%Z intervalMs_arg)
                  (Z.to_nat (default 30%Z maxAttempts_arg)) env) as H.
    cbv zeta in H.
    destruct (polling txHash _ _ env) as [[[e | [v |]] env'] t];
      unfold Eff.trace, Eff.ret, Eff.throw in *; cbn [fst snd app] in *;
      rewrite ?app_nil_r; exact H.
Qed.
(** While the answers are transient the loop goes on: after [j] such answers
    it has sent [j] requests and stands where a loop with [j] turns less
    would start. *)
Lemma poll_transient_prefix (txHash : string) (intervalMs : Z) :
  txHashRegex_test txHash = true ->
  forall (j turns : nat) (env : Env),
    j <= turns ->
    (forall i, i < j -> transient (answer txHash env i)) ->
    exists t,
      polling txHash intervalMs turns env
      = after t (polling txHash intervalMs (turns - j)
                   (env_after_polls Env http_get_verification txHash j env))
      /\ requests t = j.
Proof.
  intros Hhash. induction j as [| j IH]; intros turns env Hle Htransient.
  - exists []. rewrite Nat.sub_0_r. cbn [env_after_polls].
    destruct (polling txHash intervalMs turns env) as [[r s] t]. split; reflexivity.
  - destruct turns as [| n]; [lia |].
    destruct (IH n (snd (http_get_verification env (verify_url txHash) []))
                ltac:(lia)) as [t [Heq Hreq]].
    { intros i Hi. rewrite <- poll_answer_S. apply Htransient. lia. }
    cbn [poll Nat.sub env_after_polls]. unfold Eff.bind.
    destruct (Htransient 0 ltac:(lia)) as [Hnf | Hpd].
    + rewrite poll_once_not_found by assumption. rewrite Heq.
      exists (HttpGet (verify_url txHash) [] :: t).
      destruct (polling txHash intervalMs (n - j) _) as [[r s] t'].
      split; [reflexivity | rewrite requests_cons_HttpGet; now rewrite Hreq].
    + rewrite poll_once_pending by assumption. rewrite Heq.
      exists (HttpGet (verify_url txHash) [] :: Sleep intervalMs :: t).
      destruct (polling txHash intervalMs (n - j) _) as [[r s] t'].
      split; [reflexivity |].
      rewrite requests_cons_HttpGet, requests_cons_Sleep. now rewrite Hreq.
Qed.

(** A turn whose request is answered with a completed record returns it. *)
Lemma poll_once_completed (txHash : string) (intervalMs : Z) (env : Env)
    (v : PaymentVerification.t) :
  txHashRegex_test txHash = true ->
  reports_completed (fst (http_get_verification env (verify_url txHash) [])) v ->
  poll_once Env http_get_verification txHash intervalMs env
  = (inr (Some v), snd (http_get_verification env (verify_url txHash) []),
     [HttpGet (verify_url txHash) []]).
Proof.
  intros H [r [Ha [Hd Hs]]]. unfold poll_once, Eff.try_catch, Eff.bind.
  rewrite verify_valid_hash by assumption.
  destruct (http_get_verification env _ _) as [a env']. cbn [fst] in Ha. subst a.
  rewrite Hd, Hs. reflexivity.
Qed.

(** A turn whose request fails with a status other than 404 throws the error. *)
Lemma poll_once_fatal (txHash : string) (intervalMs : Z) (env : Env) (e : exn) :
  txHashRegex_test txHash = true ->
  fails_with (fst (http_get_verification env (verify_url txHash) [])) e ->
  poll_once Env http_get_verification txHash intervalMs env
  = (inl e, snd (http_get_verification env (verify_url txHash) []),
     [HttpGet (verify_url txHash) []]).
Proof.
  intros H [Ha Hcode]. unfold poll_once, Eff.try_catch, Eff.bind.
  rewrite verify_valid_hash by assumption.
  destruct (http_get_verification env _ _) as [a env']. cbn [fst] in Ha. subst a.
  apply statusCode_is_not_404_true in Hcode. rewrite Hcode. reflexivity.
Qed.

(** A turn whose request is answered without a body throws. *)
Lemma poll_once_empty_body (txHash : string) (intervalMs : Z) (env : Env) :
  txHashRegex_test txHash = true ->
  empty_body (fst (http_get_verification env (verify_url txHash) [])) ->
  poll_once Env http_get_verification txHash intervalMs env
  = (inl (Error "Failed to verify payment"),
     snd (http_get_verification env (verify_url txHash) []),
     [HttpGet (verify_url txHash) []]).
Proof.
  intros H [r [Ha Hd]]. unfold poll_once, Eff.try_catch, Eff.bind.
  rewrite verify_valid_hash by assumption.
  destruct (http_get_verification env _ _) as [a env']. cbn [fst] in Ha. subst a.
  rewrite Hd. reflexivity.
Qed.

(** The wait ends at the [k]-th request when the answers before it are
    transient and the turn that sends it ends the loop. *)
Lemma waitForConfirmation_ends_at (txHash : string)
    (maxAttempts_arg intervalMs_arg : option Z) (env : Env) (k : nat)
    (stop : exn + PaymentVerification.t) :
  txHashRegex_test txHash = true ->
  1 <= k ->
  (Z.of_nat k <= default 30%Z maxAttempts_arg)%Z ->
  (forall i, i < k - 1 -> transient (answer txHash env i)) ->
  (forall env1,
     env1 = env_after_polls Env http_get_verification txHash (k - 1) env ->
     poll_once Env http_get_verification txHash (default 2000%Z intervalMs_arg) env1
     = (stopped stop, snd (http_get_verification env1 (verify_url txHash) []),
        [HttpGet (verify_url txHash) []])) ->
  Eff.result (confirm txHash maxAttempts_arg intervalMs_arg env) = stop
  /\ requests (Eff.trace (confirm txHash maxAttempts_arg intervalMs_arg env)) = k.
Proof.
  intros Hhash Hk1 Hk Htransient Hstop.
  rewrite waitForConfirmation_valid_hash by assumption.
  destruct (poll_transient_prefix txHash (default 2000%Z intervalMs_arg) Hhash (k - 1)
              (Z.to_nat (default 30%Z maxAttempts_arg)) env ltac:(lia) Htransient)
    as [t [Heq Hreq]].
  rewrite Heq.
  replace (Z.to_nat (default 30%Z maxAttempts_arg) - (k - 1))
    with (S (Z.to_nat (default 30%Z maxAttempts_arg) - k)) by lia.
  cbn [poll]. unfold Eff.bind. rewrite (Hstop _ eq_refl).
  unfold after, Eff.result, Eff.trace, Eff.ret.
  destruct stop as [e | v]; cbn [stopped fst snd app];
    rewrite requests_app, Hreq; cbn [requests filter is_HttpGet List.length];
    split; try reflexivity; lia.
Qed.

(** X2. When the first [k - 1] answers are not-found or pending and the
    [k]-th is a completed record ([k] within [maxAttempts]),
    [waitForConfirmation] returns that record after exactly [k] requests. *)
Theorem waitForConfirmation_returns_completed (txHash : string)
    (maxAttempts_arg intervalMs_arg : option Z) (env : Env) (k : nat)
    (v : PaymentVerification.t) :
  txHashRegex_test txHash = true ->
  1 <= k ->
  (Z.of_nat k <= default 30%Z maxAttempts_arg)%Z ->
  (forall i, i < k - 1 -> transient (answer txHash env i)) ->
  reports_completed (answer txHash env (k - 1)) v ->
  Eff.result (confirm txHash maxAttempts_arg intervalMs_arg env) = inr v
  /\ requests (Eff.trace (confirm txHash maxAttempts_arg intervalMs_arg env)) = k.
Proof.
  intros Hhash Hk1 Hk Htransient Hdone.
  apply (waitForConfirmation_ends_at txHash maxAttempts_arg intervalMs_arg env k (inr v));
    try assumption.
  intros env1 ->. now apply poll_once_completed.
Qed.

(** X3. When the first [k - 1] answers are not-found or pending and the
    [k]-th request fails with an error whose status is not 404 (no status at
    all included), [waitForConfirmation] throws that very error after
    exactly [k] requests: it is not retried. *)
Theorem waitForConfirmation_fatal_error (txHash : string)
    (maxAttempts_arg intervalMs_arg : option Z) (env : Env) (k : nat) (e : exn) :
  txHashRegex_test txHash = true ->
  1 <= k ->
  (Z.of_nat k <= default 30%Z maxAttempts_arg)%Z ->
  (forall i, i < k - 1 -> transient (answer txHash env i)) ->
  fails_with (answer txHash env (k - 1)) e ->
  Eff.result (confirm txHash maxAttempts_arg intervalMs_arg env) = inl e
  /\ requests (Eff.trace (confirm txHash maxAttempts_arg intervalMs_arg env)) = k.
Proof.
  intros Hhash Hk1 Hk Htransient Hfatal.
  apply (waitForConfirmation_ends_at txHash maxAttempts_arg intervalMs_arg env k (inl e));
    try assumption.
  intros env1 ->. now apply poll_once_fatal.
Qed.

(** X4. A successful answer without a body is not taken for not-found: when
    it comes as the [k]-th answer, after transient ones, the wait ends there
    with the error Failed to verify payment. *)
Theorem waitForConfirmation_empty_body (txHash : string)
    (maxAttempts_arg intervalMs_arg : option Z) (env : Env) (k : nat) :
  txHashRegex_test txHash = true ->
  1 <= k ->
  (Z.of_nat k <= default 30%Z maxAttempts_arg)%Z ->
  (forall i, i < k - 1 -> transient (answer txHash env i)) ->
  empty_body (answer txHash env (k - 1)) ->
  Eff.result (confirm txHash maxAttempts_arg intervalMs_arg env)
  = inl (Error "Failed to verify payment")
  /\ requests (Eff.trace (confirm txHash maxAttempts_arg intervalMs_arg env)) = k.
Proof.
  intros Hhash Hk1 Hk Htransient Hempty.
  apply (waitForConfirmation_ends_at txHash maxAttempts_arg intervalMs_arg env k
           (inl (Error "Failed to verify payment"))); try assumption.
  intros env1 ->. now apply poll_once_empty_body.
Qed.

(** X5. When every answer is a pending record, [waitForConfirmation] sends
    [maxAttempts] requests, sleeps [intervalMs] after each of them, the last
    one included, and then throws the timeout error. *)
Theorem waitForConfirmation_always_pending (txHash : string)
    (maxAttempts_arg intervalMs_arg : option Z) (env : Env) :
  txHashRegex_test txHash = true ->
  (forall i, i < Z.to_nat (default 30%Z maxAttempts_arg) ->
     still_pending (answer txHash env i)) ->
  let o := confirm txHash maxAttempts_arg intervalMs_arg env in
  Eff.result o
  = inl (Error ("Transaction " ++ txHash ++ " not confirmed after "
                ++ JS.show_Z (default 30%Z maxAttempts_arg) ++ " attempts"))
  /\ requests (Eff.trace o) = Z.to_nat (default 30%Z maxAttempts_arg)
  /\ total_sleep (Eff.trace o)
     = (Z.of_nat (Z.to_nat (default 30%Z maxAttempts_arg))
        * default 2000%Z intervalMs_arg)%Z.
Proof.
  intros Hhash Hall o. subst o.
  rewrite waitForConfirmation_valid_hash by assumption.
  pose proof (poll_always_pending Env http_get_verification txHash
                (default 2000%Z intervalMs_arg) Hhash _ env Hall) as Hsleep.
  destruct (poll_transient_prefix txHash (default 2000%Z intervalMs_arg) Hhash
              (Z.to_nat (default 30%Z maxAttempts_arg))
              (Z.to_nat (default 30%Z maxAttempts_arg)) env (le_n _))
    as [t [Heq Hreq]].
  { intros i Hi. right. now apply Hall. }
  rewrite Heq in *. rewrite Nat.sub_diag in *. cbn [poll] in *.
  unfold after, Eff.ret, Eff.result, Eff.trace in *. cbn [fst snd] in *.
  rewrite app_nil_r in *. repeat split; assumption.
Qed.

(** X6. With [maxAttempts] zero or negative, [waitForConfirmation] sends no
    request at all and throws the timeout error at once. *)
Theorem waitForConfirmation_no_attempts (txHash : string)
    (maxAttempts_arg intervalMs_arg : option Z) (env : Env) :
  txHashRegex_test txHash = true ->
  (default 30%Z maxAttempts_arg <= 0)%Z ->
  confirm txHash maxAttempts_arg intervalMs_arg env
  = (inl (Error ("Transaction " ++ txHash ++ " not confirmed after "
                 ++ JS.show_Z (default 30%Z maxAttempts_arg) ++ " attempts")),
     env, []).
Proof.
  intros Hhash Hle. rewrite waitForConfirmation_valid_hash by assumption.
  replace (Z.to_nat (default 30%Z maxAttempts_arg)) with 0 by lia. reflexivity.
Qed.

(** X7. On a hash that is not 0x and 64 hex digits, [verify] and
    [waitForConfirmation] throw a ValidationError and send no request. *)
Theorem polling_refuses_bad_hash (txHash : string)
    (maxAttempts_arg intervalMs_arg : option Z) (env : Env) :
  txHashRegex_test txHash = false ->
  exists msg,
    verify Env http_get_verification txHash env = (inl (ValidationError msg), env, [])
    /\ confirm txHash maxAttempts_arg intervalMs_arg env
       = (inl (ValidationError msg), env, []).
Proof.
  intros H. unfold verify, waitForConfirmation, Eff.bind, Eff.lift, validateTxHash.
  rewrite H. destruct txHash as [| c rest]; cbn; eauto.
Qed.
End PollingFacts.

(** ** Settlement: the successful path *)

Section SettlementFacts.
Import Validation PaymentsModule.
Variable Env : Type.
Variable resource_t : Type.
Variable amount_usd : resource_t -> option JS.number.
Variable budget_remaining : resource_t -> option JS.number.
Variable http_get_resource :
  Env -> string -> list (string * string) -> (exn + APIResponse resource_t) * Env.
Variable show_number : JS.number -> string.

Local Notation "'settle'" :=
  (submitTxHash Env resource_t amount_usd budget_remaining http_get_resource show_number).

Lemma truthy_number_not_NaN (x : JS.number) :
  JS.truthy_number x = true -> JS.isNaN x = false.
Proof. destruct x; cbn; congruence. Qed.

Lemma or_number_not_NaN (a : option JS.number) (d : JS.number) :
  JS.isNaN d = false -> JS.isNaN (JS.or_number a d) = false.
Proof.
  intros Hd. unfold JS.or_number. destruct a as [x |]; [| assumption].
  destruct (JS.truthy_number x) eqn:Hx; [now apply truthy_number_not_NaN | assumption].
Qed.

(** A price the validator accepts is truthy. *)
Lemma accepted_amount_truthy (p : JS.number) :
  JS.isNaN p = false -> JS.le p (JS.of_Z 0) = false -> JS.truthy_number p = true.
Proof.
  destruct p as [| | | q]; cbn; try congruence. intros _ Hle.
  destruct (Qeq_bool q 0) eqn:Heq; [| reflexivity].
  apply Qeq_bool_iff in Heq.
  assert (Hq : Qle_bool q (inject_Z 0) = true).
  { apply Qle_bool_iff. rewrite Heq. apply Qle_refl. }
  congruence.
Qed.

(** X8. On an input that passes validation, when the gateway answers the
    settlement request, [submitTxHash] returns a result with success true and
    status completed that carries the hash and the response body; its
    amountUsd is the gateway's amount when that is a non-zero number,
    otherwise the caller's price when one was given, otherwise 0; neither
    amountUsd nor budgetRemaining is ever NaN.  One request is sent. *)
Theorem submitTxHash_success (mandate txHash : string)
    (commission chain_arg token_arg : option string) (price : option JS.number)
    (env env' : Env) (response : APIResponse resource_t) :
  submitTxHash_validate show_number mandate txHash commission
    (default "base" chain_arg) (default "USDC" token_arg) price = inr tt ->
  http_get_resource env
    (resource_url show_number (default "base" chain_arg) (default "USDC" token_arg) price)
    (payment_headers mandate txHash commission) = (inr response, env') ->
  let o := settle mandate txHash commission chain_arg token_arg price env in
  exists r,
    Eff.result o = inr r
    /\ SubmitPaymentResponse.success r = true
    /\ SubmitPaymentResponse.status r = "completed"
    /\ SubmitPaymentResponse.txHash r = txHash
    /\ SubmitPaymentResponse.resource r = data response
    /\ SubmitPaymentResponse.amountUsd r
       = match Polling.gateway_amount resource_t amount_usd response, price with
         | Some x, _ => x
         | None, Some p => p
         | None, None => JS.of_Z 0
         end
    /\ JS.isNaN (SubmitPaymentResponse.amountUsd r) = false
    /\ JS.isNaN (SubmitPaymentResponse.budgetRemaining r) = false
    /\ requests (Eff.trace o) = 1.
Proof.
  intros Hv Hget o. subst o.
  rewrite (submitTxHash_validated Env resource_t amount_usd budget_remaining
             http_get_resource show_number) by assumption.
  rewrite Hget. eexists. split; [reflexivity |].
  cbn [SubmitPaymentResponse.success SubmitPaymentResponse.status
       SubmitPaymentResponse.txHash SubmitPaymentResponse.resource
       SubmitPaymentResponse.amountUsd SubmitPaymentResponse.budgetRemaining].
  assert (Hprice : forall p, price = Some p -> JS.truthy_number p = true).
  { intros p ->. unfold submitTxHash_validate in Hv.
    repeat (apply and_then_inr in Hv as [_ Hv]).
    apply (validateAmount_ok show_number) in Hv as [Hnan Hle].
    now apply accepted_amount_truthy. }
  repeat split.
  - unfold Polling.gateway_amount, or_undefined, JS.or_number.
    destruct (data response) as [d |].
    + destruct (amount_usd d) as [x |].
      * destruct (JS.truthy_number x) eqn:Hx; [now rewrite Hx |].
        destruct price as [p |]; [now rewrite (Hprice p eq_refl) | reflexivity].
      * destruct price as [p |]; [now rewrite (Hprice p eq_refl) | reflexivity].
    + destruct price as [p |]; [now rewrite (Hprice p eq_refl) | reflexivity].
  - now apply or_number_not_NaN.
  - now apply or_number_not_NaN.
Qed.
End SettlementFacts.

(** ** The HTTP client, and the payments module on top of it *)

Section HttpClientFacts.
Import Validation PaymentsModule HttpClient.
Variable parseInt : string -> Z.
Variable Env : Type.
Variable resource_t : Type.
Variable amount_usd : resource_t -> option JS.number.
Variable budget_remaining : resource_t -> option JS.number.
Variable axios_get_resource :
  Env -> string -> list (string * string)
  -> (AxiosError.t + AxiosResponse.t resource_t) * Env.
Variable axios_get_verification :
  Env -> string -> list (string * string)
  -> (AxiosError.t + AxiosResponse.t PaymentVerification.t) * Env.
Variable show_number : JS.number -> string.

(** The status of the error made of a failed request. *)
Lemma handleError_statusCode (error : AxiosError.t) :
  match AxiosError.response error with
  | Some r => error_statusCode (handleError parseInt error) = Some (ErrorResponse.status r)
  | None =>
      exists message,
        handleError parseInt error = AgentPayError message "NETWORK_ERROR" None
  end.
Proof.
  unfold handleError. destruct (AxiosError.response error) as [r |]; [| eauto].
  cbv zeta.
  destruct (Z.eqb_spec (ErrorResponse.status r) 429) as [-> | _]; [reflexivity |].
  destruct (Z.eqb_spec (ErrorResponse.status r) 401) as [-> | _]; [reflexivity |].
  destruct (Z.eqb_spec (ErrorResponse.status r) 400) as [-> | _]; cbn [andb].
  - destruct (includes "transaction" _); reflexivity.
  - reflexivity.
Qed.

(** X9. The error [handleError] makes of a failed request always carries the
    status of the response it came with, whichever class it gets; without a
    response it is the generic error with code NETWORK_ERROR and no status,
    so no error it makes without a response has status 404. *)
Theorem handleError_keeps_status (error : AxiosError.t) :
  match AxiosError.response error with
  | Some r => error_statusCode (handleError parseInt error) = Some (ErrorResponse.status r)
  | None =>
      error_statusCode (handleError parseInt error) = None
      /\ exists message,
           handleError parseInt error = AgentPayError message "NETWORK_ERROR" None
  end.
Proof.
  pose proof (handleError_statusCode error) as H.
  destruct (AxiosError.response error) as [r |]; [exact H |].
  destruct H as [message H]. rewrite H. split; [reflexivity | eauto].
Qed.

Lemma handleError_class (error : AxiosError.t) :
  is_InvalidTransactionError (handleError parseInt error) = rejects_transaction error.
Proof.
  unfold handleError, rejects_transaction.
  destruct (AxiosError.response error) as [r |]; [| reflexivity].
  cbv zeta.
  destruct (Z.eqb_spec (ErrorResponse.status r) 429) as [E | _].
  { rewrite E. reflexivity. }
  destruct (Z.eqb_spec (ErrorResponse.status r) 401) as [E | _].
  { rewrite E. reflexivity. }
  destruct ((ErrorResponse.status r =? 400)%Z && includes "transaction" _);
    reflexivity.
Qed.

(** X10. Through the SDK's HTTP client, the answer the polling loop retries
    on (an error with status 404) arises exactly when axios rejects with a
    response whose status is 404; a rejection without response, or with any
    other status, is not retried. *)
Theorem get_not_found_iff_404 (env : Env) (url : string) (hs : list (string * string)) :
  not_found (fst (get parseInt Env axios_get_verification env url hs))
  <-> exists error r,
        fst (axios_get_verification env url hs) = inl error
        /\ AxiosError.response error = Some r
        /\ ErrorResponse.status r = 404%Z.
Proof.
  unfold get, request, not_found.
  destruct (axios_get_verification env url hs) as [[error | response] env'];
    cbn [fst].
  - pose proof (handleError_statusCode error) as H. split.
    + intros [e [[= <-] Hcode]].
      destruct (AxiosError.response error) as [r |] eqn:Hr.
      * exists error, r. repeat split; congruence.
      * destruct H as [message H]. rewrite H in Hcode. discriminate.
    + intros [error' [r [[= <-] [Hr Hs]]]]. rewrite Hr in H.
      exists (handleError parseInt error). split; [reflexivity | congruence].
  - split.
    + intros [e [H _]]. discriminate.
    + intros [error [r [H _]]]. discriminate.
Qed.

(** X11. Through the SDK's HTTP client, on an input that passes validation,
    a failed settlement request comes back as a result (success false, status
    failed, error the body's reason or else Unknown reason) exactly when the
    response has status 400 and its message mentions a transaction; every
    other failure is thrown, as the error [handleError] makes of it. *)
Theorem submitTxHash_failed_result_iff (mandate txHash : string)
    (commission chain_arg token_arg : option string) (price : option JS.number)
    (env env' : Env) (error : AxiosError.t) :
  submitTxHash_validate show_number mandate txHash commission
    (default "base" chain_arg) (default "USDC" token_arg) price = inr tt ->
  axios_get_resource env
    (resource_url show_number (default "base" chain_arg) (default "USDC" token_arg) price)
    (payment_headers mandate txHash commission) = (inl error, env') ->
  let o := submitTxHash Env resource_t amount_usd budget_remaining
             (get parseInt Env axios_get_resource) show_number
             mandate txHash commission chain_arg token_arg price env in
  (rejects_transaction error = true ->
     exists r reason,
       Eff.result o = inr r
       /\ SubmitPaymentResponse.success r = false
       /\ SubmitPaymentResponse.status r = "failed"
       /\ SubmitPaymentResponse.error r = Some reason
       /\ (forall response, AxiosError.response error = Some response ->
             reason = JS.or_string (ErrorResponse.reason response) "Unknown reason"))
  /\ (rejects_transaction error = false ->
        Eff.result o = inl (handleError parseInt error)).
Proof.
  intros Hv Haxios o. subst o.
  rewrite (submitTxHash_validated Env resource_t amount_usd budget_remaining
             (get parseInt Env axios_get_resource) show_number) by assumption.
  unfold get, request. rewrite Haxios.
  pose proof (handleError_class error) as Hclass. split; intros Hrej;
    rewrite Hrej in Hclass.
  - destruct (handleError parseInt error) as [| | | | | | | |m reason|] eqn:Hh;
      try discriminate.
    exists (SubmitPaymentResponse.mk false "failed" txHash commission
              (JS.of_Z 0) (JS.of_Z 0) None (Some reason)), reason.
    repeat split. intros response Hr.
    unfold handleError, rejects_transaction in *. rewrite Hr in *. cbv zeta in Hh.
    destruct (Z.eqb_spec (ErrorResponse.status response) 429); [discriminate |].
    destruct (Z.eqb_spec (ErrorResponse.status response) 401); [discriminate |].
    rewrite Hrej in Hh. congruence.
  - destruct (handleError parseInt error); try reflexivity. discriminate.
Qed.
End HttpClientFacts.

(** ** The mandates module *)

Section MandatesFacts.
Import Validation MandatesModule.
Variable Env : Type.
Variable http_post_issue :
  Env -> string -> JS.number -> string -> JS.number
  -> (exn + APIResponse IssueMandateResponse.t) * Env.
Variable http_post_verify :
  Env -> string -> (exn + APIResponse VerifyMandateResponse.t) * Env.
Variable show_number : JS.number -> string.
Variable parseFloat : string -> JS.number.

Local Notation "'issuing'" := (issue Env http_post_issue show_number).
Local Notation "'verifying'" := (verify Env http_post_verify).
Local Notation "'budget_of'" := (checkBudget Env http_post_verify parseFloat).

Lemma issue_unfold (subject : string) (budget : JS.number)
    (scope_arg : option string) (ttl_arg : option JS.number) (w : Wire Env) :
  issuing subject budget scope_arg ttl_arg w
  = let scope := PaymentsModule.default "*" scope_arg in
    let ttl := PaymentsModule.default (JS.of_Z 43200) ttl_arg in
    match validateRequired (Some subject) "subject" >>
          validateAmount show_number budget "budget" with
    | inl e => (inl e, w, [])
    | inr _ =>
        if JS.le ttl (JS.of_Z 0) then
          (inl (MandateError "ttlMinutes must be positive" "INVALID_TTL"), w, [])
        else
          match http_post_issue (fst w) subject budget scope ttl with
          | (r, env') =>
              (match r with
               | inl e => inl e
               | inr response =>
                   match data response with
                   | None => inl (MandateError "Failed to issue mandate" "ISSUE_FAILED")
                   | Some d => inr d
                   end
               end,
               (env', (snd w ++ [PostIssue subject budget scope ttl])%list), [])
          end
    end.
Proof.
  unfold issue, Eff.bind, Eff.lift, post_issue, Eff.throw, Eff.ret. cbv zeta.
  destruct (validateRequired (Some subject) "subject" >> _) as [e | []];
    [reflexivity |].
  destruct (JS.le _ (JS.of_Z 0)); [reflexivity |].
  destruct (http_post_issue _ _ _ _ _) as [[e | response] env']; [reflexivity |].
  destruct (data response); reflexivity.
Qed.

Lemma verify_unfold (mandateToken : string) (w : Wire Env) :
  verifying mandateToken w
  = match validateRequired (Some mandateToken) "mandateToken" >>
          validateMandateToken mandateToken with
    | inl e => (inl e, w, [])
    | inr _ =>
        match http_post_verify (fst w) mandateToken with
        | (r, env') =>
            (match r with
             | inl e => inl e
             | inr response =>
                 match data response with
                 | None => inl (MandateError "Failed to verify mandate" "VERIFY_FAILED")
                 | Some d =>
                     if negb (VerifyMandateResponse.valid d)
                        && JS.truthy_opt JS.truthy_string (VerifyMandateResponse.error d)
                     then inl (MandateError
                                 ("Mandate verification failed: "
                                  ++ JS.show_string (VerifyMandateResponse.error d))
                                 "VERIFICATION_FAILED")
                     else inr d
                 end
             end,
             (env', (snd w ++ [PostVerify mandateToken])%list), [])
        end
    end.
Proof.
  unfold verify, Eff.bind, Eff.lift, post_verify, Eff.throw, Eff.ret.
  destruct (validateRequired (Some mandateToken) "mandateToken" >> _) as [e | []];
    [reflexivity |].
  destruct (http_post_verify _ _) as [[e | response] env']; [reflexivity |].
  destruct (data response) as [d |]; [| reflexivity].
  destruct (negb _ && _); reflexivity.
Qed.

Lemma mandate_token_validators (mandateToken : string) :
  (validateRequired (Some mandateToken) "mandateToken" >>
   validateMandateToken mandateToken) = inr tt
  <-> validateMandateToken mandateToken = inr tt.
Proof. destruct mandateToken; cbn; split; congruence. Qed.

(** X12. [issue] checks its arguments before it sends anything: an empty
    subject, or a budget that is NaN or not above zero, gives a
    ValidationError, and otherwise a time to live that is zero or negative
    gives the MandateError INVALID_TTL; in each case no request is sent. *)
Theorem issue_refuses_locally (subject : string) (budget : JS.number)
    (scope_arg : option string) (ttl_arg : option JS.number) (w : Wire Env) :
  subject = EmptyString \/ JS.isNaN budget = true \/ JS.le budget (JS.of_Z 0) = true
  \/ JS.le (PaymentsModule.default (JS.of_Z 43200) ttl_arg) (JS.of_Z 0) = true ->
  let o := issuing subject budget scope_arg ttl_arg w in
  Eff.final o = w
  /\ (subject = EmptyString \/ JS.isNaN budget = true \/ JS.le budget (JS.of_Z 0) = true ->
      exists msg, Eff.result o = inl (ValidationError msg))
  /\ (~ (subject = EmptyString \/ JS.isNaN budget = true
         \/ JS.le budget (JS.of_Z 0) = true) ->
      Eff.result o = inl (MandateError "ttlMinutes must be positive" "INVALID_TTL")).
Proof.
  intros Hbad o. subst o. rewrite issue_unfold. cbv zeta.
  unfold validateAmount.
  destruct subject as [| c rest].
  - cbn. repeat split; eauto. intros H. exfalso. apply H. now left.
  - cbn [validateRequired and_then].
    destruct (JS.isNaN budget) eqn:Hnan; cbn [orb].
    + cbn. repeat split; eauto. intros H. exfalso. apply H. auto.
    + destruct (JS.le budget (JS.of_Z 0)) eqn:Hle.
      * cbn. repeat split; eauto. intros H. exfalso. apply H. auto.
      * destruct Hbad as [H | [H | [H | Httl]]]; try discriminate.
        rewrite Httl. cbn. repeat split.
        intros [H | [H | H]]; discriminate.
Qed.

(** X13. Whatever [verify] returns is the body the gateway served for that
    token, after exactly one request; the token was well formed; and the
    verification returned is either valid or carries no error text (an
    invalid one with an error is thrown as a MandateError instead). *)
Theorem verify_returns_clean (mandateToken : string) (w : Wire Env)
    (v : VerifyMandateResponse.t) :
  Eff.result (verifying mandateToken w) = inr v ->
  validateMandateToken mandateToken = inr tt
  /\ (exists r, fst (http_post_verify (fst w) mandateToken) = inr r /\ data r = Some v)
  /\ snd (Eff.final (verifying mandateToken w))
     = (snd w ++ [PostVerify mandateToken])%list
  /\ (VerifyMandateResponse.valid v = true
      \/ JS.truthy_opt JS.truthy_string (VerifyMandateResponse.error v) = false).
Proof.
  rewrite verify_unfold.
  destruct (validateRequired (Some mandateToken) "mandateToken" >> _)
    as [e | []] eqn:Hok; [discriminate |].
  apply mandate_token_validators in Hok.
  destruct (http_post_verify (fst w) mandateToken) as [[e | r] env'];
    unfold Eff.result, Eff.final; cbn [fst snd]; [discriminate |].
  destruct (data r) as [d |] eqn:Hd; [| discriminate].
  destruct (VerifyMandateResponse.valid d) eqn:Hvalid; cbn [negb andb].
  - intros [= <-]. repeat split; eauto.
  - destruct (JS.truthy_opt JS.truthy_string (VerifyMandateResponse.error d)) eqn:Herr;
      [discriminate |].
    intros [= <-]. repeat split; eauto.
Qed.

(** X14. For a well-formed token, [checkBudget] returns a number exactly
    when the gateway serves a valid verification with a payload, and the
    number is what [parseFloat] reads from the payload's budget_remaining;
    in every other case it throws. *)
Theorem checkBudget_iff (mandateToken : string) (w : Wire Env) (b : JS.number) :
  validateMandateToken mandateToken = inr tt ->
  Eff.result (budget_of mandateToken w) = inr b
  <-> exists p, gateway_confirms Env http_post_verify (fst w) mandateToken p
                /\ parseFloat (MandatePayload.budget_remaining p) = b.
Proof.
  intros Hok. unfold checkBudget, Eff.bind, gateway_confirms.
  apply mandate_token_validators in Hok. rewrite verify_unfold, Hok.
  destruct (http_post_verify (fst w) mandateToken) as [[e | r] env'];
    unfold Eff.result; cbn [fst snd].
  - split; [discriminate |]. intros [p [[r [v [H _]]] _]]. discriminate.
  - destruct (data r) as [d |] eqn:Hd; cbn [fst snd].
    2: { split; [discriminate |].
         intros [p [[r0 [v [Hr [Hd' _]]]] _]]. injection Hr as <-. congruence. }
    destruct (VerifyMandateResponse.valid d) eqn:Hvalid; cbn [negb andb].
    + rewrite Hvalid.
      destruct (VerifyMandateResponse.payload d) as [p |] eqn:Hp;
        unfold Eff.ret, Eff.throw; cbn [fst snd].
      * split.
        -- intros [= <-]. exists p. split; [| reflexivity]. exists r, d. auto.
        -- intros [p' [[r0 [v [Hr [Hd' [_ Hp']]]]] <-]]. injection Hr as <-.
           congruence.
      * split; [discriminate |].
        intros [p' [[r0 [v [Hr [Hd' [_ Hp']]]]] _]]. injection Hr as <-. congruence.
    + destruct (JS.truthy_opt JS.truthy_string (VerifyMandateResponse.error d));
        cbn [fst snd]; try rewrite Hvalid; unfold Eff.throw; cbn [fst snd];
        (split; [discriminate |]);
        intros [p' [[r0 [v [Hr [Hd' [Hv' _]]]]] _]]; injection Hr as <-; congruence.
Qed.
End MandatesFacts.

(** ** More on the mandate lifecycle *)

Section LifecycleMoreFacts.
Import ConfigLoader.
Variable Env : Type.
Variable mandates_verify : Env -> string -> (exn + VerifyMandateResponse.t) * Env.
Variable mandates_issue :
  Env -> string -> JS.number -> string -> JS.number
  -> (exn + IssueMandateResponse.t) * Env.
Variable Date_now : Env -> Z.
Variable parseFloat : string -> JS.number.

Local Notation "'ensuring'" :=
  (ensureMandateValid Env mandates_verify mandates_issue Date_now parseFloat).
Local Notation "'renewing'" := (renew Env mandates_issue).

(** The issue call of a loader: its configured subject and budget, its scope
    or else the star, its time to live or else 10080 minutes. *)
Lemma renew_trace_exact (s : St Env) :
  Eff.trace (renewing s)
  = [MandatesIssue (agentId (config (fst s)))
       (budgetUsd (mandate (config (fst s))))
       (JS.or_string (scope (mandate (config (fst s)))) "*")
       (JS.or_number (ttlMinutes (mandate (config (fst s)))) (JS.of_Z 10080))].
Proof.
  rewrite renew_unfold. cbv zeta.
  destruct (mandates_issue (snd s) _ _ _ _) as [[e | m] env']; reflexivity.
Qed.

(** X15. A call of [ensureMandateValid] makes at most two calls to the
    client, in this order: a verify of the token it has cached, then an
    issue; and the issue always asks for the configured subject and budget,
    with the scope defaulting to the star and the time to live to 10080
    minutes when the configuration leaves them out (or has them empty or
    zero). *)
Theorem ensureMandateValid_call_discipline (s : St Env) :
  let t := Eff.trace (ensuring s) in
  let request :=
    MandatesIssue (agentId (config (fst s)))
      (budgetUsd (mandate (config (fst s))))
      (JS.or_string (scope (mandate (config (fst s)))) "*")
      (JS.or_number (ttlMinutes (mandate (config (fst s)))) (JS.of_Z 10080)) in
  t = [request]
  \/ exists token,
       cachedMandateToken (fst s) = Some token
       /\ (t = [MandatesVerify token] \/ t = [MandatesVerify token; request]).
Proof.
  cbv zeta.
  rewrite (ensureMandateValid_unfold Env mandates_verify mandates_issue Date_now parseFloat).
  destruct (fresh_token Env Date_now s) as [token |] eqn:Hfresh.
  - right. exists token. split.
    { exact (proj1 (fresh_token_Some Env Date_now parseFloat s token Hfresh)). }
    assert (Hafter : forall env',
               Eff.trace (Eff.preceded_by (MandatesVerify token) (renewing (fst s, env')))
               = MandatesVerify token :: Eff.trace (renewing (fst s, env'))).
    { intros env'. destruct (renewing (fst s, env')) as [[r s1] t1]. reflexivity. }
    destruct (mandates_verify (snd s) token) as [[e | v] env'].
    + right. rewrite Hafter, renew_trace_exact. reflexivity.
    + destruct (VerifyMandateResponse.valid v).
      * destruct (VerifyMandateResponse.payload v) as [p |].
        -- destruct (JS.gt _ dust); [now left |].
           right. rewrite Hafter, renew_trace_exact. reflexivity.
        -- right. rewrite Hafter, renew_trace_exact. reflexivity.
      * right. rewrite Hafter, renew_trace_exact. reflexivity.
  - left. apply renew_trace_exact.
Qed.

(** X16. [ensureMandateValid] never touches the configuration or the two
    keys of the loader; and whenever it returns a token, that token is the
    one the loader holds in its cache afterwards. *)
Theorem ensureMandateValid_returns_cached (s : St Env) :
  let o := ensuring s in
  config (fst (Eff.final o)) = config (fst s)
  /\ apiKey (fst (Eff.final o)) = apiKey (fst s)
  /\ walletPrivateKey (fst (Eff.final o)) = walletPrivateKey (fst s)
  /\ (forall token, Eff.result o = inr token ->
        cachedMandateToken (fst (Eff.final o)) = Some token).
Proof.
  cbv zeta.
  destruct (ensureMandateValid_cases Env mandates_verify mandates_issue Date_now
              parseFloat s)
    as [[token [b [[Hfresh _] [_ [Hres [Hfin _]]]]]] | [_ [Hres [Hfin _]]]].
  - rewrite Hres, Hfin. cbn [fst]. repeat split.
    intros token' [= <-].
    exact (proj1 (fresh_token_Some Env Date_now parseFloat s token Hfresh)).
  - rewrite Hres, Hfin, renew_unfold. cbv zeta. cbn [fst snd].
    destruct (mandates_issue _ _ _ _ _) as [[e | m] env'];
      unfold Eff.result, Eff.final; cbn [fst snd]; repeat split; try discriminate.
    destruct (JS.valid_time_value _); intros token H; [| discriminate].
    now injection H as <-.
Qed.

(** X17. When a run goes to renewal and the issue call succeeds, the cache is
    replaced by the new token and by its expiry in milliseconds before the
    log line is formatted: the new token is returned when that expiry is a
    representable date, and otherwise a RangeError is thrown although the
    loader already holds the new mandate. *)
Theorem ensureMandateValid_renewal_outcome (s : St Env) (m : IssueMandateResponse.t) :
  renewal_cause Env mandates_verify Date_now parseFloat s ->
  issue_answer Env mandates_issue (fst s)
    (env_at_renewal Env mandates_verify Date_now parseFloat s) = inr m ->
  let o := ensuring s in
  let expiry := JS.mul (IssueMandateResponse.expiresAt m) (JS.of_Z 1000) in
  cachedMandateToken (fst (Eff.final o)) = Some (IssueMandateResponse.mandateToken m)
  /\ mandateExpiresAt (fst (Eff.final o)) = Some expiry
  /\ Eff.result o
     = if JS.valid_time_value expiry
       then inr (IssueMandateResponse.mandateToken m)
       else inl (RangeError "Invalid time value").
Proof.
  intros Hcause Hissue o expiry. subst o expiry.
  destruct (ensureMandateValid_renewal Env mandates_verify mandates_issue Date_now
              parseFloat s Hcause) as [Hres [Hfin _]].
  rewrite Hres, Hfin, renew_unfold. cbv zeta. unfold issue_answer in Hissue.
  cbn [fst snd] in *.
  destruct (mandates_issue _ _ _ _ _) as [[e | m'] env']; cbn [fst] in Hissue;
    [discriminate |].
  injection Hissue as ->. repeat split.
Qed.
End LifecycleMoreFacts.

(** ** The constructor, and the loader with the SDK's own mandates module *)

Section ConstructorFacts.
Import ConfigLoader ConfigLoaderConstructor.
Variable existsSync : string -> bool.
Variable readFileSync : string -> exn + string.
Variable JSON_parse : string -> parsed.
Variable process_env : string -> option string.

Variable Env : Type.
Variable http_post_issue :
  Env -> string -> JS.number -> string -> JS.number
  -> (exn + APIResponse IssueMandateResponse.t) * Env.
Variable http_post_verify :
  Env -> string -> (exn + APIResponse VerifyMandateResponse.t) * Env.
Variable show_number : JS.number -> string.
Variable parseFloat : string -> JS.number.

Local Notation "'construct'" :=
  (constructor existsSync readFileSync JSON_parse process_env).

(** What holds of a loader the constructor returns. *)
Lemma constructor_post (configPath : string) (self : ConfigLoader.t) :
  construct configPath = inr self ->
  cachedMandateToken self = None
  /\ mandateExpiresAt self = None
  /\ agentId (config self) <> EmptyString
  /\ JS.le (budgetUsd (mandate (config self))) (JS.of_Z 0) = false
  /\ apiKey_format (apiKey self) = true
  /\ walletKey_format (walletPrivateKey self) = true.
Proof.
  unfold constructor.
  destruct (existsSync configPath); cbn [negb]; [| discriminate].
  destruct (readFileSync configPath) as [e | content]; [discriminate |].
  destruct (JSON_parse content) as [| | c]; try discriminate.
  destruct (raw_agentId c) as [[| ch rest] |]; try discriminate.
  destruct (raw_mandate c) as [m |]; [| discriminate].
  destruct (raw_budgetUsd m) as [b |]; [| discriminate].
  destruct (JS.le b (JS.of_Z 0)) eqn:Hle; [discriminate |].
  cbv zeta.
  destruct (JS.truthy_string (JS.or_string (process_env "AGENTPAY_API_KEY") EmptyString));
    cbn [negb]; [| discriminate].
  destruct (JS.truthy_string
              (JS.or_string (process_env "AGENTPAY_WALLET_PRIVATE_KEY") EmptyString));
    cbn [negb]; [| discriminate].
  destruct (apiKey_format _) eqn:Hkey; cbn [negb]; [| discriminate].
  destruct (walletKey_format _) eqn:Hwallet; cbn [negb]; [| discriminate].
  intros [= <-]. cbn. repeat split; try assumption. discriminate.
Qed.

(** X18. On a loader the constructor has just returned, the first call of
    [ensureMandateValid] makes no verify call: its one call to the client is
    the issue, for a subject that is not empty and a budget that is not zero
    or negative. *)
Theorem constructed_loader_first_call (configPath : string) (self : ConfigLoader.t)
    (World : Type)
    (mandates_verify : World -> string -> (exn + VerifyMandateResponse.t) * World)
    (mandates_issue : World -> string -> JS.number -> string -> JS.number
                      -> (exn + IssueMandateResponse.t) * World)
    (Date_now : World -> Z) (world : World) :
  construct configPath = inr self ->
  Eff.trace (ensureMandateValid World mandates_verify mandates_issue Date_now parseFloat
               (self, world))
  = [MandatesIssue (agentId (config self)) (budgetUsd (mandate (config self)))
       (JS.or_string (scope (mandate (config self))) "*")
       (JS.or_number (ttlMinutes (mandate (config self))) (JS.of_Z 10080))]
  /\ agentId (config self) <> EmptyString
  /\ JS.le (budgetUsd (mandate (config self))) (JS.of_Z 0) = false.
Proof.
  intros Hc. destruct (constructor_post configPath self Hc)
    as [Htoken [_ [Hid [Hbudget _]]]].
  repeat split; try assumption.
  rewrite (ensureMandateValid_unfold World mandates_verify mandates_issue Date_now
             parseFloat).
  unfold fresh_token. cbn [fst]. rewrite Htoken.
  apply (renew_trace_exact World mandates_issue (self, world)).
Qed.

(** X19. Every API key that [validateApiKey] accepts has the format the
    loader's constructor asks for; the converse fails, the constructor asks
    for the prefix only. *)
Theorem validateApiKey_stricter_than_constructor :
  (forall apiKey, MoreValidation.validateApiKey apiKey = inr tt ->
                  apiKey_format apiKey = true)
  /\ (exists apiKey, apiKey_format apiKey = true
                     /\ MoreValidation.validateApiKey apiKey <> inr tt).
Proof.
  split.
  - intros key. unfold MoreValidation.validateApiKey, MoreValidation.apiKeyRegex_test,
      apiKey_format.
    destruct (JS.truthy_string key); cbn [negb orb]; [| discriminate].
    destruct (String.prefix "pk_live_" key || String.prefix "pk_test_" key);
      cbn [andb negb]; [reflexivity | discriminate].
  - exists "pk_live_mine". split; [reflexivity | discriminate].
Qed.

Local Notation "'sdk_ensure'" :=
  (ensureMandateValid (MandatesModule.Wire Env)
     (MandatesModule.client_verify Env http_post_verify)
     (MandatesModule.client_issue Env http_post_issue show_number)).

(** The renewal of a loader whose client is the mandates module. *)
Lemma sdk_renew (Date_now : MandatesModule.Wire Env -> Z)
    (s : St (MandatesModule.Wire Env)) :
  fresh_token (MandatesModule.Wire Env) Date_now s = None ->
  agentId (config (fst s)) <> EmptyString ->
  JS.isNaN (budgetUsd (mandate (config (fst s)))) = false ->
  JS.le (budgetUsd (mandate (config (fst s)))) (JS.of_Z 0) = false ->
  let o := sdk_ensure Date_now parseFloat s in
  let c := getMandateConfig (fst s) in
  (JS.le (mc_ttlMinutes c) (JS.of_Z 0) = true ->
     Eff.result o = inl (MandateError "ttlMinutes must be positive" "INVALID_TTL")
     /\ Eff.final o = s)
  /\ (JS.le (mc_ttlMinutes c) (JS.of_Z 0) = false ->
        snd (snd (Eff.final o))
        = (snd (snd s)
           ++ [MandatesModule.PostIssue (mc_subject c) (mc_budgetUsd c) (mc_scope c)
                 (mc_ttlMinutes c)])%list).
Proof.
  intros Hfresh Hid Hnan Hle o c. subst o c.
  rewrite (ensureMandateValid_unfold (MandatesModule.Wire Env)), Hfresh.
  rewrite renew_unfold. cbv zeta.
  unfold MandatesModule.client_issue.
  rewrite (issue_unfold Env http_post_issue show_number). cbv zeta.
  unfold Validation.validateAmount.
  cbn [getMandateConfig mc_subject mc_budgetUsd mc_scope mc_ttlMinutes
       PaymentsModule.default].
  rewrite Hnan, Hle.
  destruct (agentId (config (fst s))) as [| ch rest] eqn:Hagent; [congruence |].
  cbn [Validation.validateRequired and_then orb].
  destruct (JS.le (JS.or_number _ (JS.of_Z 10080)) (JS.of_Z 0)) eqn:Httl.
  - split; [| discriminate]. intros _. destruct s as [self w]. split; reflexivity.
  - split; [discriminate |]. intros _.
    destruct (http_post_issue _ _ _ _ _) as [[e | response] env'];
      cbn [fst snd]; [reflexivity |].
    destruct (data response) as [d |]; cbn [fst snd]; [| reflexivity].
    destruct (JS.valid_time_value _); reflexivity.
Qed.

(** X20. With the SDK's mandates module as its client, a loader the
    constructor accepted (its budget a number) gets its first issue request
    past the module's own argument checks and onto the wire, with one
    exception the constructor does not check: a negative time to live, on
    which [ensureMandateValid] throws the MandateError INVALID_TTL and sends
    nothing. *)
Theorem constructed_loader_with_sdk (configPath : string) (self : ConfigLoader.t)
    (Date_now : MandatesModule.Wire Env -> Z) (gateway : Env) :
  construct configPath = inr self ->
  JS.isNaN (budgetUsd (mandate (config self))) = false ->
  let o := sdk_ensure Date_now parseFloat (self, (gateway, [])) in
  let c := getMandateConfig self in
  (JS.le (mc_ttlMinutes c) (JS.of_Z 0) = true ->
     Eff.result o = inl (MandateError "ttlMinutes must be positive" "INVALID_TTL")
     /\ snd (snd (Eff.final o)) = [])
  /\ (JS.le (mc_ttlMinutes c) (JS.of_Z 0) = false ->
        snd (snd (Eff.final o))
        = [MandatesModule.PostIssue (mc_subject c) (mc_budgetUsd c) (mc_scope c)
             (mc_ttlMinutes c)]).
Proof.
  intros Hc Hnan o c. subst o c.
  destruct (constructor_post configPath self Hc) as [Htoken [_ [Hid [Hbudget _]]]].
  destruct (sdk_renew Date_now (self, (gateway, []))) as [Hneg Hpos];
    try assumption.
  { unfold fresh_token. cbn [fst]. now rewrite Htoken. }
  cbv zeta in Hneg, Hpos. cbn [fst snd app] in Hneg, Hpos. split.
  - intros H. destruct (Hneg H) as [-> ->]. split; reflexivity.
  - exact Hpos.
Qed.

(** X21. With the SDK's mandates module as its client, a cached token that
    is not well formed (shorter than 10 characters, or not three
    dot-separated parts) is never sent to the gateway for verification: the
    module refuses it locally and the loader goes on to issue. *)
Theorem malformed_cached_token_not_sent (Date_now : MandatesModule.Wire Env -> Z)
    (s : St (MandatesModule.Wire Env)) (token : string) :
  fresh_token (MandatesModule.Wire Env) Date_now s = Some token ->
  Validation.validateMandateToken token <> inr tt ->
  let o := sdk_ensure Date_now parseFloat s in
  filter MandatesModule.is_PostVerify (snd (snd (Eff.final o)))
  = filter MandatesModule.is_PostVerify (snd (snd s))
  /\ issues (Eff.trace o) = 1.
Proof.
  intros Hfresh Hbad o. subst o.
  rewrite (ensureMandateValid_unfold (MandatesModule.Wire Env)), Hfresh.
  unfold MandatesModule.client_verify.
  rewrite (verify_unfold Env http_post_verify).
  destruct (Validation.validateRequired (Some token) "mandateToken" >> _)
    as [e | []] eqn:Hv.
  2: { apply (mandate_token_validators token) in Hv. contradiction. }
  cbn [fst snd].
  destruct (preceded_by_verify (MandatesModule.Wire Env) token
              (renew (MandatesModule.Wire Env)
                 (MandatesModule.client_issue Env http_post_issue show_number)
                 (fst s, snd s))) as [_ [-> ->]].
  split; [| apply renew_trace].
  rewrite renew_unfold. cbv zeta. unfold MandatesModule.client_issue.
  rewrite (issue_unfold Env http_post_issue show_number). cbv zeta. cbn [fst snd].
  clear Hv.
  destruct (Validation.validateRequired _ "subject" >> _) as [e' | []];
    [reflexivity |].
  destruct (JS.le _ (JS.of_Z 0)); [reflexivity |].
  destruct (http_post_issue _ _ _ _ _) as [[e' | response] env'].
  - cbn [fst snd Eff.final]. rewrite filter_app. apply app_nil_r.
  - destruct (data response) as [d |].
    + cbn [fst snd]. destruct (JS.valid_time_value _);
        cbn [fst snd Eff.final]; rewrite filter_app; apply app_nil_r.
    + cbn [fst snd Eff.final]. rewrite filter_app. apply app_nil_r.
Qed.
End ConstructorFacts.

(** ** Paying from a wallet *)

Section PayWithWalletFacts.
Import Validation MoreValidation PaymentsModule PayWithWallet.
Variable Env : Type.
Variable resource_t : Type.
Variable amount_usd : resource_t -> option JS.number.
Variable budget_remaining : resource_t -> option JS.number.
Variable http_get_resource :
  Env -> string -> list (string * string) -> (exn + APIResponse resource_t) * Env.
Variable show_number : JS.number -> string.
Variable import_ethers : Env -> (exn + unit) * Env.
Variable to_atomic : JS.number -> Z -> exn + Z.
Variable contract_transfer :
  Env -> Wallet.t -> string -> string -> Z -> (exn + string) * Env.
Variable tx_wait : Env -> string -> (exn + unit) * Env.

Local Notation "'submit'" :=
  (submitTxHash Env resource_t amount_usd budget_remaining http_get_resource show_number).
Local Notation "'pay'" :=
  (payWithWallet Env resource_t amount_usd budget_remaining http_get_resource
     show_number import_ethers to_atomic contract_transfer tx_wait).
Local Notation "'body'" :=
  (send_and_submit Env resource_t amount_usd budget_remaining http_get_resource
     show_number import_ethers to_atomic contract_transfer tx_wait).

(** No supported token is the name of a supported chain. *)
Lemma token_is_no_chain (token : string) :
  validateToken token = inr tt ->
  validateChain token
  = inl (ValidationError ("Unsupported chain: " ++ token
                          ++ ". Supported chains: ethereum, base, polygon, arbitrum")).
Proof.
  intros H. apply validateToken_ok in H.
  destruct H as [<- | [<- | [<- | []]]]; reflexivity.
Qed.

(** A call of [submitTxHash] whose checks fail throws and sends nothing. *)
Lemma submitTxHash_invalid (mandate txHash : string)
    (commission chain_arg token_arg : option string) (price : option JS.number)
    (env : Env) (e : exn) :
  submitTxHash_validate show_number mandate txHash commission
    (default "base" chain_arg) (default "USDC" token_arg) price = inl e ->
  submit mandate txHash commission chain_arg token_arg price env = (inl e, env, []).
Proof.
  intros H. unfold submitTxHash. cbv zeta. unfold Eff.bind at 1, Eff.lift.
  now rewrite H.
Qed.

(** With a token where the chain belongs, the checks of [submitTxHash] fail. *)
Lemma submitTxHash_validate_token_as_chain (mandate txHash : string)
    (commission : option string) (token : string) :
  validateToken token = inr tt ->
  exists e, submitTxHash_validate show_number mandate txHash commission token
              "USDC" None = inl e.
Proof.
  intros H. unfold submitTxHash_validate. rewrite (token_is_no_chain token H).
  destruct (validateRequired (Some mandate) "mandate"); cbn [and_then]; [eauto |].
  destruct (validateRequired (Some txHash) "txHash"); cbn [and_then]; [eauto |].
  destruct (validateMandateToken mandate); cbn [and_then]; [eauto |].
  destruct (validateTxHash txHash); cbn [and_then]; eauto.
Qed.

(** The [try] block never gets to its end. *)
Lemma send_and_submit_throws (mandate : string) (wallet : Wallet.t)
    (recipientAddress : string) (amountUsd : JS.number) (chain token : string)
    (env : Env) :
  validateToken token = inr tt ->
  exists e env',
    body mandate wallet recipientAddress amountUsd chain token env = (inl e, env', []).
Proof.
  intros Htoken. unfold send_and_submit, Eff.bind, Eff.lift, library.
  destruct (import_ethers env) as [[e | []] env1]; [eauto |].
  destruct (token_address chain token) as [e | tokenAddress]; [eauto |].
  destruct (to_atomic amountUsd (decimals token)) as [e | amountAtomic]; [eauto |].
  destruct (contract_transfer env1 wallet tokenAddress recipientAddress amountAtomic)
    as [[e | tx_hash] env2]; [eauto |].
  destruct (tx_wait env2 tx_hash) as [[e | []] env3]; [eauto |].
  destruct (submitTxHash_validate_token_as_chain mandate tx_hash (Some chain) token
              Htoken) as [e He].
  rewrite (submitTxHash_invalid mandate tx_hash (Some chain) (Some token) None None
             env3 e He).
  eauto.
Qed.

(** The method, step by step. *)
Lemma payWithWallet_unfold (mandate : string) (wallet : option Wallet.t)
    (recipientAddress : string) (amountUsd : JS.number)
    (chain_arg token_arg : option string) (env : Env) :
  pay mandate wallet recipientAddress amountUsd chain_arg token_arg env
  = let chain := default "base" chain_arg in
    let token := default "USDC" token_arg in
    match payWithWallet_validate show_number mandate wallet recipientAddress
            amountUsd chain token with
    | inl e => (inl e, env, [])
    | inr _ =>
        match wallet with
        | None => (inl (TypeError "Cannot read properties of undefined"), env, [])
        | Some w =>
            if Wallet.sendTransaction w then
              match body mandate w recipientAddress amountUsd chain token env with
              | (inl e, env', t) =>
                  (inl (Error ("Failed to send transaction: " ++ error_message e)),
                   env', t)
              | (inr a, env', t) => (inr a, env', t)
              end
            else
              (inl (Error ("Invalid wallet object. Please provide an ethers.Wallet instance. "
                           ++ "Install ethers.js: npm install ethers@^6.0.0")),
               env, [])
        end
    end.
Proof.
  unfold payWithWallet. cbv zeta. unfold Eff.bind at 1, Eff.lift.
  destruct (payWithWallet_validate _ _ _ _ _ _ _) as [e | []]; [reflexivity |].
  destruct wallet as [w |]; [| reflexivity].
  destruct (Wallet.sendTransaction w); cbn [negb]; [| reflexivity].
  unfold Eff.try_catch, Eff.throw.
  destruct (body _ _ _ _ _ _ env) as [[[e | a] env'] t]; cbn [app];
    rewrite ?app_nil_r; reflexivity.
Qed.

(** X22. [payWithWallet] never returns a payment result and never sends a
    request to the gateway: whatever its arguments and whatever the wallet
    and the chain do, it throws, and its trace of gateway calls is empty. *)
Theorem payWithWallet_never_submits (mandate : string) (wallet : option Wallet.t)
    (recipientAddress : string) (amountUsd : JS.number)
    (chain_arg token_arg : option string) (env : Env) :
  let o := pay mandate wallet recipientAddress amountUsd chain_arg token_arg env in
  (exists e, Eff.result o = inl e) /\ Eff.trace o = [].
Proof.
  cbv zeta. rewrite payWithWallet_unfold. cbv zeta.
  destruct (payWithWallet_validate _ _ _ _ _ _ _) as [e | []] eqn:Hv;
    [split; [eexists |]; reflexivity |].
  destruct wallet as [w |]; [| split; [eexists |]; reflexivity].
  destruct (Wallet.sendTransaction w); [| split; [eexists |]; reflexivity].
  assert (Htoken : validateToken (default "USDC" token_arg) = inr tt).
  { unfold payWithWallet_validate in Hv.
    repeat (apply and_then_inr in Hv as [_ Hv]). exact Hv. }
  destruct (send_and_submit_throws mandate w recipientAddress amountUsd
              (default "base" chain_arg) (default "USDC" token_arg) env Htoken)
    as [e [env' He]].
  rewrite He. split; [eexists |]; reflexivity.
Qed.

(** X23. When the arguments pass the checks and the transfer goes through
    (the transaction is sent and mined, with a well-formed hash),
    [payWithWallet] still throws: the error says the transaction failed to
    send, for an unsupported chain named after the token, and the payment is
    not submitted to the gateway. *)
Theorem payWithWallet_fails_after_transfer (mandate : string) (wallet : Wallet.t)
    (recipientAddress : string) (amountUsd : JS.number)
    (chain_arg token_arg : option string) (tx_hash : string) (env env' : Env) :
  let chain := default "base" chain_arg in
  let token := default "USDC" token_arg in
  payWithWallet_validate show_number mandate (Some wallet) recipientAddress amountUsd
    chain token = inr tt ->
  Wallet.sendTransaction wallet = true ->
  transfer_succeeds Env import_ethers to_atomic contract_transfer tx_wait
    env wallet recipientAddress amountUsd chain token tx_hash env' ->
  validateTxHash tx_hash = inr tt ->
  let o := pay mandate (Some wallet) recipientAddress amountUsd chain_arg token_arg env in
  Eff.result o
  = inl (Error ("Failed to send transaction: Unsupported chain: " ++ token
                ++ ". Supported chains: ethereum, base, polygon, arbitrum"))
  /\ Eff.final o = env'
  /\ Eff.trace o = [].
Proof.
  intros chain token Hv Hsend [env1 [a [n [env2 [Hi [Ha [Hn [Ht Hw]]]]]]]] Hhash o.
  subst o chain token.
  rewrite payWithWallet_unfold. cbv zeta.
  rewrite Hv, Hsend.
  assert (Hsub : submitTxHash_validate show_number mandate tx_hash
                   (Some (default "base" chain_arg)) (default "USDC" token_arg)
                   "USDC" None
                 = inl (ValidationError
                          ("Unsupported chain: " ++ default "USDC" token_arg
                           ++ ". Supported chains: ethereum, base, polygon, arbitrum"))).
  { unfold payWithWallet_validate in Hv.
    apply and_then_inr in Hv as [[[] Hm] Hv]. apply and_then_inr in Hv as [_ Hv].
    apply and_then_inr in Hv as [_ Hv]. apply and_then_inr in Hv as [[[] Hmt] Hv].
    do 3 apply and_then_inr in Hv as [_ Hv].
    unfold submitTxHash_validate.
    rewrite Hm, Hmt, Hhash, (token_is_no_chain _ Hv).
    assert (Hreq : validateRequired (Some tx_hash) "txHash" = inr tt).
    { unfold validateTxHash in Hhash. destruct tx_hash; [discriminate | reflexivity]. }
    rewrite Hreq. reflexivity. }
  unfold send_and_submit, Eff.bind, Eff.lift, library.
  rewrite Hi, Ha, Hn, Ht, Hw.
  rewrite (submitTxHash_invalid mandate tx_hash _ (Some (default "USDC" token_arg))
             None None env' _ Hsub).
  repeat split.
Qed.
End PayWithWalletFacts.

(** ** Webhook configuration *)

Section WebhookConfigFacts.
Import Validation WebhookConfig.
Variable Env : Type.
Variable Webhook : Type.
Variable URL_parses : string -> bool.
Variable http_post_configure :
  Env -> WebhookConfig.t -> (exn + APIResponse Webhook) * Env.

Lemma check_events_passes (events : list string) :
  check_events events = inr tt <-> Forall (fun event => In event validEvents) events.
Proof.
  induction events as [| event rest IH]; cbn [check_events].
  - split; [constructor | reflexivity].
  - destruct (includes validEvents event) eqn:Hin; cbn [negb].
    + rewrite IH. apply includes_In in Hin. split.
      * now constructor.
      * intros H. now inversion H.
    + split; [discriminate |]. intros H. inversion H as [| ? ? Hev _]. subst.
      apply includes_In in Hev. congruence.
Qed.

(** X24. [create] posts a webhook configuration exactly when the URL is not
    empty and parses, and the list of events is not empty and holds valid
    events only; what it posts then is the one body made of its three
    arguments, and in every other case nothing is sent. *)
Theorem create_posts_iff (url : string) (events : list string)
    (secret : option string) (env : Env) :
  let o := create Env Webhook URL_parses http_post_configure url events secret
             (env, []) in
  let posted := snd (Eff.final o) in
  (posted = [] \/ posted = [WebhookConfig.mk url events secret])
  /\ (posted <> [] <->
      url <> EmptyString /\ URL_parses url = true /\ events <> []
      /\ Forall (fun event => In event validEvents) events).
Proof.
  cbv zeta. unfold create, Eff.bind, Eff.lift, validateUrl, post_configure,
    Eff.throw, Eff.ret.
  cbn [fst snd app].
  destruct url as [| c u]; cbn [validateRequired and_then Eff.final fst snd].
  { split; [now left |]. split; [congruence | intros [H _]; congruence]. }
  destruct (URL_parses (String c u)); cbn [Eff.final fst snd].
  2: { split; [now left |]. split; [congruence |]. intros [_ [H _]]. discriminate. }
  destruct events as [| event rest]; cbn [List.length Nat.eqb Eff.final fst snd].
  { split; [now left |]. split; [congruence |]. intros [_ [_ [H _]]]. congruence. }
  destruct (check_events (event :: rest)) as [e | []] eqn:Hev;
    cbn [Eff.final fst snd].
  { split; [now left |]. split; [congruence |]. intros [_ [_ [_ H]]].
    apply check_events_passes in H. congruence. }
  apply check_events_passes in Hev.
  destruct (http_post_configure env _) as [[e | response] env'];
    [| destruct (data response)]; cbn [Eff.final fst snd];
    (split; [now right |]; split; [intros _ | discriminate];
     repeat split; try assumption; discriminate).
Qed.
End WebhookConfigFacts.

(** ** Runs of the further properties *)

Section MoreRuns.
Import Fixtures MoreFixtures Scenarios.

(** A run of X2: pending, then completed. *)
Lemma waitForConfirmation_returns_completed_run :
  Eff.result (PaymentsModule.waitForConfirmation Gateway completes_on_second txHash
                None None 0)
  = inr (record "completed" None)
  /\ PaymentsModule.requests
       (Eff.trace (PaymentsModule.waitForConfirmation Gateway completes_on_second txHash
                     None None 0)) = 2.
Proof.
  apply (waitForConfirmation_returns_completed Gateway completes_on_second txHash
           None None 0 2 (record "completed" None)).
  - reflexivity.
  - apply le_S, le_n.
  - discriminate.
  - intros [| i] Hi.
    + right. exists (ok (record "pending" None)), (record "pending" None).
      repeat split; discriminate.
    + exfalso. apply Nat.succ_lt_mono in Hi. inversion Hi.
  - exists (ok (record "completed" None)). repeat split.
Defined.

(** A run of X3: not found, then a server error. *)
Lemma waitForConfirmation_fatal_error_run :
  Eff.result (PaymentsModule.waitForConfirmation Gateway breaks_on_second txHash
                None None 0)
  = inl server_error
  /\ PaymentsModule.requests
       (Eff.trace (PaymentsModule.waitForConfirmation Gateway breaks_on_second txHash
                     None None 0)) = 2.
Proof.
  apply (waitForConfirmation_fatal_error Gateway breaks_on_second txHash
           None None 0 2 server_error).
  - reflexivity.
  - apply le_S, le_n.
  - discriminate.
  - intros [| i] Hi.
    + left. exists not_found_error. split; reflexivity.
    + exfalso. apply Nat.succ_lt_mono in Hi. inversion Hi.
  - split; [reflexivity | discriminate].
Defined.

(** A run of X4: the first answer has no body. *)
Lemma waitForConfirmation_empty_body_run :
  Eff.result (PaymentsModule.waitForConfirmation Gateway bodyless txHash None None 0)
  = inl (Error "Failed to verify payment")
  /\ PaymentsModule.requests
       (Eff.trace (PaymentsModule.waitForConfirmation Gateway bodyless txHash
                     None None 0)) = 1.
Proof.
  apply (waitForConfirmation_empty_body Gateway bodyless txHash None None 0 1).
  - reflexivity.
  - apply le_n.
  - discriminate.
  - intros i Hi. inversion Hi.
  - exists (mkAPIResponse true None 200%Z []). split; reflexivity.
Defined.

(** A run of X5: three attempts, half a second apart, on a pending record. *)
Lemma waitForConfirmation_always_pending_run :
  let o := PaymentsModule.waitForConfirmation Gateway always_pending txHash
             (Some 3%Z) (Some 500%Z) 0 in
  Eff.result o
  = inl (Error ("Transaction " ++ txHash ++ " not confirmed after 3 attempts"))
  /\ PaymentsModule.requests (Eff.trace o) = 3
  /\ PaymentsModule.total_sleep (Eff.trace o) = 1500%Z.
Proof.
  apply (waitForConfirmation_always_pending Gateway always_pending txHash
           (Some 3%Z) (Some 500%Z) 0).
  - reflexivity.
  - intros i _. exists (ok (record "pending" None)), (record "pending" None).
    repeat split; discriminate.
Defined.

(** A run of X6: no attempt allowed. *)
Lemma waitForConfirmation_no_attempts_run :
  PaymentsModule.waitForConfirmation Gateway never_found txHash (Some 0%Z) None 0
  = (inl (Error ("Transaction " ++ txHash ++ " not confirmed after 0 attempts")), 0, []).
Proof.
  apply (waitForConfirmation_no_attempts Gateway never_found txHash (Some 0%Z) None 0).
  - reflexivity.
  - apply Z.le_refl.
Defined.

(** A run of X7: a hash that is too short. *)
Lemma polling_refuses_bad_hash_run :
  exists msg,
    PaymentsModule.verify Gateway never_found "0x12" 0 = (inl (ValidationError msg), 0, [])
    /\ PaymentsModule.waitForConfirmation Gateway never_found "0x12" None None 0
       = (inl (ValidationError msg), 0, []).
Proof.
  apply (polling_refuses_bad_hash Gateway never_found "0x12" None None 0).
  reflexivity.
Defined.

(** A run of X8: the gateway settles and reports no amounts, the caller gave
    a price of 5. *)
Lemma submitTxHash_success_run :
  let o := PaymentsModule.submitTxHash Gateway Resource fst snd settles_silently
             show_number mandateToken txHash None None None (Some (JS.of_Z 5)) 0 in
  exists r,
    Eff.result o = inr r
    /\ SubmitPaymentResponse.success r = true
    /\ SubmitPaymentResponse.status r = "completed"
    /\ SubmitPaymentResponse.txHash r = txHash
    /\ SubmitPaymentResponse.resource r = Some (None, None)
    /\ SubmitPaymentResponse.amountUsd r = JS.of_Z 5
    /\ JS.isNaN (SubmitPaymentResponse.amountUsd r) = false
    /\ JS.isNaN (SubmitPaymentResponse.budgetRemaining r) = false
    /\ PaymentsModule.requests (Eff.trace o) = 1.
Proof.
  apply (submitTxHash_success Gateway Resource fst snd settles_silently show_number
           mandateToken txHash None None None (Some (JS.of_Z 5)) 0 1
           (ok (None, None)));
    reflexivity.
Defined.

(** A run of X11: axios rejects with status 400 and a message about the
    transaction. *)
Lemma submitTxHash_failed_result_iff_run :
  let o := PaymentsModule.submitTxHash Gateway Resource fst snd
             (HttpClient.get parseInt Gateway axios_rejects) show_number
             mandateToken txHash None None None None 0 in
  (HttpClient.rejects_transaction rejection = true ->
     exists r reason,
       Eff.result o = inr r
       /\ SubmitPaymentResponse.success r = false
       /\ SubmitPaymentResponse.status r = "failed"
       /\ SubmitPaymentResponse.error r = Some reason
       /\ (forall response,
             HttpClient.AxiosError.response rejection = Some response ->
             reason = JS.or_string (HttpClient.ErrorResponse.reason response)
                        "Unknown reason"))
  /\ (HttpClient.rejects_transaction rejection = false ->
        Eff.result o = inl (HttpClient.handleError parseInt rejection)).
Proof.
  apply (submitTxHash_failed_result_iff parseInt Gateway Resource fst snd axios_rejects
           show_number mandateToken txHash None None None None 0 1 rejection);
    reflexivity.
Defined.

(** A run of X12: an empty subject. *)
Lemma issue_refuses_locally_run :
  let o := MandatesModule.issue Gateway post_issue_grants show_number EmptyString
             (JS.of_Z 10) None None (0, []) in
  Eff.final o = (0, [])
  /\ (EmptyString = EmptyString \/ JS.isNaN (JS.of_Z 10) = true
      \/ JS.le (JS.of_Z 10) (JS.of_Z 0) = true ->
      exists msg, Eff.result o = inl (ValidationError msg))
  /\ (~ (EmptyString = EmptyString \/ JS.isNaN (JS.of_Z 10) = true
         \/ JS.le (JS.of_Z 10) (JS.of_Z 0) = true) ->
      Eff.result o = inl (MandateError "ttlMinutes must be positive" "INVALID_TTL")).
Proof.
  apply (issue_refuses_locally Gateway post_issue_grants show_number EmptyString
           (JS.of_Z 10) None None (0, [])).
  left. reflexivity.
Defined.

(** A run of X13: the gateway confirms the token. *)
Lemma verify_returns_clean_run :
  let v := VerifyMandateResponse.mk true (Some (payload "7.00")) None in
  Validation.validateMandateToken mandateToken = inr tt
  /\ (exists r, fst (post_verify_funded 0 mandateToken) = inr r /\ data r = Some v)
  /\ snd (Eff.final (MandatesModule.verify Gateway post_verify_funded mandateToken
                       (0, [])))
     = [MandatesModule.PostVerify mandateToken]
  /\ (VerifyMandateResponse.valid v = true
      \/ JS.truthy_opt JS.truthy_string (VerifyMandateResponse.error v) = false).
Proof.
  apply (verify_returns_clean Gateway post_verify_funded mandateToken (0, [])
           (VerifyMandateResponse.mk true (Some (payload "7.00")) None)).
  reflexivity.
Defined.

(** A run of X14: the budget left on a confirmed token. *)
Lemma checkBudget_iff_run :
  Eff.result (MandatesModule.checkBudget Gateway post_verify_funded parseFloat
                mandateToken (0, [])) = inr (JS.of_Z 7)
  <-> exists p,
        MandatesModule.gateway_confirms Gateway post_verify_funded 0 mandateToken p
        /\ parseFloat (MandatePayload.budget_remaining p) = JS.of_Z 7.
Proof.
  apply (checkBudget_iff Gateway post_verify_funded parseFloat mandateToken (0, [])
           (JS.of_Z 7)).
  reflexivity.
Defined.

(** A run of X17: the verified budget is exhausted and the issue call
    succeeds. *)
Lemma ensureMandateValid_renewal_outcome_run :
  let o := ConfigLoader.ensureMandateValid World verify_exhausted issue_grants
             Date_now parseFloat (holding, now) in
  ConfigLoader.cachedMandateToken (fst (Eff.final o)) = Some "header.payload.renewed"
  /\ ConfigLoader.mandateExpiresAt (fst (Eff.final o))
     = Some (JS.mul (JS.of_Z 1700003600) (JS.of_Z 1000))
  /\ Eff.result o
     = if JS.valid_time_value (JS.mul (JS.of_Z 1700003600) (JS.of_Z 1000))
       then inr "header.payload.renewed"
       else inl (RangeError "Invalid time value").
Proof.
  apply (ensureMandateValid_renewal_outcome World verify_exhausted issue_grants
           Date_now parseFloat (holding, now) renewed).
  - right; right; left. exists mandateToken, (JS.of_Z 0). split; [| reflexivity].
    split; [reflexivity |].
    exists (VerifyMandateResponse.mk true (Some (payload "0.00")) None), (payload "0.00").
    repeat split.
  - reflexivity.
Defined.

(** A run of X18: the loader made from the sample configuration. *)
Lemma constructed_loader_first_call_run :
  Eff.trace (ConfigLoader.ensureMandateValid World verify_funded issue_grants
               Date_now parseFloat (loader None None, now))
  = [MandatesIssue "agent@example.com" (JS.of_Z 10) "*" (JS.of_Z 60)]
  /\ "agent@example.com" <> EmptyString
  /\ JS.le (JS.of_Z 10) (JS.of_Z 0) = false.
Proof.
  apply (constructed_loader_first_call existsSync readFileSync parse_config process_env
           parseFloat configPath (loader None None) World verify_funded issue_grants
           Date_now now).
  reflexivity.
Defined.

(** A run of X20: the same loader wired to the mandates module. *)
Lemma constructed_loader_with_sdk_run :
  let o := ConfigLoader.ensureMandateValid (MandatesModule.Wire Gateway)
             (MandatesModule.client_verify Gateway post_verify_funded)
             (MandatesModule.client_issue Gateway post_issue_grants show_number)
             wire_clock parseFloat (loader None None, (0, [])) in
  (JS.le (JS.of_Z 60) (JS.of_Z 0) = true ->
     Eff.result o = inl (MandateError "ttlMinutes must be positive" "INVALID_TTL")
     /\ snd (snd (Eff.final o)) = [])
  /\ (JS.le (JS.of_Z 60) (JS.of_Z 0) = false ->
        snd (snd (Eff.final o))
        = [MandatesModule.PostIssue "agent@example.com" (JS.of_Z 10) "*" (JS.of_Z 60)]).
Proof.
  apply (constructed_loader_with_sdk existsSync readFileSync parse_config process_env
           Gateway post_issue_grants post_verify_funded show_number parseFloat
           configPath (loader None None) wire_clock 0);
    reflexivity.
Defined.

(** A run of X21: the cached token has no dots. *)
Lemma malformed_cached_token_not_sent_run :
  let o := ConfigLoader.ensureMandateValid (MandatesModule.Wire Gateway)
             (MandatesModule.client_verify Gateway post_verify_funded)
             (MandatesModule.client_issue Gateway post_issue_grants show_number)
             wire_clock parseFloat (holding_malformed, (0, [])) in
  filter MandatesModule.is_PostVerify (snd (snd (Eff.final o))) = []
  /\ ConfigLoader.issues (Eff.trace o) = 1.
Proof.
  apply (malformed_cached_token_not_sent Gateway post_issue_grants post_verify_funded
           show_number parseFloat wire_clock (holding_malformed, (0, []))
           "not-a-token").
  - reflexivity.
  - discriminate.
Defined.

(** A run of X23: three USDC on base, the transfer mined. *)
Lemma payWithWallet_fails_after_transfer_run :
  let o := PayWithWallet.payWithWallet Gateway Resource fst snd settles show_number
             import_ethers to_atomic contract_transfer tx_wait
             mandateToken (Some wallet) recipient (JS.of_Z 3) None None 0 in
  Eff.result o
  = inl (Error ("Failed to send transaction: Unsupported chain: USDC"
                ++ ". Supported chains: ethereum, base, polygon, arbitrum"))
  /\ Eff.final o = 2
  /\ Eff.trace o = [].
Proof.
  apply (payWithWallet_fails_after_transfer Gateway Resource fst snd settles show_number
           import_ethers to_atomic contract_transfer tx_wait
           mandateToken wallet recipient (JS.of_Z 3) None None txHash 0 2).
  - reflexivity.
  - reflexivity.
  - exists 0, "0x833589fCD6eDb6E08f4c7C32D4f71b54bdA02913", 3000000%Z, 1.
    repeat split.
  - reflexivity.
Defined.
End MoreRuns.
